(** * Options chain risk and vehicle-selection engine

    A shallow embedding of the analysis core of the repository:
    [ChainAnalyzer] (chain_analyzer.py), [RiskEngine] (risk_engine.py),
    [VehicleSelector] (vehicle_selector.py), the tools and helpers of
    server.py and the spread trade of main.py.

    Conventions of the embedding.
    - A Python [int] is a [Z].
    - A [float] that the program receives (a cell of a frame, a field of a
      request or of an analysis) is held by its exact value, a rational
      [Q]; comparisons and formatting read that value.  A cell that may be
      NaN is an [option], [None] being NaN.
    - A [float] that main.py or the risk engine computes is a binary64
      number ([Float.t]): every operation rounds to the nearest double,
      ties to even, and NaN and the infinities propagate as in IEEE 754.
    - [None] is [None]; a raised exception is the [Raise] outcome.
    - A pandas DataFrame is the list of its rows in positional order.
    - The clock reading [datetime.now().date()] is an explicit argument.
    - Calls to [logger] are not part of the model. *)

From Stdlib Require Import ZArith QArith Qround Qabs Bool List String Ascii.
From Stdlib Require Import Lia Lqa Sorting.Sorted Numbers.DecimalString.
From Stdlib Require Import Sorting.Permutation Floats.SpecFloat.
Import ListNotations.

(** ** Python built-ins used by the program *)

Module Py.

Inductive exn : Type :=
| IndexError
| ValueError (msg : string)
| ZeroDivisionError
| OptionsDataError (symbol detail : string).

Inductive outcome (A : Type) : Type :=
| Return (a : A)
| Raise (e : exn).

Arguments Return {A} a.
Arguments Raise {A} e.

(** Running [m] and then [k] on its result; an exception of [m] ends the
    computation. *)
Definition bind {A B : Type} (m : outcome A) (k : A -> outcome B)
  : outcome B :=
  match m with
  | Return a => k a
  | Raise e => Raise e
  end.

(** [a < b] on floats. *)
Definition Qltb (a b : Q) : bool := negb (Qle_bool b a).

(** [x or 0] for an optional number: [None] and [0] both give [0]. *)
Definition or0 (o : option Q) : Q :=
  match o with
  | Some x => x
  | None => 0
  end.

(** [abs] on floats. *)
Definition abs (q : Q) : Q := Qabs q.

Definition pow10 (nd : nat) : Z := Z.pow 10 (Z.of_nat nd).

(** Rounding to the nearest integer, halves to the even neighbour. *)
Definition round_half_even (q : Q) : Z :=
  let f := Qfloor q in
  match Qcompare (q - inject_Z f) (1 # 2) with
  | Lt => f
  | Gt => (f + 1)%Z
  | Eq => if Z.even f then f else (f + 1)%Z
  end.

(** [str(n)] for an [int]. *)
Definition str_int (z : Z) : string := NilZero.string_of_int (Z.to_int z).

Fixpoint zeros (n : nat) : string :=
  match n with
  | O => EmptyString
  | S k => String "0"%char (zeros k)
  end.

(** The decimal digits of [n], left-padded with zeros to [width]. *)
Definition zero_padded (width : nat) (n : Z) : string :=
  let s := str_int n in
  (zeros (width - String.length s) ++ s)%string.

(** [format(x, ".<nd>f")]: fixed-point notation with [nd] decimals, the
    exact value rounded to the nearest, halves to even; a negative value
    keeps its sign when it rounds to zero. *)
Definition format_f (nd : nat) (q : Q) : string :=
  let n := round_half_even (Qabs q * inject_Z (pow10 nd)) in
  let sign := if Qltb q 0 then "-"%string else EmptyString in
  let whole := str_int (n / pow10 nd) in
  match nd with
  | O => (sign ++ whole)%string
  | S _ => (sign ++ whole ++ "." ++ zero_padded nd (n mod pow10 nd))%string
  end.

(** The least number of decimals, between 1 and [fuel], that writes [q]
    exactly; [fuel] when there is none. *)
Fixpoint decimals_needed (fuel : nat) (nd : nat) (q : Q) : nat :=
  match fuel with
  | O => nd
  | S k =>
      if Pos.eqb (Qden (Qred (q * inject_Z (pow10 nd)))) 1 then nd
      else decimals_needed k (S nd) q
  end.

(** [str(x)] for a [float] in the range printed without an exponent: the
    shortest decimal that reads back as [x], with at least one decimal. *)
Definition str_float (q : Q) : string :=
  format_f (decimals_needed 16 1 q) q.

(** [sub in s] for strings. *)
Fixpoint str_in (sub s : string) : bool :=
  String.prefix sub s ||
  match s with
  | EmptyString => false
  | String _ rest => str_in sub rest
  end.

(** [x in t] for a tuple of strings. *)
Definition in_tuple (x : string) (t : list string) : bool :=
  existsb (String.eqb x) t.

Definition lower_char (c : ascii) : ascii :=
  let n := nat_of_ascii c in
  if (65 <=? n)%nat && (n <=? 90)%nat then ascii_of_nat (n + 32) else c.

(** [s.lower()]. *)
Fixpoint lower (s : string) : string :=
  match s with
  | EmptyString => EmptyString
  | String c rest => String (lower_char c) (lower rest)
  end.

(** Truth value of an optional string: [None] and [""] are false. *)
Definition truthy (o : option string) : bool :=
  match o with
  | Some (String _ _) => true
  | _ => false
  end.

Definition upper_char (c : ascii) : ascii :=
  let n := nat_of_ascii c in
  if (97 <=? n)%nat && (n <=? 122)%nat then ascii_of_nat (n - 32) else c.

(** [s.upper()], on ASCII text. *)
Fixpoint upper (s : string) : string :=
  match s with
  | EmptyString => EmptyString
  | String c rest => String (upper_char c) (upper rest)
  end.

(** The ASCII characters [str.isspace] accepts: tab to carriage return,
    the four separators 28 to 31, and the space. *)
Definition is_space (c : ascii) : bool :=
  let n := nat_of_ascii c in
  ((9 <=? n)%nat && (n <=? 13)%nat)
  || ((28 <=? n)%nat && (n <=? 31)%nat)
  || (n =? 32)%nat.

Fixpoint lstrip (s : string) : string :=
  match s with
  | EmptyString => EmptyString
  | String c rest => if is_space c then lstrip rest else s
  end.

(** [s.rstrip()]: a character is kept when it is not a space or when
    something is kept after it. *)
Fixpoint rstrip (s : string) : string :=
  match s with
  | EmptyString => EmptyString
  | String c rest =>
      match rstrip rest with
      | EmptyString => if is_space c then EmptyString
                       else String c EmptyString
      | kept => String c kept
      end
  end.

(** [s.strip()], on ASCII text. *)
Definition strip (s : string) : string := rstrip (lstrip s).

(** *** [datetime]: dates, ordinals and [strptime(s, "%Y-%m-%d")] *)

Record date : Type := mkdate { year : Z; month : Z; day : Z }.

Definition _is_leap (y : Z) : bool :=
  (y mod 4 =? 0)%Z && (negb (y mod 100 =? 0)%Z || (y mod 400 =? 0)%Z).

Definition _days_before_year (y0 : Z) : Z :=
  let y := (y0 - 1)%Z in
  (y * 365 + y / 4 - y / 100 + y / 400)%Z.

Definition _DAYS_IN_MONTH (m : Z) : Z :=
  if (m =? 2)%Z then 28
  else if (m =? 4)%Z || (m =? 6)%Z || (m =? 9)%Z || (m =? 11)%Z then 30
  else 31.

Definition _days_in_month (y m : Z) : Z :=
  if (m =? 2)%Z && _is_leap y then 29 else _DAYS_IN_MONTH m.

(** Days of the year before the first of month [m]. *)
Definition _days_before_month (y m : Z) : Z :=
  let before :=
    fold_left (fun acc k => (acc + _DAYS_IN_MONTH (Z.of_nat k))%Z)
              (seq 1 (Z.to_nat m - 1)) 0%Z in
  (before + (if (2 <? m)%Z && _is_leap y then 1 else 0))%Z.

(** [d.toordinal()]: 1 is 0001-01-01. *)
Definition toordinal (d : date) : Z :=
  (_days_before_year (year d) + _days_before_month (year d) (month d)
   + day d)%Z.

(** [(a - b).days] for two dates. *)
Definition days_between (a b : date) : Z := (toordinal a - toordinal b)%Z.

Definition digit (c : ascii) : option Z :=
  let n := nat_of_ascii c in
  if (48 <=? n)%nat && (n <=? 57)%nat then Some (Z.of_nat (n - 48)) else None.

(** The text before the first ["-"] and the text after it. *)
Fixpoint split_dash (s : string) : option (string * string) :=
  match s with
  | EmptyString => None
  | String c rest =>
      if Ascii.eqb c "-"%char then Some (EmptyString, rest)
      else match split_dash rest with
           | Some (a, b) => Some (String c a, b)
           | None => None
           end
  end.

(** [%Y]: exactly four digits. *)
Definition parse_Y (s : string) : option Z :=
  match s with
  | String a (String b (String c (String d EmptyString))) =>
      match digit a, digit b, digit c, digit d with
      | Some x, Some y, Some z, Some w =>
          Some (x * 1000 + y * 100 + z * 10 + w)%Z
      | _, _, _, _ => None
      end
  | _ => None
  end.

(** [%m]: [1[0-2]|0[1-9]|[1-9]]. *)
Definition parse_m (s : string) : option Z :=
  match s with
  | String a EmptyString =>
      match digit a with
      | Some x => if (1 <=? x)%Z then Some x else None
      | None => None
      end
  | String a (String b EmptyString) =>
      match digit a, digit b with
      | Some x, Some y =>
          let v := (x * 10 + y)%Z in
          if (x <=? 1)%Z && (1 <=? v)%Z && (v <=? 12)%Z then Some v else None
      | _, _ => None
      end
  | _ => None
  end.

(** [%d]: [3[01]|[12]\d|0[1-9]|[1-9]| [1-9]]. *)
Definition parse_d (s : string) : option Z :=
  match s with
  | String a EmptyString =>
      match digit a with
      | Some x => if (1 <=? x)%Z then Some x else None
      | None => None
      end
  | String a (String b EmptyString) =>
      match digit b with
      | Some y =>
          if Ascii.eqb a " "%char then
            if (1 <=? y)%Z then Some y else None
          else
            match digit a with
            | Some x =>
                let v := (x * 10 + y)%Z in
                if (1 <=? v)%Z && (v <=? 31)%Z then Some v else None
            | None => None
            end
      | None => None
      end
  | _ => None
  end.

(** [datetime.strptime(s, "%Y-%m-%d").date()]; [None] is [ValueError]
    (no match, text left over, or a day that the month does not have). *)
Definition strptime_ymd (s : string) : option date :=
  match split_dash s with
  | Some (ys, rest) =>
      match split_dash rest with
      | Some (ms, ds) =>
          match parse_Y ys, parse_m ms, parse_d ds with
          | Some y, Some m, Some d =>
              if (1 <=? y)%Z && (d <=? _days_in_month y m)%Z
              then Some (mkdate y m d) else None
          | _, _, _ => None
          end
      | None => None
      end
  | None => None
  end.

End Py.

Notation "x <- m ;; k" := (Py.bind m (fun x => k))
  (at level 61, m at next level, right associativity).

(** ** Python floats: IEEE 754 binary64

    The numbers that Python's [float] arithmetic produces, on the
    Standard Library's [SpecFloat] with 53 bits of precision: every
    operation rounds its exact result to the nearest double, ties to
    even. *)

Module Float.

Definition t : Type := spec_float.

Definition prec : Z := 53.
Definition emax : Z := 1024.

Definition nan : t := S754_nan.

(** [0.0]; the int [0] in float arithmetic is the same number. *)
Definition zero : t := S754_zero false.

(** An int in float arithmetic, correctly rounded.  (From 2^1024 on
    Python raises [OverflowError] where this gives an infinity.) *)
Definition of_Z (z : Z) : t := binary_normalize prec emax z 0 false.

(** The double nearest to [n / d]. *)
Definition ratio (n : Z) (d : positive) : t :=
  match n with
  | Z0 => zero
  | Zpos p => SFdiv prec emax (S754_finite false p 0) (S754_finite false d 0)
  | Zneg p => SFdiv prec emax (S754_finite true p 0) (S754_finite false d 0)
  end.

(** The double nearest to a rational: how a number that the program was
    given enters its float arithmetic (a double is its own nearest). *)
Definition of_Q (q : Q) : t := ratio (Qnum q) (Qden q).

(** A float cell of a frame: a number, or NaN. *)
Definition of_cell (cell : option Q) : t :=
  match cell with
  | Some q => of_Q q
  | None => nan
  end.

(** The value [m * 2^e] of a finite double, sign apart. *)
Definition magnitude (m : positive) (e : Z) : Q :=
  inject_Z (Zpos m) * Qpower 2 e.

(** The exact value of a double; [None] for NaN and the infinities. *)
Definition exact (x : t) : option Q :=
  match x with
  | S754_zero _ => Some 0
  | S754_finite s m e =>
      Some (if s then - magnitude m e else magnitude m e)
  | _ => None
  end.

Definition add : t -> t -> t := SFadd prec emax.
Definition sub : t -> t -> t := SFsub prec emax.
Definition mul : t -> t -> t := SFmul prec emax.
Definition abs : t -> t := SFabs.

(** [a < b] and [a == b]; both are false when a side is NaN. *)
Definition ltb : t -> t -> bool := SFltb.
Definition eqb : t -> t -> bool := SFeqb.

(** [x != 0], which is also the truth value of [x]: false on the two
    zeros only, true on NaN. *)
Definition nonzero (x : t) : bool := negb (eqb x zero).

(** [x or 0]. *)
Definition or0 (x : t) : t := if nonzero x then x else zero.

(** The quotient of two floats, rounded. *)
Definition div : t -> t -> t := SFdiv prec emax.

(** [a / b] on Python floats: a zero divisor raises. *)
Definition truediv (a b : t) : Py.outcome t :=
  if nonzero b then Py.Return (div a b)
  else Py.Raise Py.ZeroDivisionError.

(** [a / b] on ints with [b <> 0]: the quotient of the two integers,
    correctly rounded.  On [b = 0] Python raises [ZeroDivisionError]; the
    program divides ints only behind a test for it, and NaN stands for
    the value never computed. *)
Definition int_div (a b : Z) : t :=
  match b with
  | Z0 => nan
  | Zpos d => ratio a d
  | Zneg d =>
      match a with
      | Z0 => S754_zero true
      | _ => ratio (- a) d
      end
  end.

(** [round(x, nd)] for [nd >= 0]: the decimal with [nd] digits nearest
    to the exact value of [x], halves to the even digit, read back as
    the nearest double; NaN, the infinities and the zeros are returned
    as they are. *)
Definition round (x : t) (nd : nat) : t :=
  match x with
  | S754_finite s m e =>
      match Py.round_half_even (magnitude m e * inject_Z (Py.pow10 nd)) with
      | Zpos n =>
          SFdiv prec emax (S754_finite s n 0)
                (S754_finite false (Z.to_pos (Py.pow10 nd)) 0)
      | _ => S754_zero s
      end
  | _ => x
  end.

(** [format(x, ".<nd>f")]: the exact value rounded to [nd] decimals,
    halves to even, the sign kept also on a zero. *)
Definition format_f (nd : nat) (x : t) : string :=
  match x with
  | S754_nan => "nan"
  | S754_infinity s => if s then "-inf" else "inf"
  | S754_zero s => ((if s then "-" else "") ++ Py.format_f nd 0)%string
  | S754_finite s m e =>
      ((if s then "-" else "") ++ Py.format_f nd (magnitude m e))%string
  end.

(** [format(x, ".0%")]: [x * 100] as a float, no decimals, a percent
    sign. *)
Definition format_pct0 (x : t) : string :=
  (format_f 0 (mul x (of_Z 100)) ++ "%")%string.

End Float.

(** ** numpy's sort *)

Module Numpy.

(** [argsort] with the default sort kind: the positions that put the
    values in ascending order.  The default kind is not a stable one:
    which of two equal values comes first is left to the sort the
    platform runs, so the embedding takes the sort as a parameter.
    [Spec.sorts] is what numpy promises of it. *)
Class sort : Type := { argsort : list Q -> list nat }.

(** What an int64 holds of an integer result: numpy's arithmetic on
    int64 wraps around at 64 bits, without an error. *)
Definition int64 (z : Z) : Z := ((z + 2 ^ 63) mod 2 ^ 64 - 2 ^ 63)%Z.

End Numpy.

(** ** pandas operations used by the program *)

Module Pandas.

Section Ordering.

Variable A : Type.
Variable leb : A -> A -> bool.

(** Insertion in front of the first element that is not below [x]: among
    elements that compare equal, the one inserted last comes first. *)
Fixpoint insert_by (x : A) (l : list A) : list A :=
  match l with
  | [] => [x]
  | y :: rest => if leb x y then x :: l else y :: insert_by x rest
  end.

(** Order-preserving sort: rows that compare equal keep their input
    order. *)
Fixpoint sort_by (l : list A) : list A :=
  match l with
  | [] => []
  | x :: rest => insert_by x (sort_by rest)
  end.

End Ordering.

Arguments insert_by {A} leb x l.
Arguments sort_by {A} leb l.

(** Comparison of positioned values by their value alone. *)
Definition by_value {A : Type} (leb : A -> A -> bool) (a b : nat * A)
  : bool :=
  leb (snd a) (snd b).

(** The rows with their positions, as a frame carries them. *)
Definition enumerate {A : Type} (l : list A) : list (nat * A) :=
  combine (seq 0 (List.length l)) l.

(** [Series.argsort()], which runs numpy's. *)
Definition argsort `{np : Numpy.sort} (values : list Q) : list nat :=
  Numpy.argsort values.

(** [df.iloc[positions]].  A sort only yields positions of the frame; a
    position outside it, on which pandas raises, selects nothing here. *)
Fixpoint iloc {A : Type} (df : list A) (positions : list nat) : list A :=
  match positions with
  | [] => []
  | i :: rest =>
      match nth_error df i with
      | Some r => r :: iloc df rest
      | None => iloc df rest
      end
  end.

(** [df.nlargest(n, column)] with the default [keep="first"]: the [n] rows
    of largest [column], descending, earlier rows first among equals.  The
    result keeps the position each row had in [df]. *)
Definition nlargest {A : Type} (n : nat) (column : A -> Z) (df : list A)
  : list (nat * A) :=
  firstn n (sort_by (by_value (fun a b => (column b <=? column a)%Z))
                    (enumerate df)).

(** [Series.sum()] on an int64 column: numpy's sum, which wraps around. *)
Definition sum (values : list Z) : Z :=
  Numpy.int64 (fold_left Z.add values 0%Z).

Definition Qsum (values : list Q) : Q := fold_left Qplus values 0.

(** [Series.mean()]. *)
Definition mean (values : list Q) : Q :=
  Qsum values / inject_Z (Z.of_nat (List.length values)).

(** [Series.max()] and [Series.min()]; on no values pandas gives NaN, which
    the program never reaches. *)
Definition max (values : list Q) : Q :=
  match values with
  | [] => 0
  | x :: rest => fold_left (fun m y => if Qle_bool m y then y else m) rest x
  end.

Definition min (values : list Q) : Q :=
  match values with
  | [] => 0
  | x :: rest => fold_left (fun m y => if Qle_bool y m then y else m) rest x
  end.

(** [Series.idxmin()]: the position of the first occurrence of the least
    value. *)
Fixpoint idxmin_from (i : nat) (best : nat * Q) (values : list Q) : nat :=
  match values with
  | [] => fst best
  | v :: rest =>
      if Py.Qltb v (snd best) then idxmin_from (S i) (i, v) rest
      else idxmin_from (S i) best rest
  end.

Definition idxmin (values : list Q) : option nat :=
  match values with
  | [] => None
  | v :: rest => Some (idxmin_from 1 (0%nat, v) rest)
  end.

End Pandas.

(** ** models.py and the rows of a chain *)

(** One row of a chain frame (the columns the program reads).  A cell of
    [bid], [ask] or [delta] is a number or NaN, [None] being NaN (a quote
    the provider has no value for); a frame as the provider gives it has
    no [delta] column, and then [delta] is [None] in each of its rows. *)
Module Row.
Record t : Type := mk {
  strike : Q;
  volume : Z;
  openInterest : Z;
  impliedVolatility : Q;
  delta : option (option Q);
  bid : option Q;
  ask : option Q
}.
End Row.

Definition DataFrame : Type := list Row.t.

Module TopVolumeStrike.
Record t : Type := mk { strike : Q; volume : Z; iv : Q }.
End TopVolumeStrike.

Module TopOIStrike.
Record t : Type := mk { strike : Q; open_interest : Z; iv : Q }.
End TopOIStrike.

Module ChainAnalysis.
Record t : Type := mk {
  total_contracts : Z;
  liquid_contracts : Z;
  total_volume : Z;
  total_open_interest : Z;
  avg_implied_volatility : Q;
  max_iv : Q;
  min_iv : Q;
  atm_strike : option Q;
  atm_iv : option Q;
  atm_delta : option Q;
  top_volume_strikes : list TopVolumeStrike.t;
  top_oi_strikes : list TopOIStrike.t
}.
End ChainAnalysis.

Module PutCallRatio.
Record t : Type := mk { volume : option Q; open_interest : option Q }.
End PutCallRatio.

Inductive Timeframe : Type := SWING | DAY | SCALP.

Definition Timeframe_value (t : Timeframe) : string :=
  match t with
  | SWING => "swing"
  | DAY => "day"
  | SCALP => "scalp"
  end.

Inductive VolatilityRegime : Type := LOW | MEDIUM | HIGH.

Inductive Vehicle : Type := STOCK | OPTION_CALL | OPTION_PUT | OPTION_SPREAD.

Module VehicleRecommendation.
Record t : Type := mk {
  vehicle : Vehicle;
  reasoning : option string;
  dte_range : option (Z * Z);
  delta_range : option (Q * Q);
  spread_type : option string;
  spread_width_info : option string;
  expected_move_percent : option Q
}.
End VehicleRecommendation.

Inductive OptionType : Type := CALLS | PUTS | BOTH.

Module OptionsRiskResponse.
Record t : Type := mk {
  symbol : string;
  timestamp : string;
  current_price : Q;
  expiration_date : string;
  days_to_expiration : Z;
  available_expirations : list string;
  calls : option ChainAnalysis.t;
  puts : option ChainAnalysis.t;
  put_call_ratio : option PutCallRatio.t;
  risk_warnings : list string;
  opportunities : list string;
  liquidity_threshold : Z
}.
End OptionsRiskResponse.

Module OptionsSummaryResponse.
Record t : Type := mk {
  symbol : string;
  timestamp : string;
  current_price : Q;
  nearest_expiration : string;
  days_to_expiration : Z;
  atm_call_iv : option Q;
  atm_put_iv : option Q;
  put_call_ratio_volume : option Q;
  total_call_volume : Z;
  total_put_volume : Z;
  sentiment : string;
  risk_level : string
}.
End OptionsSummaryResponse.

(** The two entries of [ticker.info] the program reads; [None] is a
    missing key or a [None] value. *)
Module TickerInfo.
Record t : Type := mk {
  currentPrice : option Q;
  regularMarketPrice : option Q
}.
End TickerInfo.

Module SymbolOptionsComparison.
Record t : Type := mk {
  symbol : string;
  current_price : Q;
  atm_iv : option Q;
  put_call_ratio : option Q;
  total_volume : Z;
  liquid_contracts : Z
}.
End SymbolOptionsComparison.

(** ** config.py *)

Module Config.
Definition DEFAULT_MIN_VOLUME : Z := 75.
Definition TOP_STRIKES_LIMIT : nat := 5.
Definition IV_HIGH_THRESHOLD : Q := 60.
Definition IV_LOW_THRESHOLD : Q := 20.
Definition PCR_BEARISH_THRESHOLD : Q := 15 # 10.
Definition PCR_BULLISH_THRESHOLD : Q := 7 # 10.
Definition LIQUIDITY_WARNING_CONTRACTS : Z := 5.
Definition DTE_SHORT_WARNING : Z := 7.
Definition DTE_LONG_OPPORTUNITY : Z := 60.
Definition DEFAULT_MIN_DTE : Z := 7.
Definition OPTION_MIN_EXPECTED_MOVE : Q := 3.
Definition OPTION_SWING_MIN_DTE : Z := 30.
Definition OPTION_SWING_MAX_DTE : Z := 45.
Definition OPTION_CALL_DELTA_MIN : Q := 40 # 100.
Definition OPTION_CALL_DELTA_MAX : Q := 60 # 100.
Definition OPTION_PUT_DELTA_MIN : Q := - (60 # 100).
Definition OPTION_PUT_DELTA_MAX : Q := - (40 # 100).
Definition OI_CONCENTRATION_WARNING : Q := 30 # 100.
Definition IV_SKEW_SIGNIFICANT : Q := 10.
Definition UNUSUAL_VOLUME_RATIO : Q := 3.
Definition VOLATILITY_LOW_THRESHOLD : Q := 15 # 10.
Definition VOLATILITY_HIGH_THRESHOLD : Q := 3.
Definition MAX_EXPIRATIONS_RETURNED : nat := 10.
Definition SUMMARY_MIN_DTE : Z := 1.
End Config.

(** ** chain_analyzer.py *)

Module ChainAnalyzer.

(** The loop of [select_expiration]: the first entry that parses and has at
    least [min_dte] days left; an entry that does not parse is skipped. *)
Fixpoint first_meeting_dte (today : Py.date) (min_dte : Z)
         (expirations : list string) : option string :=
  match expirations with
  | [] => None
  | exp :: rest =>
      match Py.strptime_ymd exp with
      | Some exp_date =>
          let dte := Py.days_between exp_date today in
          if (min_dte <=? dte)%Z then Some exp
          else first_meeting_dte today min_dte rest
      | None => first_meeting_dte today min_dte rest
      end
  end.

(** The automatic choice of [select_expiration], taken when no usable
    request was made; [expirations[-1]] on no entry raises [IndexError]. *)
Definition auto_select (today : Py.date) (expirations : list string)
           (min_dte : Z) : Py.outcome string :=
  match first_meeting_dte today min_dte expirations with
  | Some exp => Py.Return exp
  | None =>
      match rev expirations with
      | furthest :: _ => Py.Return furthest
      | [] => Py.Raise Py.IndexError
      end
  end.

Definition select_expiration (today : Py.date) (expirations : list string)
           (requested : option string) (min_dte : Z) : Py.outcome string :=
  match requested with
  | Some r =>
      if Py.truthy requested && Py.in_tuple r expirations then Py.Return r
      else auto_select today expirations min_dte
  | None => auto_select today expirations min_dte
  end.

Definition _top_by_volume (liquid_options : DataFrame)
  : list TopVolumeStrike.t :=
  match liquid_options with
  | [] => []
  | _ =>
      map (fun ir =>
             let row := snd ir in
             TopVolumeStrike.mk (Row.strike row) (Row.volume row)
                                (Row.impliedVolatility row * 100))
          (Pandas.nlargest Config.TOP_STRIKES_LIMIT Row.volume liquid_options)
  end.

Definition _top_by_oi (liquid_options : DataFrame) : list TopOIStrike.t :=
  match liquid_options with
  | [] => []
  | _ =>
      map (fun ir =>
             let row := snd ir in
             TopOIStrike.mk (Row.strike row) (Row.openInterest row)
                            (Row.impliedVolatility row * 100))
          (Pandas.nlargest Config.TOP_STRIKES_LIMIT Row.openInterest
                           liquid_options)
  end.

(** [options_df[options_df["volume"] >= min_volume]]. *)
Definition liquid (options_df : DataFrame) (min_volume : Z) : DataFrame :=
  filter (fun r => (min_volume <=? Row.volume r)%Z) options_df.

(** The row the ATM detection picks among the liquid rows. *)
Definition atm_row `{np : Numpy.sort} (liquid_options : DataFrame)
           (current_price : Q) : list Row.t :=
  let distance :=
    map (fun r => Py.abs (Row.strike r - current_price)) liquid_options in
  let atm_idx := firstn 1 (Pandas.argsort distance) in
  Pandas.iloc liquid_options atm_idx.

Definition analyze_chain `{np : Numpy.sort} (options_df : DataFrame)
           (current_price : Q) (min_volume : Z) : option ChainAnalysis.t :=
  match options_df with
  | [] => None
  | _ =>
      let liquid_options := liquid options_df min_volume in
      let total_volume := Pandas.sum (map Row.volume options_df) in
      let total_oi := Pandas.sum (map Row.openInterest options_df) in
      let ivs := map Row.impliedVolatility options_df in
      let avg_iv := Pandas.mean ivs * 100 in
      let max_iv := Pandas.max ivs * 100 in
      let min_iv := Pandas.min ivs * 100 in
      let atm :=
        match liquid_options with
        | [] => (None, None, None)
        | _ =>
            match atm_row liquid_options current_price with
            | [] => (None, None, None)
            | r :: _ =>
                (Some (Row.strike r),
                 Some (Row.impliedVolatility r * 100),
                 match Row.delta r with
                 | Some (Some delta_val) => Some delta_val
                 | _ => None
                 end)
            end
        end in
      Some (ChainAnalysis.mk
              (Z.of_nat (List.length options_df))
              (Z.of_nat (List.length liquid_options))
              total_volume total_oi avg_iv max_iv min_iv
              (fst (fst atm)) (snd (fst atm)) (snd atm)
              (_top_by_volume liquid_options)
              (_top_by_oi liquid_options))
  end.


(** [fetch_ticker_data], given what the provider answers: [info] is
    [ticker.info], or [None] when reading it raises, and [hist_close] is
    the ["Close"] column of [ticker.history(period="1d")].  The result is
    the current price; the ticker handle returned beside it is not
    modelled. *)
Definition fetch_ticker_data (symbol : string)
           (info : option TickerInfo.t) (hist_close : list Q)
  : Py.outcome Q :=
  let symbol := Py.strip (Py.upper symbol) in
  let current_price : Py.outcome (option Q) :=
    match info with
    | Some i =>
        match TickerInfo.currentPrice i with
        | Some p =>
            if Qeq_bool p 0 then Py.Return (TickerInfo.regularMarketPrice i)
            else Py.Return (Some p)
        | None => Py.Return (TickerInfo.regularMarketPrice i)
        end
    | None =>
        match rev hist_close with
        | [] => Py.Raise (Py.OptionsDataError symbol
                                              "No price data available")
        | close :: _ => Py.Return (Some close)
        end
    end in
  match current_price with
  | Py.Raise e => Py.Raise e
  | Py.Return None =>
      Py.Raise (Py.OptionsDataError symbol "Invalid current price")
  | Py.Return (Some p) =>
      if Qle_bool p 0
      then Py.Raise (Py.OptionsDataError symbol "Invalid current price")
      else Py.Return p
  end.

(** [get_expirations], from the tuple [ticker.options] the provider gave. *)
Definition get_expirations (options : list string) (symbol : string)
  : Py.outcome (list string) :=
  match options with
  | [] =>
      Py.Raise (Py.OptionsDataError
                  symbol "No options data available for this symbol")
  | _ => Py.Return options
  end.

End ChainAnalyzer.

(** ** risk_engine.py *)

Module RiskEngine.

(** The two lists the checks append to: [(warnings, opportunities)]. *)
Definition lists : Type := (list string * list string)%type.

Definition warn (msg : string) (st : lists) : lists :=
  (fst st ++ [msg], snd st).

Definition opportunity (msg : string) (st : lists) : lists :=
  (fst st, snd st ++ [msg]).

(** [calls or puts]. *)
Definition primary (calls puts : option ChainAnalysis.t)
  : option ChainAnalysis.t :=
  match calls with
  | Some c => Some c
  | None => puts
  end.

Definition iv_high_msg (avg_iv : Q) : string :=
  ("High implied volatility (" ++ Py.format_f 1 avg_iv ++ "%) - "
   ++ "options are expensive, consider selling strategies or spreads")%string.

Definition iv_low_msg (avg_iv : Q) : string :=
  ("Low implied volatility (" ++ Py.format_f 1 avg_iv ++ "%) - "
   ++ "options are cheap, consider buying strategies")%string.

Definition _assess_iv (calls puts : option ChainAnalysis.t) (st : lists)
  : lists :=
  match primary calls puts with
  | None => st
  | Some p =>
      let avg_iv := ChainAnalysis.avg_implied_volatility p in
      if Py.Qltb Config.IV_HIGH_THRESHOLD avg_iv then
        warn (iv_high_msg avg_iv) st
      else if Py.Qltb avg_iv Config.IV_LOW_THRESHOLD then
        opportunity (iv_low_msg avg_iv) st
      else st
  end.

Definition pcr_high_msg (v : Q) : string :=
  ("High Put/Call Volume Ratio (" ++ Py.format_f 2 v ++ ") - "
   ++ "bearish sentiment, heavy put buying")%string.

Definition pcr_low_msg (v : Q) : string :=
  ("Low Put/Call Volume Ratio (" ++ Py.format_f 2 v ++ ") - "
   ++ "bullish sentiment, heavy call buying")%string.

Definition _assess_pcr (pcr : option PutCallRatio.t) (st : lists) : lists :=
  match pcr with
  | None => st
  | Some p =>
      match PutCallRatio.volume p with
      | None => st
      | Some v =>
          if Py.Qltb Config.PCR_BEARISH_THRESHOLD v then
            warn (pcr_high_msg v) st
          else if Py.Qltb v Config.PCR_BULLISH_THRESHOLD then
            opportunity (pcr_low_msg v) st
          else st
      end
  end.

Definition liquidity_msg (label : string) (liquid_contracts : Z) : string :=
  ("Low liquidity in " ++ label ++ " (" ++ Py.str_int liquid_contracts
   ++ " liquid contracts) - " ++ "wide bid-ask spreads likely")%string.

Definition liquidity_side (label : string) (chain : option ChainAnalysis.t)
           (st : lists) : lists :=
  match chain with
  | Some c =>
      if (ChainAnalysis.liquid_contracts c
          <? Config.LIQUIDITY_WARNING_CONTRACTS)%Z
      then warn (liquidity_msg label (ChainAnalysis.liquid_contracts c)) st
      else st
  | None => st
  end.

Definition _assess_liquidity (calls puts : option ChainAnalysis.t)
           (st : lists) : lists :=
  liquidity_side "puts" puts (liquidity_side "calls" calls st).

Definition dte_short_msg (dte : Z) : string :=
  ("Short time to expiration (" ++ Py.str_int dte ++ " days) - "
   ++ "high theta decay, rapid price movement needed")%string.

Definition dte_long_msg (dte : Z) : string :=
  ("Long time to expiration (" ++ Py.str_int dte ++ " days) - "
   ++ "lower theta decay, suitable for longer-term positions")%string.

Definition _assess_dte (dte : Z) (st : lists) : lists :=
  if (dte <? Config.DTE_SHORT_WARNING)%Z then warn (dte_short_msg dte) st
  else if (Config.DTE_LONG_OPPORTUNITY <? dte)%Z then
    opportunity (dte_long_msg dte) st
  else st.

Definition put_skew_msg (skew : Float.t) : string :=
  ("Significant put skew (" ++ Float.format_f 1 skew ++ "pp) - "
   ++ "demand for downside protection elevated")%string.

Definition call_skew_msg (skew : Float.t) : string :=
  ("Significant call skew (" ++ Float.format_f 1 (Float.abs skew) ++ "pp) - "
   ++ "upside positioning favored by options market")%string.

Definition _assess_iv_skew (calls puts : option ChainAnalysis.t) (st : lists)
  : lists :=
  match calls, puts with
  | Some c, Some p =>
      match ChainAnalysis.atm_iv c, ChainAnalysis.atm_iv p with
      | Some civ, Some piv =>
          let skew := Float.sub (Float.of_Q piv) (Float.of_Q civ) in
          if Float.ltb (Float.of_Q Config.IV_SKEW_SIGNIFICANT)
                       (Float.abs skew) then
            if Float.ltb Float.zero skew then warn (put_skew_msg skew) st
            else opportunity (call_skew_msg skew) st
          else st
      | _, _ => st
      end
  | _, _ => st
  end.

Definition oi_concentration_msg (label : string) (strike : Q)
           (concentration : Float.t) : string :=
  ("High OI concentration in " ++ label ++ " at "
   ++ "$" ++ Py.format_f 0 strike ++ " strike "
   ++ "(" ++ Float.format_pct0 concentration
   ++ " of total) - potential pin risk")%string.

Definition oi_concentration_side (label : string)
           (chain : option ChainAnalysis.t) (st : lists) : lists :=
  match chain with
  | None => st
  | Some c =>
      if (ChainAnalysis.total_open_interest c =? 0)%Z then st
      else
        match ChainAnalysis.top_oi_strikes c with
        | [] => st
        | top :: _ =>
            let max_oi := TopOIStrike.open_interest top in
            let concentration :=
              Float.int_div max_oi (ChainAnalysis.total_open_interest c) in
            if Float.ltb (Float.of_Q Config.OI_CONCENTRATION_WARNING)
                         concentration then
              warn (oi_concentration_msg label (TopOIStrike.strike top)
                                         concentration) st
            else st
        end
  end.

Definition _assess_oi_concentration (calls puts : option ChainAnalysis.t)
           (st : lists) : lists :=
  oi_concentration_side "puts" puts (oi_concentration_side "calls" calls st).

Definition unusual_msg (label : string) (vol_oi_ratio : Float.t) : string :=
  ("Unusual " ++ label ++ " activity - volume/OI ratio "
   ++ Float.format_f 1 vol_oi_ratio ++ "x "
   ++ "suggests new positioning")%string.

Definition unusual_side (label : string) (chain : option ChainAnalysis.t)
           (st : lists) : lists :=
  match chain with
  | None => st
  | Some c =>
      if (ChainAnalysis.total_open_interest c =? 0)%Z then st
      else
        let vol_oi_ratio :=
          Float.int_div (ChainAnalysis.total_volume c)
                        (ChainAnalysis.total_open_interest c) in
        if Float.ltb (Float.of_Q Config.UNUSUAL_VOLUME_RATIO) vol_oi_ratio
        then opportunity (unusual_msg label vol_oi_ratio) st
        else st
  end.

Definition _assess_unusual_activity (calls puts : option ChainAnalysis.t)
           (st : lists) : lists :=
  unusual_side "puts" puts (unusual_side "calls" calls st).

Definition assess (calls puts : option ChainAnalysis.t)
           (pcr : option PutCallRatio.t) (dte : Z) : lists :=
  let st := ([], []) in
  let st := _assess_iv calls puts st in
  let st := _assess_pcr pcr st in
  let st := _assess_liquidity calls puts st in
  let st := _assess_dte dte st in
  let st := _assess_iv_skew calls puts st in
  let st := _assess_oi_concentration calls puts st in
  let st := _assess_unusual_activity calls puts st in
  st.

End RiskEngine.

(** ** vehicle_selector.py *)

Module VehicleSelector.

Record t : Type := mk {
  _min_move : Q;
  _swing_min_dte : Z;
  _swing_max_dte : Z
}.

(** [VehicleSelector()] with the defaults of its constructor. *)
Definition default : t :=
  mk Config.OPTION_MIN_EXPECTED_MOVE Config.OPTION_SWING_MIN_DTE
     Config.OPTION_SWING_MAX_DTE.

Definition spread_width_text (expected_move_percent : Q) : string :=
  ("Width typically 1x ATR equivalent for "
   ++ Py.format_f 1 expected_move_percent ++ "% expected move")%string.

Definition select (self : t) (timeframe : Timeframe)
           (volatility_regime : VolatilityRegime) (bias : string)
           (expected_move_percent : Q) : VehicleRecommendation.t :=
  match timeframe with
  | SWING =>
      if Py.Qltb expected_move_percent (_min_move self) then
        VehicleRecommendation.mk
          STOCK
          (Some ("Expected move (" ++ Py.format_f 1 expected_move_percent
                 ++ "%) below " ++ Py.str_float (_min_move self)
                 ++ "% threshold for options")%string)
          None None None None (Some expected_move_percent)
      else
        let dte_range := (_swing_min_dte self, _swing_max_dte self) in
        match volatility_regime with
        | MEDIUM =>
            if String.eqb bias "bullish" then
              VehicleRecommendation.mk
                OPTION_CALL
                (Some "Consider ATM calls for directional bullish play"%string)
                (Some dte_range)
                (Some (Config.OPTION_CALL_DELTA_MIN,
                       Config.OPTION_CALL_DELTA_MAX))
                None None (Some expected_move_percent)
            else
              VehicleRecommendation.mk
                OPTION_PUT
                (Some "Consider ATM puts for directional bearish play"%string)
                (Some dte_range)
                (Some (Config.OPTION_PUT_DELTA_MIN,
                       Config.OPTION_PUT_DELTA_MAX))
                None None (Some expected_move_percent)
        | HIGH =>
            if String.eqb bias "bullish" then
              VehicleRecommendation.mk
                OPTION_SPREAD
                (Some ("High volatility suitable for spreads; "
                       ++ "consider bull call spread for defined risk")%string)
                (Some dte_range)
                (Some (Config.OPTION_CALL_DELTA_MIN,
                       Config.OPTION_CALL_DELTA_MAX))
                (Some "Bull Call Spread"%string)
                (Some (spread_width_text expected_move_percent))
                (Some expected_move_percent)
            else
              VehicleRecommendation.mk
                OPTION_SPREAD
                (Some ("High volatility suitable for spreads; "
                       ++ "consider bear put spread for defined risk")%string)
                (Some dte_range)
                (Some (Config.OPTION_PUT_DELTA_MIN,
                       Config.OPTION_PUT_DELTA_MAX))
                (Some "Bear Put Spread"%string)
                (Some (spread_width_text expected_move_percent))
                (Some expected_move_percent)
        | LOW =>
            VehicleRecommendation.mk
              STOCK
              (Some ("Low volatility - options premiums too cheap, "
                     ++ "stock more efficient")%string)
              None None None None (Some expected_move_percent)
        end
  | _ =>
      VehicleRecommendation.mk
        STOCK
        (Some (Timeframe_value timeframe
               ++ " trades default to stock for liquidity")%string)
        None None None None None
  end.

End VehicleSelector.

(** ** server.py *)

Module Server.

Definition _compute_pcr (calls puts : option ChainAnalysis.t)
  : option PutCallRatio.t :=
  match calls, puts with
  | Some c, Some p =>
      let pcr_volume :=
        if (0 <? ChainAnalysis.total_volume c)%Z then
          Some (inject_Z (ChainAnalysis.total_volume p)
                / inject_Z (ChainAnalysis.total_volume c))
        else None in
      let pcr_oi :=
        if (0 <? ChainAnalysis.total_open_interest c)%Z then
          Some (inject_Z (ChainAnalysis.total_open_interest p)
                / inject_Z (ChainAnalysis.total_open_interest c))
        else None in
      Some (PutCallRatio.mk pcr_volume pcr_oi)
  | _, _ => None
  end.


Definition _derive_sentiment (pcr : option PutCallRatio.t) : string :=
  match pcr with
  | None => "neutral"
  | Some p =>
      match PutCallRatio.volume p with
      | None => "neutral"
      | Some v =>
          if Py.Qltb (15 # 10) v then "bearish"
          else if Py.Qltb v (7 # 10) then "bullish"
          else "neutral"
      end
  end.

Definition _derive_risk_level (calls puts : option ChainAnalysis.t)
  : string :=
  match RiskEngine.primary calls puts with
  | None => "medium"
  | Some primary =>
      if Py.Qltb 60 (ChainAnalysis.avg_implied_volatility primary)
      then "high"
      else if Py.Qltb (ChainAnalysis.avg_implied_volatility primary) 20
      then "low"
      else "medium"
  end.

(** A float that a division by zero may have made infinite or NaN. *)
Inductive float : Type :=
| Finite (q : Q)
| PosInf
| NegInf
| NaN.

(** [a / b] on numpy floats: a zero divisor gives an infinity of the sign
    of [a], or NaN for [0 / 0]; no exception is raised. *)
Definition np_div (a b : Q) : float :=
  if Qeq_bool b 0 then
    if Py.Qltb 0 a then PosInf
    else if Py.Qltb a 0 then NegInf
    else NaN
  else Finite (a / b).

Definition np_mul (x : float) (k : Q) : float :=
  match x with
  | Finite q => Finite (q * k)
  | other => other
  end.

(** [x < t] and [x > t] for a finite threshold [t]; false on NaN. *)
Definition np_lt (x : float) (t : Q) : bool :=
  match x with
  | Finite q => Py.Qltb q t
  | NegInf => true
  | PosInf | NaN => false
  end.

Definition np_gt (x : float) (t : Q) : bool :=
  match x with
  | Finite q => Py.Qltb t q
  | PosInf => true
  | NegInf | NaN => false
  end.

(** One row of the price history. *)
Record Bar : Type := mkBar { High : Q; Low : Q; Close : Q }.

Definition Qmax2 (a b : Q) : Q := if Qle_bool a b then b else a.

(** The true range of each bar: the largest of high - low, |high -
    previous close| and |low - previous close|; the first bar has no
    previous close and its true range is high - low. *)
Fixpoint true_range (prev_close : option Q) (hist : list Bar) : list Q :=
  match hist with
  | [] => []
  | b :: rest =>
      let tr1 := High b - Low b in
      let tr :=
        match prev_close with
        | None => tr1
        | Some c =>
            Qmax2 (Qmax2 tr1 (Py.abs (High b - c))) (Py.abs (Low b - c))
        end in
      tr :: true_range (Some (Close b)) rest
  end.

(** [series.rolling(window=14).mean().iloc[-1]] on at least 14 values: the
    mean of the last 14. *)
Definition rolling14_last (values : list Q) : Q :=
  Pandas.mean (skipn (List.length values - 14) values).

(** [_fetch_volatility_regime] from the point where the month of history
    has been fetched. *)
Definition _fetch_volatility_regime (hist : list Bar) : VolatilityRegime :=
  if (List.length hist <? 14)%nat then MEDIUM
  else
    let atr := rolling14_last (true_range None hist) in
    let current_price := Close (last hist (mkBar 0 0 0)) in
    let atr_percent := np_mul (np_div atr current_price) 100 in
    if np_lt atr_percent Config.VOLATILITY_LOW_THRESHOLD then LOW
    else if np_gt atr_percent Config.VOLATILITY_HIGH_THRESHOLD then HIGH
    else MEDIUM.

(** [options_vehicle_selection] from the point where the timeframe has
    been read and the month of history fetched: the recommendation and
    the volatility regime added to it. *)
Definition options_vehicle_selection (tf : Timeframe) (bias : string)
           (expected_move_percent : Q) (hist : list Bar)
  : VehicleRecommendation.t * VolatilityRegime :=
  let vol_regime := _fetch_volatility_regime hist in
  let recommendation :=
    VehicleSelector.select VehicleSelector.default tf vol_regime bias
                           expected_move_percent in
  (recommendation, vol_regime).

(** [_fetch_symbol_options_data] from the point where the price and the
    two chain frames have been fetched. *)
Definition _fetch_symbol_options_data `{np : Numpy.sort} (symbol : string)
               (current_price : Q)
           (calls_df puts_df : DataFrame) : SymbolOptionsComparison.t :=
  let calls_analysis :=
    ChainAnalyzer.analyze_chain calls_df current_price
                                Config.DEFAULT_MIN_VOLUME in
  let puts_analysis :=
    ChainAnalyzer.analyze_chain puts_df current_price
                                Config.DEFAULT_MIN_VOLUME in
  let pcr := _compute_pcr calls_analysis puts_analysis in
  let total_volume := 0%Z in
  let liquid_contracts := 0%Z in
  let atm_iv : option Q := None in
  let '(total_volume, liquid_contracts, atm_iv) :=
    match calls_analysis with
    | Some c =>
        ((total_volume + ChainAnalysis.total_volume c)%Z,
         (liquid_contracts + ChainAnalysis.liquid_contracts c)%Z,
         ChainAnalysis.atm_iv c)
    | None => (total_volume, liquid_contracts, atm_iv)
    end in
  let '(total_volume, liquid_contracts) :=
    match puts_analysis with
    | Some p =>
        ((total_volume + ChainAnalysis.total_volume p)%Z,
         (liquid_contracts + ChainAnalysis.liquid_contracts p)%Z)
    | None => (total_volume, liquid_contracts)
    end in
  SymbolOptionsComparison.mk
    symbol current_price atm_iv
    (match pcr with Some r => PutCallRatio.volume r | None => None end)
    total_volume liquid_contracts.

(** [options_summary] from the point where the price, the expiration and
    the two chain frames have been fetched; [timestamp] is the clock
    reading put in the response. *)
Definition options_summary `{np : Numpy.sort} (symbol timestamp : string)
               (current_price : Q)
           (selected_exp : string) (dte : Z) (calls_df puts_df : DataFrame)
  : OptionsSummaryResponse.t :=
  let calls_analysis :=
    ChainAnalyzer.analyze_chain calls_df current_price
                                Config.DEFAULT_MIN_VOLUME in
  let puts_analysis :=
    ChainAnalyzer.analyze_chain puts_df current_price
                                Config.DEFAULT_MIN_VOLUME in
  let pcr := _compute_pcr calls_analysis puts_analysis in
  let sentiment := _derive_sentiment pcr in
  let risk_level := _derive_risk_level calls_analysis puts_analysis in
  OptionsSummaryResponse.mk
    symbol timestamp current_price selected_exp dte
    (match calls_analysis with
     | Some c => ChainAnalysis.atm_iv c
     | None => None
     end)
    (match puts_analysis with
     | Some p => ChainAnalysis.atm_iv p
     | None => None
     end)
    (match pcr with Some r => PutCallRatio.volume r | None => None end)
    (match calls_analysis with
     | Some c => ChainAnalysis.total_volume c
     | None => 0%Z
     end)
    (match puts_analysis with
     | Some p => ChainAnalysis.total_volume p
     | None => 0%Z
     end)
    sentiment risk_level.

(** [options_risk_analysis] from the point where the option type has been
    read and the price, the expirations and the two chain frames have been
    fetched. *)
Definition options_risk_analysis `{np : Numpy.sort} (symbol timestamp : string)
           (opt_type : OptionType) (min_volume : Z) (current_price : Q)
           (expirations : list string) (selected_exp : string) (dte : Z)
           (calls_df puts_df : DataFrame) : OptionsRiskResponse.t :=
  let calls_analysis :=
    match opt_type with
    | CALLS | BOTH =>
        ChainAnalyzer.analyze_chain calls_df current_price min_volume
    | PUTS => None
    end in
  let puts_analysis :=
    match opt_type with
    | PUTS | BOTH =>
        ChainAnalyzer.analyze_chain puts_df current_price min_volume
    | CALLS => None
    end in
  let pcr := _compute_pcr calls_analysis puts_analysis in
  let wo := RiskEngine.assess calls_analysis puts_analysis pcr dte in
  OptionsRiskResponse.mk
    symbol timestamp current_price selected_exp dte
    (firstn Config.MAX_EXPIRATIONS_RETURNED expirations)
    calls_analysis puts_analysis pcr (fst wo) (snd wo) min_volume.

(** [l.sort(key=..., reverse=True)], given the comparison of two elements
    by their keys: descending, and elements of equal key keep their
    order. *)
Definition sort_reverse {A : Type} (key_leb : A -> A -> bool) (l : list A)
  : list A :=
  map snd (Pandas.sort_by (Pandas.by_value (fun a b => key_leb b a))
                          (Pandas.enumerate l)).

Definition iv_key_leb (a b : SymbolOptionsComparison.t) : bool :=
  Qle_bool (Py.or0 (SymbolOptionsComparison.atm_iv a))
           (Py.or0 (SymbolOptionsComparison.atm_iv b)).

Definition pcr_key_leb (a b : SymbolOptionsComparison.t) : bool :=
  Qle_bool (Py.or0 (SymbolOptionsComparison.put_call_ratio a))
           (Py.or0 (SymbolOptionsComparison.put_call_ratio b)).

Definition volume_key_leb (a b : SymbolOptionsComparison.t) : bool :=
  (SymbolOptionsComparison.total_volume a
   <=? SymbolOptionsComparison.total_volume b)%Z.

Definition liquidity_key_leb (a b : SymbolOptionsComparison.t) : bool :=
  (SymbolOptionsComparison.liquid_contracts a
   <=? SymbolOptionsComparison.liquid_contracts b)%Z.

(** [_sort_comparisons]: the list as the in-place sort leaves it, and the
    description returned. *)
Definition _sort_comparisons (comparisons : list SymbolOptionsComparison.t)
           (metric : string)
  : list SymbolOptionsComparison.t * string :=
  if String.eqb metric "iv" then
    (sort_reverse iv_key_leb comparisons,
     "Highest ATM implied volatility first"%string)
  else if String.eqb metric "pcr" then
    (sort_reverse pcr_key_leb comparisons,
     "Highest Put/Call ratio first (most bearish sentiment)"%string)
  else if String.eqb metric "volume" then
    (sort_reverse volume_key_leb comparisons,
     "Highest total options volume first"%string)
  else if String.eqb metric "liquidity" then
    (sort_reverse liquidity_key_leb comparisons,
     "Most liquid contracts first"%string)
  else
    (sort_reverse iv_key_leb comparisons,
     "Highest ATM implied volatility first (default)"%string).

End Server.

(** ** main.py: the spread trade *)

Module SpreadTradeRequest.
Record t : Type := mk {
  symbol : string;
  spread_type : string;
  buy_strike : Q;
  sell_strike : Q;
  expiration_date : option string;
  contracts : Z;
  action : string;
  entry_price : option Q;
  min_dte : Z
}.
End SpreadTradeRequest.

(** The ["buy_leg"] and ["sell_leg"] entries of the result; [bid] and
    [ask] are the row's cells as they are. *)
Module LegReport.
Record t : Type := mk {
  strike : Q;
  bid : option Q;
  ask : option Q;
  iv : Float.t;
  delta : option Float.t;
  volume : Z;
  open_interest : Z
}.
End LegReport.

(** The ["close_analysis"] entry of the result. *)
Module CloseAnalysis.
Record t : Type := mk {
  entry_price : Q;
  current_value : Float.t;
  pnl_per_spread : Float.t;
  total_pnl : Float.t;
  pnl_percent : Float.t
}.
End CloseAnalysis.

Module SpreadResult.
Record t : Type := mk {
  symbol : string;
  spread_type : string;
  action : string;
  current_price : Q;
  expiration : string;
  dte : Z;
  buy_strike : Q;
  sell_strike : Q;
  contracts : Z;
  spread_width : Float.t;
  buy_leg : LegReport.t;
  sell_leg : LegReport.t;
  is_credit : bool;
  max_profit : Float.t;
  max_loss : Float.t;
  risk_reward_ratio : Float.t;
  breakeven : Float.t;
  net_delta : Float.t;
  close_analysis : option CloseAnalysis.t
}.
End SpreadResult.

Module Main.

Definition _find_contract (chain_df : DataFrame) (strike : Q)
           (symbol leg : string) : Py.outcome Row.t :=
  let distance := map (fun r => Py.abs (Row.strike r - strike)) chain_df in
  match Pandas.idxmin distance with
  | None =>
      Py.Raise (Py.OptionsDataError
                  symbol ("No options data for " ++ leg ++ " leg")%string)
  | Some idx =>
      match nth_error chain_df idx with
      | Some row => Py.Return row
      | None => Py.Raise Py.IndexError
      end
  end.

(** [leg.get(column, 0) or 0] on a quote of the row's dict, whose values
    are Python floats: a NaN cell is true and stays NaN, a zero gives 0. *)
Definition quote_or0 (cell : option Q) : Float.t :=
  Float.or0 (Float.of_cell cell).

(** [leg.get("delta", 0) or 0]: 0 when the frame has no delta column. *)
Definition delta_or0 (leg : Row.t) : Float.t :=
  match Row.delta leg with
  | Some cell => Float.or0 (Float.of_cell cell)
  | None => Float.zero
  end.

(** The values the spread economics computes: the net premium (a credit or
    a debit), the maximum profit and loss and the breakeven. *)
Record metrics : Type := mk_metrics {
  net_premium : Float.t;
  max_profit : Float.t;
  max_loss : Float.t;
  breakeven : Float.t
}.

Definition is_credit_type (spread_type : string) : bool :=
  Py.in_tuple spread_type ["bull_put_credit"; "bear_call_credit"]%string.

(** The block "Compute spread metrics": the width and the metrics. *)
Definition spread_metrics (request : SpreadTradeRequest.t)
           (spread_type : string) (is_credit : bool)
           (buy_leg sell_leg : Row.t) : Float.t * metrics :=
  let buy_strike := Float.of_Q (SpreadTradeRequest.buy_strike request) in
  let sell_strike := Float.of_Q (SpreadTradeRequest.sell_strike request) in
  let contracts := Float.of_Z (SpreadTradeRequest.contracts request) in
  let hundred := Float.of_Z 100 in
  let spread_width := Float.abs (Float.sub sell_strike buy_strike) in
  if is_credit then
    let net_premium :=
      Float.sub (quote_or0 (Row.bid sell_leg))
                (quote_or0 (Row.ask buy_leg)) in
    let max_profit := Float.mul (Float.mul net_premium hundred) contracts in
    let max_loss :=
      Float.mul (Float.mul (Float.sub spread_width net_premium) hundred)
                contracts in
    let breakeven :=
      if Py.str_in "put" spread_type then Float.sub sell_strike net_premium
      else Float.add sell_strike net_premium in
    (spread_width, mk_metrics net_premium max_profit max_loss breakeven)
  else
    let net_debit :=
      Float.sub (quote_or0 (Row.ask buy_leg))
                (quote_or0 (Row.bid sell_leg)) in
    let max_loss := Float.mul (Float.mul net_debit hundred) contracts in
    let max_profit :=
      Float.mul (Float.mul (Float.sub spread_width net_debit) hundred)
                contracts in
    let breakeven :=
      if Py.str_in "call" spread_type then Float.add buy_strike net_debit
      else Float.sub buy_strike net_debit in
    (spread_width, mk_metrics net_debit max_profit max_loss breakeven).

(** [abs(max_profit / max_loss) if max_loss != 0 else 0]. *)
Definition rr_ratio (m : metrics) : Py.outcome Float.t :=
  if Float.nonzero (max_loss m) then
    q <- Float.truediv (max_profit m) (max_loss m) ;;
    Py.Return (Float.abs q)
  else Py.Return Float.zero.

(** The values of the close analysis before they are rounded for the
    result: [(current_value, pnl_per_spread)]. *)
Definition close_values (is_credit : bool) (entry_price : Float.t)
           (buy_leg sell_leg : Row.t) : Float.t * Float.t :=
  let current_value :=
    if is_credit then
      Float.sub (quote_or0 (Row.ask sell_leg)) (quote_or0 (Row.bid buy_leg))
    else
      Float.sub (quote_or0 (Row.bid buy_leg)) (quote_or0 (Row.ask sell_leg))
  in
  let pnl_per_spread :=
    if is_credit then Float.sub entry_price current_value
    else Float.sub current_value entry_price in
  (current_value, pnl_per_spread).

(** [round((pnl_per_spread / entry_price) * 100, 2) if entry_price != 0
    else 0]. *)
Definition pnl_percent (pnl_per_spread entry_price : Float.t)
  : Py.outcome Float.t :=
  if Float.nonzero entry_price then
    q <- Float.truediv pnl_per_spread entry_price ;;
    Py.Return (Float.round (Float.mul q (Float.of_Z 100)) 2)
  else Py.Return Float.zero.

(** The block "For close action, calculate P&L": the entry it adds to the
    result, if any. *)
Definition close_analysis (request : SpreadTradeRequest.t) (is_credit : bool)
           (buy_leg sell_leg : Row.t)
  : Py.outcome (option CloseAnalysis.t) :=
  if String.eqb (SpreadTradeRequest.action request) "close" then
    match SpreadTradeRequest.entry_price request with
    | Some entry_price =>
        let entry := Float.of_Q entry_price in
        let cv := close_values is_credit entry buy_leg sell_leg in
        let current_value := fst cv in
        let pnl_per_spread := snd cv in
        let contracts := Float.of_Z (SpreadTradeRequest.contracts request) in
        percent <- pnl_percent pnl_per_spread entry ;;
        Py.Return
          (Some (CloseAnalysis.mk
                   entry_price
                   (Float.round current_value 2)
                   (Float.round pnl_per_spread 2)
                   (Float.round
                      (Float.mul (Float.mul pnl_per_spread (Float.of_Z 100))
                                 contracts) 2)
                   percent))
    | None => Py.Return None
    end
  else Py.Return None.

Definition leg_report (strike : Q) (leg : Row.t) : LegReport.t :=
  let iv := Float.or0 (Float.of_Q (Row.impliedVolatility leg)) in
  let delta := delta_or0 leg in
  LegReport.mk
    strike (Row.bid leg) (Row.ask leg)
    (if Float.ltb iv (Float.of_Z 5)
     then Float.round (Float.mul iv (Float.of_Z 100)) 2
     else Float.round iv 2)
    (if Float.nonzero delta then Some (Float.round delta 4) else None)
    (Row.volume leg) (Row.openInterest leg).

(** [_analyze_spread_trade] from the point where the price, the expiration
    and the two chain frames have been fetched; the optional AI analysis
    is left out. *)
Definition _analyze_spread_trade (request : SpreadTradeRequest.t)
           (current_price : Q) (exp : string) (dte : Z)
           (calls_df puts_df : DataFrame) : Py.outcome SpreadResult.t :=
  let symbol := SpreadTradeRequest.symbol request in
  let spread_type := Py.lower (SpreadTradeRequest.spread_type request) in
  let is_credit := is_credit_type spread_type in
  chain <-
    (if Py.in_tuple spread_type ["bull_call"; "bear_call_credit"]%string
     then Py.Return (Some calls_df)
     else if Py.in_tuple spread_type ["bear_put"; "bull_put_credit"]%string
     then Py.Return (Some puts_df)
     else if Py.in_tuple spread_type
                         ["iron_condor"; "straddle"; "strangle"]%string
     then Py.Return None
     else Py.Raise (Py.ValueError
                      ("Unknown spread type: " ++ spread_type ++ ". "
                       ++ "Use: bull_call, bear_put, bull_put_credit, "
                       ++ "bear_call_credit, iron_condor, straddle, strangle")
                      %string)) ;;
  buy_leg <-
    _find_contract (match chain with Some c => c | None => calls_df end)
                   (SpreadTradeRequest.buy_strike request) symbol "buy" ;;
  sell_leg <-
    _find_contract (match chain with Some c => c | None => puts_df end)
                   (SpreadTradeRequest.sell_strike request) symbol "sell" ;;
  let wm := spread_metrics request spread_type is_credit buy_leg sell_leg in
  let spread_width := fst wm in
  let m := snd wm in
  let buy_delta := delta_or0 buy_leg in
  let sell_delta := delta_or0 sell_leg in
  rr <- rr_ratio m ;;
  closing <- close_analysis request is_credit buy_leg sell_leg ;;
  Py.Return
    (SpreadResult.mk
       symbol spread_type
       (SpreadTradeRequest.action request)
       current_price exp dte
       (SpreadTradeRequest.buy_strike request)
       (SpreadTradeRequest.sell_strike request)
       (SpreadTradeRequest.contracts request)
       (Float.round spread_width 2)
       (leg_report (SpreadTradeRequest.buy_strike request) buy_leg)
       (leg_report (SpreadTradeRequest.sell_strike request) sell_leg)
       is_credit
       (Float.round (max_profit m) 2)
       (Float.round (Float.abs (max_loss m)) 2)
       (Float.round rr 2)
       (Float.round (breakeven m) 2)
       (Float.round (Float.sub buy_delta sell_delta) 4)
       closing).

End Main.

(** ** Vocabulary of the statements *)

Module Spec.

(** Days to expiration of an entry, at day granularity; [None] when the
    entry is not a date. *)
Definition days_to_expiration (today : Py.date) (exp : string) : option Z :=
  option_map (fun d => Py.days_between d today) (Py.strptime_ymd exp).

Definition is_date_string (exp : string) : Prop :=
  Py.strptime_ymd exp <> None.

(** The entry has at least [min_dte] days left. *)
Definition meets_floor (today : Py.date) (min_dte : Z) (exp : string) : Prop :=
  exists k, days_to_expiration today exp = Some k /\ (min_dte <= k)%Z.

(** The entry has fewer than [min_dte] days left. *)
Definition below_floor (today : Py.date) (min_dte : Z) (exp : string) : Prop :=
  exists k, days_to_expiration today exp = Some k /\ (k < min_dte)%Z.

(** Under the comparison [leb], [a] is placed before [b]: its value is not
    above, and on equal values its position is the smaller one. *)
Definition placed_before {A : Type} (leb : A -> A -> bool)
           (a b : nat * A) : Prop :=
  leb (snd a) (snd b) = true
  /\ (leb (snd b) (snd a) = true -> (fst a < fst b)%nat).

(** What numpy promises of a sort: [argsort] yields each position of its
    argument once, and the values are ascending along them. *)
Definition sorts (np : Numpy.sort) : Prop :=
  forall values : list Q,
    Permutation (Numpy.argsort values) (seq 0 (List.length values))
    /\ StronglySorted
         (fun i j => (nth i values 0 <= nth j values 0)%Q)
         (Numpy.argsort values).

(** The sum of a column as integers, before any wrap-around. *)
Definition column_total (column : Row.t -> Z) (df : DataFrame) : Z :=
  fold_left Z.add (map column df) 0%Z.

(** The delta of a row: the cell of the delta column when the frame has
    the column and the cell is a number. *)
Definition delta_value (r : Row.t) : option Q :=
  match Row.delta r with
  | Some (Some delta_val) => Some delta_val
  | _ => None
  end.

(** Distance of a row's strike to the current price. *)
Definition distance (current_price : Q) (r : Row.t) : Q :=
  Qabs (Row.strike r - current_price).

(** Descending by [column]; among equal values the earlier position comes
    first. *)
Definition ranks_before (column : Row.t -> Z) (a b : nat * Row.t) : Prop :=
  (column (snd b) < column (snd a))%Z
  \/ (column (snd a) = column (snd b) /\ (fst a < fst b)%nat).

(** [top] lists rows of [rows], each at the position it is tagged with, in
    ranking order, presented through [item]. *)
Definition ranked_selection {T : Type} (column : Row.t -> Z)
           (item : Row.t -> T) (rows : DataFrame) (top : list T) : Prop :=
  exists picks : list (nat * Row.t),
    top = map (fun ir => item (snd ir)) picks
    /\ Forall (fun ir => nth_error rows (fst ir) = Some (snd ir)) picks
    /\ StronglySorted (ranks_before column) picks.

Definition volume_item (r : Row.t) : TopVolumeStrike.t :=
  TopVolumeStrike.mk (Row.strike r) (Row.volume r)
                     (Row.impliedVolatility r * 100).

Definition oi_item (r : Row.t) : TopOIStrike.t :=
  TopOIStrike.mk (Row.strike r) (Row.openInterest r)
                 (Row.impliedVolatility r * 100).

(** The volume and open-interest ratios of a pair of side analyses. *)
Definition volume_ratio (calls puts : option ChainAnalysis.t) : option Q :=
  match Server._compute_pcr calls puts with
  | Some pcr => PutCallRatio.volume pcr
  | None => None
  end.

Definition oi_ratio (calls puts : option ChainAnalysis.t) : option Q :=
  match Server._compute_pcr calls puts with
  | Some pcr => PutCallRatio.open_interest pcr
  | None => None
  end.

(** A check either leaves both lists as they are, or appends one message,
    to one of them, that contains the text [value]. *)
Definition appends_embedding (value : string)
           (st st' : RiskEngine.lists) : Prop :=
  st' = st
  \/ exists msg,
       (st' = RiskEngine.warn msg st \/ st' = RiskEngine.opportunity msg st)
       /\ Py.str_in value msg = true.


(** [result] is [input] put in descending order of the keys that [leb]
    compares, elements of equal key in their input order: it reads off a
    list of positioned elements of [input], one per position, each placed
    before the ones after it. *)
Definition ranked_by {A : Type} (leb : A -> A -> bool)
           (input result : list A) : Prop :=
  exists picks : list (nat * A),
    result = map snd picks
    /\ List.length picks = List.length input
    /\ Forall (fun ia => nth_error input (fst ia) = Some (snd ia)) picks
    /\ StronglySorted (placed_before (fun a b => leb b a)) picks.


(** What a check appends when it starts from two empty lists. *)
Definition alone (check : RiskEngine.lists -> RiskEngine.lists)
  : RiskEngine.lists :=
  check ([], []).

(** A check only appends: on any lists, it leaves them extended by what it
    appends on its own. *)
Definition appends_only (check : RiskEngine.lists -> RiskEngine.lists)
  : Prop :=
  forall st, check st = (fst st ++ fst (alone check),
                         snd st ++ snd (alone check)).


(** The spread types that read both legs from the calls frame, from the
    puts frame, and one from each. *)
Definition call_spreads : list string :=
  ["bull_call"; "bear_call_credit"]%string.

Definition put_spreads : list string :=
  ["bear_put"; "bull_put_credit"]%string.

Definition two_sided_spreads : list string :=
  ["iron_condor"; "straddle"; "strangle"]%string.

(** The frames that the buy leg and the sell leg of a spread type are
    read from; [None] for an unknown type. *)
Definition leg_chains (spread_type : string) (calls_df puts_df : DataFrame)
  : option (DataFrame * DataFrame) :=
  if Py.in_tuple spread_type call_spreads then Some (calls_df, calls_df)
  else if Py.in_tuple spread_type put_spreads then Some (puts_df, puts_df)
  else if Py.in_tuple spread_type two_sided_spreads
  then Some (calls_df, puts_df)
  else None.

(** [x] for each of the [contracts] contracts of 100 shares. *)
Definition per_contracts (contracts : Z) (x : Float.t) : Float.t :=
  Float.mul (Float.mul x (Float.of_Z 100)) (Float.of_Z contracts).

End Spec.

(** ** Sample data *)

Module Samples.

Definition row (strike : Q) (volume oi : Z) (iv bid ask : Q) : Row.t :=
  Row.mk strike volume oi iv None (Some bid) (Some ask).

(** The chain of the repository's tests. *)
Definition sample_options_df : DataFrame :=
  [ row  95  50 1000 (45 # 100) (780 # 100) (820 # 100);
    row 100 200 5000 (35 # 100) (430 # 100) (470 # 100);
    row 105 500 8000 (30 # 100) (190 # 100) (210 # 100);
    row 110 150 3000 (32 # 100) ( 70 # 100) ( 90 # 100);
    row 115  30  500 (40 # 100) ( 15 # 100) ( 25 # 100) ].

(** Two liquid rows at the same distance from a price of 105, and equal
    volumes. *)
Definition tied_df : DataFrame :=
  [ row 110 100 10 (30 # 100) 1 2;
    row 100 100 20 (30 # 100) 1 2;
    row 120  10 30 (30 # 100) 1 2 ].

(** Two sorts that numpy's promise allows: one keeps equal values in
    their input order, the other puts the later of two equal values
    first. *)
Definition keeping_order : Numpy.sort :=
  {| Numpy.argsort values :=
       map fst (Pandas.sort_by (Pandas.by_value Qle_bool)
                               (Pandas.enumerate values)) |}.

Definition later_first : Numpy.sort :=
  {| Numpy.argsort values :=
       map fst (Pandas.sort_by (Pandas.by_value Py.Qltb)
                               (Pandas.enumerate values)) |}.

Definition today : Py.date := Py.mkdate 2025 1 7.

Definition expirations : list string :=
  ["2025-01-10"; "2025-02-07"]%string.

Definition analysis (liquid_contracts total_volume total_oi : Z) (avg_iv : Q)
  : ChainAnalysis.t :=
  ChainAnalysis.mk 50 liquid_contracts total_volume total_oi avg_iv 120 10
                   None None None [] [].

Definition high_iv_calls : ChainAnalysis.t := analysis 30 10000 50000 75.

Definition normal_puts : ChainAnalysis.t := analysis 25 15000 30000 35.

(** A side whose largest strike holds half of the open interest. *)
Definition pinned_calls : ChainAnalysis.t :=
  ChainAnalysis.mk 50 30 10000 50000 35 50 25 None None None []
                   [TopOIStrike.mk 105 25000 30].

(** A side whose largest strike holds 115 of 200 contracts of open
    interest, and one that traded 63 contracts on 20 of open interest. *)
Definition concentrated_calls : ChainAnalysis.t :=
  ChainAnalysis.mk 50 30 100 200 35 50 25 None None None []
                   [TopOIStrike.mk 105 115 30].

Definition busy_calls : ChainAnalysis.t := analysis 30 63 20 35.

(** A put credit spread: sell the 100 put, buy the 96 put. *)
Definition puts_df : DataFrame :=
  [ row  96 300 900 (30 # 100) ( 70 # 100) ( 80 # 100);
    row 100 400 800 (28 # 100) (200 # 100) (210 # 100) ].

Definition open_request : SpreadTradeRequest.t :=
  SpreadTradeRequest.mk "SPY" "bull_put_credit" 96 100 None 1 "open" None 1.

(** A call debit spread taken the wrong way round: buy the 105 call, sell
    the 100 call of [sample_options_df]. *)
Definition inverted_request : SpreadTradeRequest.t :=
  SpreadTradeRequest.mk "SPY" "bull_call" 105 100 None 1 "open" None 1.

(** Puts quoted 0.50 bid on the 96 strike and 0.65 ask on the 100
    strike. *)
Definition tight_puts_df : DataFrame :=
  [ row  96 300 900 (30 # 100) ( 50 # 100) ( 55 # 100);
    row 100 400 800 (28 # 100) ( 60 # 100) ( 65 # 100) ].

Definition close_request (entry_price : Q) : SpreadTradeRequest.t :=
  SpreadTradeRequest.mk "SPY" "bull_put_credit" 96 100 None 1 "close"
                        (Some entry_price) 1.


(** An expiration tuple with an entry that is not a date. *)
Definition ragged_expirations : list string :=
  ["2025-01-10"; "weekly"; "2025-02-07"; "2025-03-21"]%string.

Definition comparison (symbol : string) (atm_iv : option Q)
           (total_volume : Z) : SymbolOptionsComparison.t :=
  SymbolOptionsComparison.mk symbol 100 atm_iv None total_volume 10.

Definition comparisons : list SymbolOptionsComparison.t :=
  [ comparison "AAA" (Some 30) 500;
    comparison "BBB" None 900;
    comparison "CCC" (Some 45) 500 ].

(** Fourteen equal bars: high 101, low 100, close 100. *)
Definition quiet_hist : list Server.Bar :=
  repeat (Server.mkBar 101 100 100) 14.

End Samples.

(** * Properties *)

(** ** Comparisons and rounding *)

Lemma Qltb_lt (a b : Q) : Py.Qltb a b = true <-> (a < b)%Q.
Proof.
  unfold Py.Qltb. rewrite negb_true_iff.
  split; intro H.
  - apply Qnot_le_lt. intro Hle.
    apply Qle_bool_iff in Hle. congruence.
  - destruct (Qle_bool b a) eqn:E; [|reflexivity].
    apply Qle_bool_iff in E. exfalso. exact (Qlt_not_le _ _ H E).
Qed.

Lemma Qltb_ge (a b : Q) : Py.Qltb a b = false <-> (b <= a)%Q.
Proof.
  unfold Py.Qltb. rewrite negb_false_iff. apply Qle_bool_iff.
Qed.

(** ** ChainAnalyzer.analyze_chain: absent and present results *)

(** C4. An empty chain gives the absent marker [None], whatever the price
    and the threshold; every chain with a row gives an analysis, whose
    [total_contracts] counts the rows and so is never zero. *)
Theorem analyze_chain_empty_is_absent `{np : Numpy.sort} :
  forall (current_price : Q) (min_volume : Z),
    ChainAnalyzer.analyze_chain [] current_price min_volume = None
    /\ forall (r : Row.t) (df : DataFrame),
        exists a,
          ChainAnalyzer.analyze_chain (r :: df) current_price min_volume
          = Some a
          /\ ChainAnalysis.total_contracts a
             = Z.of_nat (S (List.length df)).
Proof.
  intros current_price min_volume. split.
  - reflexivity.
  - intros r df. eexists. split.
    + unfold ChainAnalyzer.analyze_chain. reflexivity.
    + reflexivity.
Qed.

(** C10. For a chain with a row and any two thresholds, the two analyses
    agree on [total_contracts], [total_volume], [total_open_interest] and
    on the average, largest and least implied volatility, and these are
    the aggregates over every row of the input, liquid or not. *)
Theorem aggregates_ignore_min_volume `{np : Numpy.sort} :
  forall (r : Row.t) (df : DataFrame) (current_price : Q) (m1 m2 : Z),
  exists a1 a2,
    ChainAnalyzer.analyze_chain (r :: df) current_price m1 = Some a1
    /\ ChainAnalyzer.analyze_chain (r :: df) current_price m2 = Some a2
    /\ ChainAnalysis.total_contracts a1 = ChainAnalysis.total_contracts a2
    /\ ChainAnalysis.total_volume a1 = ChainAnalysis.total_volume a2
    /\ ChainAnalysis.total_open_interest a1
       = ChainAnalysis.total_open_interest a2
    /\ ChainAnalysis.avg_implied_volatility a1
       = ChainAnalysis.avg_implied_volatility a2
    /\ ChainAnalysis.max_iv a1 = ChainAnalysis.max_iv a2
    /\ ChainAnalysis.min_iv a1 = ChainAnalysis.min_iv a2
    /\ ChainAnalysis.total_volume a1
       = Pandas.sum (map Row.volume (r :: df))
    /\ ChainAnalysis.total_open_interest a1
       = Pandas.sum (map Row.openInterest (r :: df))
    /\ ChainAnalysis.avg_implied_volatility a1
       = (Pandas.mean (map Row.impliedVolatility (r :: df)) * 100)%Q
    /\ ChainAnalysis.max_iv a1
       = (Pandas.max (map Row.impliedVolatility (r :: df)) * 100)%Q
    /\ ChainAnalysis.min_iv a1
       = (Pandas.min (map Row.impliedVolatility (r :: df)) * 100)%Q.
Proof.
  intros r df current_price m1 m2.
  do 2 eexists.
  split; [unfold ChainAnalyzer.analyze_chain; reflexivity|].
  split; [unfold ChainAnalyzer.analyze_chain; reflexivity|].
  cbn [ChainAnalysis.total_contracts ChainAnalysis.total_volume
       ChainAnalysis.total_open_interest
       ChainAnalysis.avg_implied_volatility
       ChainAnalysis.max_iv ChainAnalysis.min_iv].
  repeat split.
Qed.

(** The threshold does change the liquid count, the ATM strike and the
    top lists: on the sample chain, 75 and 600 give different ones. *)
Example liquid_fields_depend_on_min_volume :
  exists a1 a2,
    ChainAnalyzer.analyze_chain (np := Samples.keeping_order)
                                Samples.sample_options_df 106 75 = Some a1
    /\ ChainAnalyzer.analyze_chain (np := Samples.keeping_order)
                                   Samples.sample_options_df 106 600 = Some a2
    /\ ChainAnalysis.liquid_contracts a1 = 3%Z
    /\ ChainAnalysis.liquid_contracts a2 = 0%Z
    /\ ChainAnalysis.atm_strike a1 = Some 105
    /\ ChainAnalysis.atm_strike a2 = None
    /\ List.length (ChainAnalysis.top_volume_strikes a1) = 3%nat
    /\ ChainAnalysis.top_volume_strikes a2 = []
    /\ ChainAnalysis.top_oi_strikes a2 = [].
Proof.
  do 2 eexists.
  split; [vm_compute; reflexivity|].
  split; [vm_compute; reflexivity|].
  repeat split.
Qed.

(** ** Server._compute_pcr *)

(** C6. The volume ratio is [None] when a side is absent or the calls'
    total volume is zero, and is puts' total volume over calls' total
    volume when both sides are present and that total is positive; the
    open-interest ratio follows the same rule on the open-interest totals,
    independently of the volume ratio.  (Totals are sums of volumes and
    open interests, which are not negative.) *)
Theorem put_call_ratio_none_or_quotient :
  forall (calls puts : option ChainAnalysis.t),
    ((calls = None \/ puts = None
      \/ (exists c, calls = Some c /\ ChainAnalysis.total_volume c = 0%Z))
     -> Spec.volume_ratio calls puts = None)
    /\ (forall c p,
          calls = Some c -> puts = Some p ->
          (0 < ChainAnalysis.total_volume c)%Z ->
          Spec.volume_ratio calls puts
          = Some (inject_Z (ChainAnalysis.total_volume p)
                  / inject_Z (ChainAnalysis.total_volume c))%Q)
    /\ ((calls = None \/ puts = None
         \/ (exists c, calls = Some c
                       /\ ChainAnalysis.total_open_interest c = 0%Z))
        -> Spec.oi_ratio calls puts = None)
    /\ (forall c p,
          calls = Some c -> puts = Some p ->
          (0 < ChainAnalysis.total_open_interest c)%Z ->
          Spec.oi_ratio calls puts
          = Some (inject_Z (ChainAnalysis.total_open_interest p)
                  / inject_Z (ChainAnalysis.total_open_interest c))%Q).
Proof.
  intros calls puts.
  unfold Spec.volume_ratio, Spec.oi_ratio, Server._compute_pcr.
  repeat split.
  - intros [-> | [-> | [c [-> Hc]]]].
    + reflexivity.
    + destruct calls; reflexivity.
    + destruct puts; [|reflexivity]. cbn. rewrite Hc. reflexivity.
  - intros c p -> -> Hpos. cbn.
    apply Z.ltb_lt in Hpos. rewrite Hpos. reflexivity.
  - intros [-> | [-> | [c [-> Hc]]]].
    + reflexivity.
    + destruct calls; reflexivity.
    + destruct puts; [|reflexivity]. cbn. rewrite Hc. reflexivity.
  - intros c p -> -> Hpos. cbn.
    apply Z.ltb_lt in Hpos. rewrite Hpos. reflexivity.
Qed.

Lemma put_call_ratio_none_or_quotient_witness :
  Spec.volume_ratio (Some Samples.high_iv_calls) None = None
  /\ Spec.volume_ratio (Some Samples.high_iv_calls) (Some Samples.normal_puts)
     = Some (inject_Z 15000 / inject_Z 10000)%Q
  /\ Spec.oi_ratio None (Some Samples.normal_puts) = None
  /\ Spec.oi_ratio (Some Samples.high_iv_calls) (Some Samples.normal_puts)
     = Some (inject_Z 30000 / inject_Z 50000)%Q.
Proof.
  pose proof (put_call_ratio_none_or_quotient
                (Some Samples.high_iv_calls) None) as [H1 _].
  pose proof (put_call_ratio_none_or_quotient
                None (Some Samples.normal_puts)) as [_ [_ [H3 _]]].
  pose proof (put_call_ratio_none_or_quotient
                (Some Samples.high_iv_calls) (Some Samples.normal_puts))
    as [_ [H2 [_ H4]]].
  split; [apply H1; right; left; reflexivity|].
  split; [apply (H2 _ _ eq_refl eq_refl); reflexivity|].
  split; [apply H3; left; reflexivity|].
  apply (H4 _ _ eq_refl eq_refl); reflexivity.
Defined.

(** ** VehicleSelector.select *)

(** C7. With the default selector the decision tree is, in order: a
    timeframe other than SWING gives STOCK; an expected move below 3.0
    gives STOCK; else MEDIUM volatility gives OPTION_CALL for the bias
    "bullish" and OPTION_PUT for any other bias, with DTE range (30,45)
    and delta range (0.40,0.60) for calls, (-0.60,-0.40) for puts; HIGH
    volatility gives OPTION_SPREAD with DTE range (30,45), designated
    "Bull Call Spread" for "bullish" and "Bear Put Spread" otherwise (so
    for "bearish"); LOW gives STOCK; and a STOCK recommendation has neither
    a DTE range nor a delta range. *)
Theorem select_decision_tree :
  forall (timeframe : Timeframe) (regime : VolatilityRegime)
         (bias : string) (move : Q),
    let rec :=
      VehicleSelector.select VehicleSelector.default timeframe regime
                             bias move in
    (timeframe <> SWING -> VehicleRecommendation.vehicle rec = STOCK)
    /\ ((move < 3)%Q -> VehicleRecommendation.vehicle rec = STOCK)
    /\ (timeframe = SWING -> ~ (move < 3)%Q -> regime = MEDIUM ->
        bias = "bullish"%string ->
        VehicleRecommendation.vehicle rec = OPTION_CALL
        /\ VehicleRecommendation.dte_range rec = Some (30, 45)%Z
        /\ VehicleRecommendation.delta_range rec
           = Some (40 # 100, 60 # 100))
    /\ (timeframe = SWING -> ~ (move < 3)%Q -> regime = MEDIUM ->
        bias <> "bullish"%string ->
        VehicleRecommendation.vehicle rec = OPTION_PUT
        /\ VehicleRecommendation.dte_range rec = Some (30, 45)%Z
        /\ VehicleRecommendation.delta_range rec
           = Some (- (60 # 100), - (40 # 100))%Q)
    /\ (timeframe = SWING -> ~ (move < 3)%Q -> regime = HIGH ->
        bias = "bullish"%string ->
        VehicleRecommendation.vehicle rec = OPTION_SPREAD
        /\ VehicleRecommendation.dte_range rec = Some (30, 45)%Z
        /\ VehicleRecommendation.spread_type rec
           = Some "Bull Call Spread"%string)
    /\ (timeframe = SWING -> ~ (move < 3)%Q -> regime = HIGH ->
        bias <> "bullish"%string ->
        VehicleRecommendation.vehicle rec = OPTION_SPREAD
        /\ VehicleRecommendation.dte_range rec = Some (30, 45)%Z
        /\ VehicleRecommendation.spread_type rec
           = Some "Bear Put Spread"%string)
    /\ (timeframe = SWING -> ~ (move < 3)%Q -> regime = LOW ->
        VehicleRecommendation.vehicle rec = STOCK)
    /\ (VehicleRecommendation.vehicle rec = STOCK ->
        VehicleRecommendation.dte_range rec = None
        /\ VehicleRecommendation.delta_range rec = None).
Proof.
  intros timeframe regime bias move rec. subst rec.
  unfold VehicleSelector.select.
  change (VehicleSelector._min_move VehicleSelector.default) with 3%Q.
  destruct (Py.Qltb move 3) eqn:Hmove;
    [apply Qltb_lt in Hmove
    |apply Qltb_ge in Hmove;
     assert (Hnlt : ~ (move < 3)%Q)
       by (intro H; exact (Qlt_not_le _ _ H Hmove))];
    (destruct (String.eqb bias "bullish") eqn:Hbias;
     [apply String.eqb_eq in Hbias|apply String.eqb_neq in Hbias]);
    destruct timeframe, regime; cbn;
    repeat split; intros; try reflexivity; try discriminate;
    try contradiction; try congruence.
Qed.

Lemma select_decision_tree_witness :
  let select := VehicleSelector.select VehicleSelector.default in
  VehicleRecommendation.vehicle (select SWING MEDIUM "bullish"%string 5)
  = OPTION_CALL
  /\ VehicleRecommendation.dte_range (select SWING MEDIUM "bullish"%string 5)
     = Some (30, 45)%Z
  /\ VehicleRecommendation.vehicle (select DAY HIGH "bearish"%string 5)
     = STOCK
  /\ VehicleRecommendation.spread_type
       (select SWING HIGH "bearish"%string 5)
     = Some "Bear Put Spread"%string
  /\ VehicleRecommendation.vehicle (select SWING MEDIUM "bullish"%string 2)
     = STOCK
  /\ VehicleRecommendation.dte_range (select SWING LOW "bullish"%string 5)
     = None.
Proof.
  intro select. subst select.
  assert (Hge : ~ (5 < 3)%Q) by (intro H; discriminate H).
  pose proof (select_decision_tree SWING MEDIUM "bullish" 5)
    as [_ [_ [Hcall _]]].
  pose proof (select_decision_tree DAY HIGH "bearish" 5) as [Hday _].
  pose proof (select_decision_tree SWING HIGH "bearish" 5)
    as [_ [_ [_ [_ [_ [Hput _]]]]]].
  pose proof (select_decision_tree SWING MEDIUM "bullish" 2)
    as [_ [Hsmall _]].
  pose proof (select_decision_tree SWING LOW "bullish" 5)
    as [_ [_ [_ [_ [_ [_ [Hlow Hstock]]]]]]].
  destruct (Hcall eq_refl Hge eq_refl eq_refl) as [Hv [Hd _]].
  destruct (Hput eq_refl Hge eq_refl ltac:(discriminate)) as [_ [_ Hs]].
  split; [exact Hv|]. split; [exact Hd|].
  split; [apply Hday; discriminate|].
  split; [exact Hs|].
  split; [apply Hsmall; reflexivity|].
  apply Hstock. apply (Hlow eq_refl Hge eq_refl).
Defined.

(** ** The spread trade: what the result carries *)

Lemma rr_ratio_returns (m : Main.metrics) :
  Main.rr_ratio m
  = Py.Return
      (if Float.nonzero (Main.max_loss m)
       then Float.abs (Float.div (Main.max_profit m) (Main.max_loss m))
       else Float.zero).
Proof.
  unfold Main.rr_ratio, Float.truediv.
  destruct (Float.nonzero (Main.max_loss m)); reflexivity.
Qed.

Lemma pnl_percent_returns (pnl_per_spread entry_price : Float.t) :
  Main.pnl_percent pnl_per_spread entry_price
  = Py.Return
      (if Float.nonzero entry_price
       then Float.round
              (Float.mul (Float.div pnl_per_spread entry_price)
                         (Float.of_Z 100)) 2
       else Float.zero).
Proof.
  unfold Main.pnl_percent, Float.truediv.
  destruct (Float.nonzero entry_price); reflexivity.
Qed.

(** The close analysis never raises: the division by the entry price is
    behind the test [entry_price != 0]. *)
Lemma close_analysis_returns request is_credit buy_leg sell_leg :
  exists closing,
    Main.close_analysis request is_credit buy_leg sell_leg
    = Py.Return closing
    /\ (closing <> None
        <-> SpreadTradeRequest.action request = "close"%string
            /\ SpreadTradeRequest.entry_price request <> None)
    /\ forall ca,
        closing = Some ca ->
        exists entry,
          SpreadTradeRequest.entry_price request = Some entry
          /\ let entry_price := Float.of_Q entry in
             let cv :=
               Main.close_values is_credit entry_price buy_leg sell_leg in
             ca = CloseAnalysis.mk
                    entry
                    (Float.round (fst cv) 2)
                    (Float.round (snd cv) 2)
                    (Float.round
                       (Spec.per_contracts
                          (SpreadTradeRequest.contracts request) (snd cv)) 2)
                    (if Float.nonzero entry_price
                     then Float.round
                            (Float.mul (Float.div (snd cv) entry_price)
                                       (Float.of_Z 100)) 2
                     else Float.zero).
Proof.
  unfold Main.close_analysis.
  destruct (String.eqb (SpreadTradeRequest.action request) "close") eqn:E.
  - apply String.eqb_eq in E.
    destruct (SpreadTradeRequest.entry_price request) as [entry|].
    + rewrite pnl_percent_returns. cbn [Py.bind].
      eexists. split; [reflexivity|]. split.
      * split; [intros _; split; [exact E|discriminate]|discriminate].
      * intros ca H. injection H as <-. exists entry.
        split; reflexivity.
    + exists None. split; [reflexivity|]. split.
      * split; [intro H; contradiction H; reflexivity
               |intros [_ H]; contradiction H; reflexivity].
      * intros ca H. discriminate H.
  - apply String.eqb_neq in E.
    exists None. split; [reflexivity|]. split.
    + split; [intro H; contradiction H; reflexivity
             |intros [H _]; contradiction].
    + intros ca H. discriminate H.
Qed.

(** The result of a spread trade whose legs were found: the function
    returns, and the figures are those of the two blocks, rounded. *)
Lemma spread_trade_result request current_price exp dte calls_df puts_df
      buy_chain sell_chain buy_leg sell_leg :
  let st := Py.lower (SpreadTradeRequest.spread_type request) in
  let symbol := SpreadTradeRequest.symbol request in
  Spec.leg_chains st calls_df puts_df = Some (buy_chain, sell_chain) ->
  Main._find_contract buy_chain (SpreadTradeRequest.buy_strike request)
                      symbol "buy" = Py.Return buy_leg ->
  Main._find_contract sell_chain (SpreadTradeRequest.sell_strike request)
                      symbol "sell" = Py.Return sell_leg ->
  exists r,
    Main._analyze_spread_trade request current_price exp dte
                               calls_df puts_df = Py.Return r
    /\ let wm :=
         Main.spread_metrics request st (Main.is_credit_type st)
                             buy_leg sell_leg in
       SpreadResult.is_credit r = Main.is_credit_type st
       /\ SpreadResult.spread_width r = Float.round (fst wm) 2
       /\ SpreadResult.max_profit r
          = Float.round (Main.max_profit (snd wm)) 2
       /\ SpreadResult.max_loss r
          = Float.round (Float.abs (Main.max_loss (snd wm))) 2
       /\ SpreadResult.breakeven r
          = Float.round (Main.breakeven (snd wm)) 2
       /\ SpreadResult.risk_reward_ratio r
          = Float.round
              (if Float.nonzero (Main.max_loss (snd wm))
               then Float.abs (Float.div (Main.max_profit (snd wm))
                                         (Main.max_loss (snd wm)))
               else Float.zero) 2
       /\ Main.close_analysis request (Main.is_credit_type st)
                              buy_leg sell_leg
          = Py.Return (SpreadResult.close_analysis r).
Proof.
  cbv zeta. intros Hchains Hbuy Hsell.
  destruct (close_analysis_returns
              request
              (Main.is_credit_type
                 (Py.lower (SpreadTradeRequest.spread_type request)))
              buy_leg sell_leg) as [closing [Hclosing _]].
  unfold Main._analyze_spread_trade.
  unfold Spec.leg_chains, Spec.call_spreads, Spec.put_spreads,
    Spec.two_sided_spreads in Hchains.
  destruct (Py.in_tuple _ ["bull_call"; "bear_call_credit"]%string);
    [|destruct (Py.in_tuple _ ["bear_put"; "bull_put_credit"]%string);
      [|destruct (Py.in_tuple _
                              ["iron_condor"; "straddle"; "strangle"]%string);
        [|discriminate Hchains]]].
  all: injection Hchains as <- <-; cbn [Py.bind];
    rewrite Hbuy; cbn [Py.bind]; rewrite Hsell; cbn [Py.bind];
    rewrite rr_ratio_returns; cbn [Py.bind];
    rewrite Hclosing; cbn [Py.bind];
    eexists; split; [reflexivity|];
    cbn [SpreadResult.is_credit SpreadResult.spread_width
         SpreadResult.max_profit SpreadResult.max_loss
         SpreadResult.breakeven SpreadResult.risk_reward_ratio
         SpreadResult.close_analysis];
    repeat split; exact Hclosing.
Qed.

(** A spread trade that returned found its two legs. *)
Lemma spread_trade_legs request current_price exp dte calls_df puts_df r :
  Main._analyze_spread_trade request current_price exp dte calls_df puts_df
  = Py.Return r ->
  exists buy_chain sell_chain buy_leg sell_leg,
    Spec.leg_chains (Py.lower (SpreadTradeRequest.spread_type request))
                    calls_df puts_df = Some (buy_chain, sell_chain)
    /\ Main._find_contract buy_chain
                           (SpreadTradeRequest.buy_strike request)
                           (SpreadTradeRequest.symbol request) "buy"
       = Py.Return buy_leg
    /\ Main._find_contract sell_chain
                           (SpreadTradeRequest.sell_strike request)
                           (SpreadTradeRequest.symbol request) "sell"
       = Py.Return sell_leg.
Proof.
  unfold Main._analyze_spread_trade, Spec.leg_chains, Spec.call_spreads,
    Spec.put_spreads, Spec.two_sided_spreads.
  destruct (Py.in_tuple _ ["bull_call"; "bear_call_credit"]%string);
    [|destruct (Py.in_tuple _ ["bear_put"; "bull_put_credit"]%string);
      [|destruct (Py.in_tuple _
                              ["iron_condor"; "straddle"; "strangle"]%string);
        [|discriminate]]].
  all: cbn [Py.bind];
    destruct (Main._find_contract _ _ _ "buy") as [buy_leg|] eqn:Hb;
    [|discriminate]; cbn [Py.bind];
    destruct (Main._find_contract _ _ _ "sell") as [sell_leg|] eqn:Hs;
    [|discriminate]; intros _;
    do 2 eexists; exists buy_leg, sell_leg;
    split; [reflexivity|]; split; assumption.
Qed.

(** ** Spread economics *)

(** C1, as the claim states it, fails on the maximum loss the function
    reports.  Buying the 105 call and selling the 100 call of the sample
    chain as a bull_call spread gives a net debit of 2.10 - 4.30, below
    zero, so debit * 100 * contracts is negative; the result carries 220,
    the absolute value rounded to two decimals. *)
Lemma max_loss_reported_unsigned :
  exists r,
    Main._analyze_spread_trade Samples.inverted_request 106 "2025-02-07" 31
                               Samples.sample_options_df []
    = Py.Return r
    /\ let debit :=
         Float.sub (Float.of_Q (210 # 100)) (Float.of_Q (430 # 100)) in
       let claimed := Spec.per_contracts 1 debit in
       Float.ltb claimed Float.zero = true
       /\ SpreadResult.max_loss r = Float.of_Z 220
       /\ SpreadResult.max_loss r <> claimed
       /\ SpreadResult.max_loss r <> Float.round claimed 2.
Proof.
  eexists. split; [vm_compute; reflexivity|].
  vm_compute. repeat split; discriminate.
Qed.

(** C1, amended.  For a spread whose two legs were found, a quote [q]
    entering as [q or 0] and every operation being one of float
    arithmetic, the function returns a result that carries the width
    |sell_strike - buy_strike| and, rounded to two decimals: for the
    credit types, max profit = credit * 100 * contracts, max loss =
    |(width - credit) * 100 * contracts| and breakeven = sell_strike -
    credit (bull_put_credit) or sell_strike + credit (bear_call_credit),
    with credit = sell.bid - buy.ask; for the debit types, max loss =
    |debit * 100 * contracts|, max profit = (width - debit) * 100 *
    contracts and breakeven = buy_strike + debit (bull_call) or buy_strike
    - debit (bear_put), with debit = buy.ask - sell.bid.  The maximum
    loss is reported as an absolute value; the net premium itself is not
    part of the result. *)
Theorem spread_trade_reports_metrics :
  forall (request : SpreadTradeRequest.t) (current_price : Q)
         (exp : string) (dte : Z)
         (calls_df puts_df buy_chain sell_chain : DataFrame)
         (buy_leg sell_leg : Row.t),
    let st := Py.lower (SpreadTradeRequest.spread_type request) in
    let symbol := SpreadTradeRequest.symbol request in
    Spec.leg_chains st calls_df puts_df = Some (buy_chain, sell_chain) ->
    Main._find_contract buy_chain (SpreadTradeRequest.buy_strike request)
                        symbol "buy" = Py.Return buy_leg ->
    Main._find_contract sell_chain (SpreadTradeRequest.sell_strike request)
                        symbol "sell" = Py.Return sell_leg ->
    let buy_strike := Float.of_Q (SpreadTradeRequest.buy_strike request) in
    let sell_strike :=
      Float.of_Q (SpreadTradeRequest.sell_strike request) in
    let all := Spec.per_contracts (SpreadTradeRequest.contracts request) in
    let width := Float.abs (Float.sub sell_strike buy_strike) in
    let sell_bid := Main.quote_or0 (Row.bid sell_leg) in
    let buy_ask := Main.quote_or0 (Row.ask buy_leg) in
    let credit := Float.sub sell_bid buy_ask in
    let debit := Float.sub buy_ask sell_bid in
    exists r,
      Main._analyze_spread_trade request current_price exp dte
                                 calls_df puts_df = Py.Return r
      /\ SpreadResult.spread_width r = Float.round width 2
      /\ (st = "bull_put_credit"%string ->
          SpreadResult.is_credit r = true
          /\ SpreadResult.max_profit r = Float.round (all credit) 2
          /\ SpreadResult.max_loss r
             = Float.round (Float.abs (all (Float.sub width credit))) 2
          /\ SpreadResult.breakeven r
             = Float.round (Float.sub sell_strike credit) 2)
      /\ (st = "bear_call_credit"%string ->
          SpreadResult.is_credit r = true
          /\ SpreadResult.max_profit r = Float.round (all credit) 2
          /\ SpreadResult.max_loss r
             = Float.round (Float.abs (all (Float.sub width credit))) 2
          /\ SpreadResult.breakeven r
             = Float.round (Float.add sell_strike credit) 2)
      /\ (st = "bull_call"%string ->
          SpreadResult.is_credit r = false
          /\ SpreadResult.max_loss r
             = Float.round (Float.abs (all debit)) 2
          /\ SpreadResult.max_profit r
             = Float.round (all (Float.sub width debit)) 2
          /\ SpreadResult.breakeven r
             = Float.round (Float.add buy_strike debit) 2)
      /\ (st = "bear_put"%string ->
          SpreadResult.is_credit r = false
          /\ SpreadResult.max_loss r
             = Float.round (Float.abs (all debit)) 2
          /\ SpreadResult.max_profit r
             = Float.round (all (Float.sub width debit)) 2
          /\ SpreadResult.breakeven r
             = Float.round (Float.sub buy_strike debit) 2).
Proof.
  intros request current_price exp dte calls_df puts_df buy_chain
         sell_chain buy_leg sell_leg.
  cbv zeta. intros Hchains Hbuy Hsell.
  destruct (spread_trade_result
              request current_price exp dte calls_df puts_df
              buy_chain sell_chain buy_leg sell_leg Hchains Hbuy Hsell)
    as [r [Hr [Hc [Hw [Hp [Hl [Hb _]]]]]]].
  exists r. split; [exact Hr|].
  rewrite Hc, Hw, Hp, Hl, Hb. unfold Main.spread_metrics.
  split; [destruct (Main.is_credit_type _); reflexivity|].
  repeat split;
    match goal with
    | H : Py.lower _ = _ |- _ => rewrite H; reflexivity
    end.
Qed.

Lemma spread_trade_reports_metrics_witness :
  exists r,
    Main._analyze_spread_trade Samples.open_request 101 "2025-02-07" 31
                               [] Samples.puts_df = Py.Return r
    /\ SpreadResult.spread_width r = Float.of_Z 4
    /\ SpreadResult.max_profit r = Float.of_Z 120
    /\ SpreadResult.max_loss r = Float.of_Z 280
    /\ SpreadResult.breakeven r = Float.of_Q (988 # 10).
Proof.
  destruct (spread_trade_reports_metrics
              Samples.open_request 101 "2025-02-07" 31 [] Samples.puts_df
              Samples.puts_df Samples.puts_df
              (Samples.row 96 300 900 (30 # 100) (70 # 100) (80 # 100))
              (Samples.row 100 400 800 (28 # 100) (200 # 100) (210 # 100))
              eq_refl eq_refl eq_refl)
    as [r [Hr [Hw [Hput _]]]].
  destruct (Hput eq_refl) as [_ [Hp [Hl Hb]]].
  exists r. split; [exact Hr|].
  rewrite Hw, Hp, Hl, Hb. vm_compute. repeat split.
Defined.

(** ** Close-action P&L *)

(** C9, as the claim states it, fails on the reported percent: closing the
    sample put credit spread entered at 3.00, with sell.ask = 2.10 and
    buy.bid = 0.70, the percent reported is 53.33, not per-spread / entry
    * 100. *)
Lemma close_percent_is_rounded :
  exists r ca,
    Main._analyze_spread_trade (Samples.close_request 3) 101
                               "2025-02-07" 31 [] Samples.puts_df
    = Py.Return r
    /\ SpreadResult.close_analysis r = Some ca
    /\ let current :=
         Float.sub (Float.of_Q (210 # 100)) (Float.of_Q (70 # 100)) in
       let per_spread := Float.sub (Float.of_Z 3) current in
       CloseAnalysis.pnl_percent ca = Float.of_Q (5333 # 100)
       /\ CloseAnalysis.pnl_percent ca
          <> Float.mul (Float.div per_spread (Float.of_Z 3))
                       (Float.of_Z 100).
Proof.
  do 2 eexists.
  split; [vm_compute; reflexivity|].
  split; [reflexivity|].
  vm_compute. split; [reflexivity|discriminate].
Qed.

(** C9, amended.  For a close action with an entry price, on a spread
    whose two legs were found, a quote [q] entering as [q or 0] and every
    operation being one of float arithmetic: the function returns, the
    current value is sell.ask - buy.bid for a credit type
    (bull_put_credit, bear_call_credit) and buy.bid - sell.ask for any
    other type, the P&L per spread is entry - current for credit and
    current - entry otherwise, and the close analysis reports the entry
    price as given and each figure rounded to two decimals: the current
    value, the P&L per spread, the total P&L = per-spread * 100 *
    contracts and the percent = per-spread / entry * 100; when the entry
    price is 0 the percent is reported as 0 and no division takes place
    (a division by zero would raise). *)
Theorem close_analysis_reports :
  forall (request : SpreadTradeRequest.t) (current_price : Q)
         (exp : string) (dte : Z)
         (calls_df puts_df buy_chain sell_chain : DataFrame)
         (buy_leg sell_leg : Row.t) (entry : Q),
    let st := Py.lower (SpreadTradeRequest.spread_type request) in
    let symbol := SpreadTradeRequest.symbol request in
    SpreadTradeRequest.action request = "close"%string ->
    SpreadTradeRequest.entry_price request = Some entry ->
    Spec.leg_chains st calls_df puts_df = Some (buy_chain, sell_chain) ->
    Main._find_contract buy_chain (SpreadTradeRequest.buy_strike request)
                        symbol "buy" = Py.Return buy_leg ->
    Main._find_contract sell_chain (SpreadTradeRequest.sell_strike request)
                        symbol "sell" = Py.Return sell_leg ->
    let credit :=
      Py.in_tuple st ["bull_put_credit"; "bear_call_credit"]%string in
    let entry_price := Float.of_Q entry in
    let sell_ask := Main.quote_or0 (Row.ask sell_leg) in
    let buy_bid := Main.quote_or0 (Row.bid buy_leg) in
    let current :=
      if credit then Float.sub sell_ask buy_bid
      else Float.sub buy_bid sell_ask in
    let per_spread :=
      if credit then Float.sub entry_price current
      else Float.sub current entry_price in
    exists r ca,
      Main._analyze_spread_trade request current_price exp dte
                                 calls_df puts_df = Py.Return r
      /\ SpreadResult.close_analysis r = Some ca
      /\ CloseAnalysis.entry_price ca = entry
      /\ CloseAnalysis.current_value ca = Float.round current 2
      /\ CloseAnalysis.pnl_per_spread ca = Float.round per_spread 2
      /\ CloseAnalysis.total_pnl ca
         = Float.round
             (Spec.per_contracts (SpreadTradeRequest.contracts request)
                                 per_spread) 2
      /\ ((entry == 0)%Q -> CloseAnalysis.pnl_percent ca = Float.zero)
      /\ (Float.nonzero entry_price = true ->
          CloseAnalysis.pnl_percent ca
          = Float.round
              (Float.mul (Float.div per_spread entry_price)
                         (Float.of_Z 100)) 2).
Proof.
  intros request current_price exp dte calls_df puts_df buy_chain
         sell_chain buy_leg sell_leg entry.
  cbv zeta. intros Haction Hentry Hchains Hbuy Hsell.
  destruct (spread_trade_result
              request current_price exp dte calls_df puts_df
              buy_chain sell_chain buy_leg sell_leg Hchains Hbuy Hsell)
    as [r [Hr [_ [_ [_ [_ [_ [_ Hclose]]]]]]]].
  destruct (close_analysis_returns
              request
              (Main.is_credit_type
                 (Py.lower (SpreadTradeRequest.spread_type request)))
              buy_leg sell_leg) as [closing [Hclosing [Hsome Hvalue]]].
  rewrite Hclosing in Hclose. injection Hclose as Hclose. subst closing.
  destruct (SpreadResult.close_analysis r) as [ca|] eqn:Hcl;
    [|exfalso; apply (proj2 Hsome);
      [split; [exact Haction|rewrite Hentry; discriminate]|reflexivity]].
  destruct (Hvalue ca eq_refl) as [entry' [Hentry' Hca]].
  rewrite Hentry in Hentry'. injection Hentry' as <-.
  cbv zeta in Hca. unfold Main.close_values in Hca.
  exists r, ca. split; [exact Hr|]. split; [exact Hcl|].
  rewrite Hca.
  cbn [CloseAnalysis.entry_price CloseAnalysis.current_value
       CloseAnalysis.pnl_per_spread CloseAnalysis.total_pnl
       CloseAnalysis.pnl_percent fst snd].
  unfold Main.is_credit_type.
  repeat split.
  - intro H0.
    assert (Hz : Float.of_Q entry = Float.zero).
    { unfold Float.of_Q. unfold Qeq in H0. cbn in H0.
      rewrite Z.mul_1_r in H0. rewrite H0. reflexivity. }
    rewrite Hz. reflexivity.
  - intros ->. reflexivity.
Qed.

(** An entry of 1.60 closed at sell.ask 0.65, buy.bid 0.50: the percent
    reported is 90.63. *)
Lemma close_analysis_reports_witness :
  exists r ca,
    Main._analyze_spread_trade (Samples.close_request (16 # 10)) 101
                               "2025-02-07" 31 [] Samples.tight_puts_df
    = Py.Return r
    /\ SpreadResult.close_analysis r = Some ca
    /\ CloseAnalysis.current_value ca = Float.of_Q (15 # 100)
    /\ CloseAnalysis.pnl_per_spread ca = Float.of_Q (145 # 100)
    /\ CloseAnalysis.total_pnl ca = Float.of_Z 145
    /\ CloseAnalysis.pnl_percent ca = Float.of_Q (9063 # 100).
Proof.
  destruct (close_analysis_reports
              (Samples.close_request (16 # 10)) 101 "2025-02-07" 31
              [] Samples.tight_puts_df
              Samples.tight_puts_df Samples.tight_puts_df
              (Samples.row 96 300 900 (30 # 100) (50 # 100) (55 # 100))
              (Samples.row 100 400 800 (28 # 100) (60 # 100) (65 # 100))
              (16 # 10) eq_refl eq_refl eq_refl eq_refl eq_refl)
    as [r [ca [Hr [Hca [_ [Hcur [Hper [Htot [_ Hpct]]]]]]]]].
  exists r, ca. split; [exact Hr|]. split; [exact Hca|].
  rewrite Hcur, Hper, Htot, Hpct by reflexivity.
  vm_compute. repeat split.
Defined.

(** ** ChainAnalyzer.select_expiration *)

Lemma in_tuple_In (x : string) (t : list string) :
  Py.in_tuple x t = true <-> In x t.
Proof.
  unfold Py.in_tuple. rewrite existsb_exists. split.
  - intros [y [Hin Heq]]. apply String.eqb_eq in Heq. subst y. exact Hin.
  - intro Hin. exists x. split; [exact Hin|apply String.eqb_refl].
Qed.

Lemma date_string_truthy (r : string) :
  Spec.is_date_string r -> Py.truthy (Some r) = true.
Proof.
  destruct r; [intro H; exfalso; apply H; reflexivity|reflexivity].
Qed.

Lemma first_meeting_dte_skips today min_dte pre rest :
  Forall (Spec.below_floor today min_dte) pre ->
  ChainAnalyzer.first_meeting_dte today min_dte (pre ++ rest)
  = ChainAnalyzer.first_meeting_dte today min_dte rest.
Proof.
  induction 1 as [|x pre [k [Hk Hlt]] _ IH]; [reflexivity|].
  cbn. unfold Spec.days_to_expiration in Hk.
  destruct (Py.strptime_ymd x) as [d|]; [|discriminate].
  cbn in Hk. injection Hk as Hk. rewrite Hk.
  apply Z.leb_gt in Hlt. rewrite Hlt. exact IH.
Qed.

Lemma first_meeting_dte_takes today min_dte e rest :
  Spec.meets_floor today min_dte e ->
  ChainAnalyzer.first_meeting_dte today min_dte (e :: rest) = Some e.
Proof.
  intros [k [Hk Hle]]. cbn. unfold Spec.days_to_expiration in Hk.
  destruct (Py.strptime_ymd e) as [d|]; [|discriminate].
  cbn in Hk. injection Hk as Hk. rewrite Hk.
  apply Z.leb_le in Hle. rewrite Hle. reflexivity.
Qed.

Lemma rev_head_last (A : Type) (l : list A) (d : A) :
  l <> [] -> exists rest, rev l = last l d :: rest.
Proof.
  intro Hne. destruct (exists_last Hne) as [front [x ->]].
  rewrite rev_app_distr, last_last. cbn. eexists. reflexivity.
Qed.

(** C2. On a non-empty sequence of date strings: a requested date that is
    in the sequence is returned as it is, whatever its days to expiration;
    without such a request the result is the first entry, in the given
    order, with at least [min_dte] days left; and when every entry has
    fewer days left the result is the last entry. *)
Theorem select_expiration_policy :
  forall (today : Py.date) (expirations : list string)
         (requested : option string) (min_dte : Z),
    expirations <> [] ->
    Forall Spec.is_date_string expirations ->
    (forall r,
        requested = Some r -> In r expirations ->
        ChainAnalyzer.select_expiration today expirations requested min_dte
        = Py.Return r)
    /\ ((requested = None
         \/ exists r, requested = Some r /\ ~ In r expirations) ->
        (forall pre e post,
            expirations = pre ++ e :: post ->
            Forall (Spec.below_floor today min_dte) pre ->
            Spec.meets_floor today min_dte e ->
            ChainAnalyzer.select_expiration today expirations requested
                                            min_dte
            = Py.Return e)
        /\ (Forall (Spec.below_floor today min_dte) expirations ->
            ChainAnalyzer.select_expiration today expirations requested
                                            min_dte
            = Py.Return (last expirations EmptyString))).
Proof.
  intros today expirations requested min_dte Hne Hdates. split.
  - intros r -> Hin. unfold ChainAnalyzer.select_expiration.
    rewrite Forall_forall in Hdates.
    rewrite (date_string_truthy r (Hdates r Hin)).
    apply in_tuple_In in Hin. rewrite Hin. reflexivity.
  - intro Hreq.
    assert (Hauto :
              ChainAnalyzer.select_expiration today expirations requested
                                              min_dte
              = ChainAnalyzer.auto_select today expirations min_dte).
    { destruct Hreq as [-> | [r [-> Hnot]]]; [reflexivity|].
      unfold ChainAnalyzer.select_expiration.
      destruct (Py.in_tuple r expirations) eqn:E.
      - apply in_tuple_In in E. contradiction.
      - rewrite andb_false_r. reflexivity. }
    rewrite Hauto. unfold ChainAnalyzer.auto_select. split.
    + intros pre e post -> Hpre He.
      rewrite (first_meeting_dte_skips _ _ _ _ Hpre).
      rewrite (first_meeting_dte_takes _ _ _ _ He). reflexivity.
    + intro Hall.
      rewrite <- (app_nil_r expirations) at 1.
      rewrite (first_meeting_dte_skips _ _ _ _ Hall). cbn.
      destruct (rev_head_last _ expirations EmptyString Hne) as [rest ->].
      reflexivity.
Qed.

Lemma select_expiration_policy_witness :
  ChainAnalyzer.select_expiration Samples.today Samples.expirations
                                  (Some "2025-01-10"%string) 7
  = Py.Return "2025-01-10"%string
  /\ ChainAnalyzer.select_expiration Samples.today Samples.expirations
                                     None 7
     = Py.Return "2025-02-07"%string
  /\ ChainAnalyzer.select_expiration Samples.today Samples.expirations
                                     None 60
     = Py.Return "2025-02-07"%string.
Proof.
  assert (Hne : Samples.expirations <> []) by discriminate.
  assert (Hdates : Forall Spec.is_date_string Samples.expirations)
    by (repeat constructor; discriminate).
  assert (H3 : Spec.below_floor Samples.today 7 "2025-01-10")
    by (exists 3%Z; split; [reflexivity|lia]).
  assert (H31 : Spec.meets_floor Samples.today 7 "2025-02-07")
    by (exists 31%Z; split; [reflexivity|lia]).
  assert (L3 : Spec.below_floor Samples.today 60 "2025-01-10")
    by (exists 3%Z; split; [reflexivity|lia]).
  assert (L31 : Spec.below_floor Samples.today 60 "2025-02-07")
    by (exists 31%Z; split; [reflexivity|lia]).
  split.
  - apply (proj1 (select_expiration_policy
                    Samples.today Samples.expirations
                    (Some "2025-01-10"%string) 7 Hne Hdates)
                 "2025-01-10"%string eq_refl).
    left. reflexivity.
  - split.
    + apply (proj1 (proj2 (select_expiration_policy
                             Samples.today Samples.expirations None 7
                             Hne Hdates)
                          (or_introl eq_refl))
                   ["2025-01-10"%string] "2025-02-07"%string [] eq_refl).
      * repeat constructor. exact H3.
      * exact H31.
    + apply (proj2 (proj2 (select_expiration_policy
                             Samples.today Samples.expirations None 60
                             Hne Hdates)
                          (or_introl eq_refl))).
      repeat constructor; assumption.
Defined.

(** ** RiskEngine: the values the messages embed *)

Lemma prefix_app (v rest : string) : String.prefix v (v ++ rest) = true.
Proof.
  induction v as [|c v IH]; cbn.
  - destruct rest; reflexivity.
  - destruct (ascii_dec c c) as [_|Hne]; [exact IH|contradiction].
Qed.

Lemma str_in_prefix (v s : string) :
  String.prefix v s = true -> Py.str_in v s = true.
Proof. intro H. destruct s; cbn [Py.str_in]; rewrite H; reflexivity. Qed.

Lemma str_in_here (v rest : string) : Py.str_in v (v ++ rest) = true.
Proof. apply str_in_prefix, prefix_app. Qed.

Lemma str_in_skip (v front s : string) :
  Py.str_in v s = true -> Py.str_in v (front ++ s) = true.
Proof.
  intro H. induction front as [|c front IH]; [exact H|].
  cbn. rewrite IH. apply orb_true_r.
Qed.

Ltac embeds :=
  repeat (apply str_in_here || apply str_in_skip).

Lemma appends_nothing (value : string) (st : RiskEngine.lists) :
  Spec.appends_embedding value st st.
Proof. left. reflexivity. Qed.

Lemma appends_warning (value msg : string) (st : RiskEngine.lists) :
  Py.str_in value msg = true ->
  Spec.appends_embedding value st (RiskEngine.warn msg st).
Proof. intro H. right. exists msg. split; [left; reflexivity|exact H]. Qed.

Lemma appends_opportunity (value msg : string) (st : RiskEngine.lists) :
  Py.str_in value msg = true ->
  Spec.appends_embedding value st (RiskEngine.opportunity msg st).
Proof. intro H. right. exists msg. split; [right; reflexivity|exact H]. Qed.

(** [assess] starts from two empty lists and runs the seven checks in
    order, each on the lists the previous one left. *)
Lemma assess_runs_all_checks calls puts pcr dte :
  RiskEngine.assess calls puts pcr dte
  = RiskEngine._assess_unusual_activity calls puts
      (RiskEngine._assess_oi_concentration calls puts
         (RiskEngine._assess_iv_skew calls puts
            (RiskEngine._assess_dte dte
               (RiskEngine._assess_liquidity calls puts
                  (RiskEngine._assess_pcr pcr
                     (RiskEngine._assess_iv calls puts ([], []))))))).
Proof. reflexivity. Qed.

Lemma append_assoc (a b c : string) :
  ((a ++ b) ++ c = a ++ b ++ c)%string.
Proof.
  induction a as [|x a IH]; cbn; [reflexivity|]. rewrite IH. reflexivity.
Qed.

(** A value between its delimiters, somewhere in a text. *)
Lemma str_in_framed (front pre v post back : string) :
  Py.str_in (pre ++ v ++ post) (front ++ pre ++ v ++ post ++ back) = true.
Proof.
  apply str_in_skip.
  replace (pre ++ v ++ post ++ back)%string
    with ((pre ++ v ++ post) ++ back)%string
    by (rewrite !append_assoc; reflexivity).
  apply str_in_here.
Qed.

(** C8, as the claim states it, fails: with 3 days to expiration the DTE
    check fires and its message has no "3.0"; with a volume ratio of 1.76
    the PCR check fires and its message has no "1.8"; with half of the
    open interest at one strike the concentration check fires and its
    message has no "50.0". *)
Lemma messages_not_all_one_decimal :
  (exists msg,
      RiskEngine.assess None None None 3 = ([msg], [])
      /\ Py.format_f 1 (inject_Z 3) = "3.0"%string
      /\ Py.str_in "3.0" msg = false)
  /\ (exists msg,
         RiskEngine.assess None None
                           (Some (PutCallRatio.mk (Some (176 # 100)) None))
                           30
         = ([msg], [])
         /\ Py.format_f 1 (176 # 100) = "1.8"%string
         /\ Py.str_in "1.8" msg = false)
  /\ (exists msg,
         RiskEngine.assess (Some Samples.pinned_calls) None None 30
         = ([msg], [])
         /\ Float.format_f
              1 (Float.mul (Float.int_div 25000 50000) (Float.of_Z 100))
            = "50.0"%string
         /\ Py.str_in "50.0" msg = false).
Proof.
  split; [|split]; eexists; (split; [vm_compute; reflexivity|]);
    split; vm_compute; reflexivity.
Qed.

(** C8, amended.  Every check that appends a message embeds its
    triggering value in it, between the marks of its own format: the IV
    level "(x.x%)", the IV skew "(x.xpp)" and the volume/OI ratio "ratio
    x.xx " to one decimal place; the put/call volume ratio "(x.xx)" to two
    decimal places; the liquid-contract count "(n liquid contracts)" and
    the days to expiration "(n days)" as plain integers; the OI
    concentration "(n% of total)" as a whole-number percentage, beside
    the strike "$n strike" to zero decimals.  The skew, the
    concentration and the volume/OI ratio are the floats the check
    computes. *)
Theorem messages_embed_trigger :
  forall (st : RiskEngine.lists),
    (forall calls puts a,
        RiskEngine.primary calls puts = Some a ->
        Spec.appends_embedding
          ("(" ++ Py.format_f 1 (ChainAnalysis.avg_implied_volatility a)
           ++ "%)")
          st (RiskEngine._assess_iv calls puts st))
    /\ (forall pcr v,
           PutCallRatio.volume pcr = Some v ->
           Spec.appends_embedding ("(" ++ Py.format_f 2 v ++ ")")
                                  st (RiskEngine._assess_pcr (Some pcr) st))
    /\ (forall label c,
           Spec.appends_embedding
             ("(" ++ Py.str_int (ChainAnalysis.liquid_contracts c)
              ++ " liquid contracts)")
             st (RiskEngine.liquidity_side label (Some c) st))
    /\ (forall dte,
           Spec.appends_embedding ("(" ++ Py.str_int dte ++ " days)")
                                  st (RiskEngine._assess_dte dte st))
    /\ (forall c p call_iv put_iv,
           ChainAnalysis.atm_iv c = Some call_iv ->
           ChainAnalysis.atm_iv p = Some put_iv ->
           let skew := Float.sub (Float.of_Q put_iv) (Float.of_Q call_iv) in
           Spec.appends_embedding
             ("(" ++ Float.format_f 1 (if Float.ltb Float.zero skew
                                       then skew else Float.abs skew)
              ++ "pp)")
             st (RiskEngine._assess_iv_skew (Some c) (Some p) st))
    /\ (forall label c top rest,
           ChainAnalysis.top_oi_strikes c = top :: rest ->
           let concentration :=
             Float.int_div (TopOIStrike.open_interest top)
                           (ChainAnalysis.total_open_interest c) in
           Spec.appends_embedding
             ("$" ++ Py.format_f 0 (TopOIStrike.strike top) ++ " strike")
             st (RiskEngine.oi_concentration_side label (Some c) st)
           /\ Spec.appends_embedding
                ("(" ++ Float.format_pct0 concentration ++ " of total)")
                st (RiskEngine.oi_concentration_side label (Some c) st))
    /\ (forall label c,
           let vol_oi_ratio :=
             Float.int_div (ChainAnalysis.total_volume c)
                           (ChainAnalysis.total_open_interest c) in
           Spec.appends_embedding
             ("ratio " ++ Float.format_f 1 vol_oi_ratio ++ "x ")
             st (RiskEngine.unusual_side label (Some c) st)).
Proof.
  intro st. split; [|split; [|split; [|split; [|split; [|split]]]]].
  - intros calls puts a Hp. unfold RiskEngine._assess_iv. rewrite Hp.
    destruct (Py.Qltb _ _).
    { apply appends_warning.
      apply (str_in_framed "High implied volatility " "(" _ "%)"). }
    destruct (Py.Qltb _ _); [|apply appends_nothing].
    apply appends_opportunity.
    apply (str_in_framed "Low implied volatility " "(" _ "%)").
  - intros pcr v Hv. unfold RiskEngine._assess_pcr. rewrite Hv.
    destruct (Py.Qltb _ _).
    { apply appends_warning.
      apply (str_in_framed "High Put/Call Volume Ratio " "(" _ ")"). }
    destruct (Py.Qltb _ _); [|apply appends_nothing].
    apply appends_opportunity.
    apply (str_in_framed "Low Put/Call Volume Ratio " "(" _ ")").
  - intros label c. unfold RiskEngine.liquidity_side.
    destruct (_ <? _)%Z; [|apply appends_nothing].
    apply appends_warning. unfold RiskEngine.liquidity_msg.
    apply str_in_skip, str_in_skip.
    apply (str_in_framed " " "(" _ " liquid contracts)").
  - intro dte. unfold RiskEngine._assess_dte.
    destruct (_ <? _)%Z.
    { apply appends_warning.
      apply (str_in_framed "Short time to expiration " "(" _ " days)"). }
    destruct (_ <? _)%Z; [|apply appends_nothing].
    apply appends_opportunity.
    apply (str_in_framed "Long time to expiration " "(" _ " days)").
  - intros c p call_iv put_iv Hc Hp. cbv zeta.
    unfold RiskEngine._assess_iv_skew. rewrite Hc, Hp.
    destruct (Float.ltb (Float.of_Q Config.IV_SKEW_SIGNIFICANT) _);
      [|apply appends_nothing].
    destruct (Float.ltb Float.zero _).
    + apply appends_warning.
      apply (str_in_framed "Significant put skew " "(" _ "pp)").
    + apply appends_opportunity.
      apply (str_in_framed "Significant call skew " "(" _ "pp)").
  - intros label c top rest Htop. cbv zeta.
    unfold RiskEngine.oi_concentration_side.
    destruct (_ =? _)%Z; [split; apply appends_nothing|]. rewrite Htop.
    destruct (Float.ltb _ _); [|split; apply appends_nothing].
    unfold RiskEngine.oi_concentration_msg.
    split; apply appends_warning.
    + apply str_in_skip, str_in_skip.
      apply (str_in_framed " at " "$" _ " strike").
    + do 5 apply str_in_skip.
      apply (str_in_framed " strike " "(" _ " of total)").
  - intros label c. cbv zeta. unfold RiskEngine.unusual_side.
    destruct (_ =? _)%Z; [apply appends_nothing|].
    destruct (Float.ltb _ _); [|apply appends_nothing].
    apply appends_opportunity. unfold RiskEngine.unusual_msg.
    apply str_in_skip, str_in_skip.
    apply (str_in_framed " activity - volume/OI " "ratio " _ "x ").
Qed.

Lemma messages_embed_trigger_witness :
  exists msg,
    RiskEngine._assess_iv (Some Samples.high_iv_calls) None ([], [])
    = ([msg], [])
    /\ Py.str_in "(75.0%)" msg = true.
Proof.
  destruct (proj1 (messages_embed_trigger ([], []))
                  (Some Samples.high_iv_calls) None Samples.high_iv_calls
                  eq_refl)
    as [H | [msg [[H | H] Hin]]].
  - vm_compute in H. discriminate H.
  - exists msg. split; [exact H|exact Hin].
  - vm_compute in H. discriminate H.
Defined.

(** The ratios are the doubles that Python's division gives: 63 / 20 is
    just below 3.15 and prints as 3.1, and 115 / 200 times 100 is just
    below 57.5 and prints as 57%. *)
Example computed_ratios_are_doubles :
  RiskEngine.assess (Some Samples.busy_calls) None None 30
  = ([],
     [("Unusual calls activity - volume/OI ratio 3.1x "
       ++ "suggests new positioning")%string])
  /\ RiskEngine.assess (Some Samples.concentrated_calls) None None 30
     = ([("High OI concentration in calls at $105 strike "
          ++ "(57% of total) - potential pin risk")%string],
        []).
Proof. split; vm_compute; reflexivity. Qed.

(** ** Order-preserving sorting of positioned rows *)

Section StableOrder.

Variable A : Type.
Variable leb : A -> A -> bool.
Hypothesis leb_total : forall a b, leb a b = true \/ leb b a = true.
Hypothesis leb_trans :
  forall a b c, leb a b = true -> leb b c = true -> leb a c = true.

Lemma Forall_insert_by (P : nat * A -> Prop) x l :
  P x -> Forall P l ->
  Forall P (Pandas.insert_by (Pandas.by_value leb) x l).
Proof.
  intros Hx Hl. induction Hl as [|y l Hy Hl IH]; cbn.
  - constructor; [exact Hx|constructor].
  - destruct (Pandas.by_value leb x y).
    + constructor; [exact Hx|]. constructor; assumption.
    + constructor; assumption.
Qed.

Lemma Forall_sort_by (P : nat * A -> Prop) l :
  Forall P l -> Forall P (Pandas.sort_by (Pandas.by_value leb) l).
Proof.
  induction 1 as [|x l Hx Hl IH]; cbn.
  - constructor.
  - apply Forall_insert_by; assumption.
Qed.

Lemma In_insert_by x y l :
  In y (x :: l) -> In y (Pandas.insert_by (Pandas.by_value leb) x l).
Proof.
  induction l as [|z l IH]; cbn; [tauto|].
  destruct (Pandas.by_value leb x z); cbn; [tauto|].
  intros [H | [H | H]]; [right; apply IH; left; exact H
                        |left; exact H
                        |right; apply IH; right; exact H].
Qed.

Lemma In_sort_by y l :
  In y l -> In y (Pandas.sort_by (Pandas.by_value leb) l).
Proof.
  induction l as [|x l IH]; cbn; [tauto|].
  intros [H | H]; apply In_insert_by; [left; exact H|right; exact (IH H)].
Qed.

Lemma length_insert_by x l :
  List.length (Pandas.insert_by (Pandas.by_value leb) x l)
  = S (List.length l).
Proof.
  induction l as [|y l IH]; cbn; [reflexivity|].
  destruct (Pandas.by_value leb x y); cbn; [reflexivity|].
  rewrite IH. reflexivity.
Qed.

Lemma length_sort_by l :
  List.length (Pandas.sort_by (Pandas.by_value leb) l) = List.length l.
Proof.
  induction l as [|x l IH]; cbn; [reflexivity|].
  rewrite length_insert_by, IH. reflexivity.
Qed.

Lemma insert_by_sorted x s :
  StronglySorted (Spec.placed_before leb) s ->
  Forall (fun y => (fst x < fst y)%nat) s ->
  StronglySorted (Spec.placed_before leb)
                 (Pandas.insert_by (Pandas.by_value leb) x s).
Proof.
  induction 1 as [|y s Hs IH Hy]; intro Hidx; cbn.
  - constructor; constructor.
  - inversion Hidx as [|? ? Hxy Hrest]; subst.
    destruct (Pandas.by_value leb x y) eqn:E; unfold Pandas.by_value in E.
    + constructor; [constructor; assumption|].
      constructor; [split; [exact E|intros _; exact Hxy]|].
      rewrite Forall_forall in *. intros z Hz.
      destruct (Hy z Hz) as [Hyz _].
      split; [exact (leb_trans _ _ _ E Hyz)|intros _; exact (Hrest z Hz)].
    + constructor; [exact (IH Hrest)|].
      apply Forall_insert_by; [|exact Hy].
      destruct (leb_total (snd x) (snd y)) as [H | H]; [congruence|].
      split; [exact H|intro H'; congruence].
Qed.

Lemma sort_by_sorted l :
  StronglySorted (fun a b => (fst a < fst b)%nat) l ->
  StronglySorted (Spec.placed_before leb)
                 (Pandas.sort_by (Pandas.by_value leb) l).
Proof.
  induction 1 as [|x l Hl IH Hx]; cbn; [constructor|].
  apply insert_by_sorted; [exact IH|].
  apply Forall_sort_by. exact Hx.
Qed.

End StableOrder.

Lemma insert_by_permutation (A : Type) (leb : A -> A -> bool) x l :
  Permutation (x :: l) (Pandas.insert_by leb x l).
Proof.
  induction l as [|y l IH]; cbn; [apply Permutation_refl|].
  destruct (leb x y); [apply Permutation_refl|].
  eapply Permutation_trans; [apply perm_swap|].
  apply perm_skip. exact IH.
Qed.

Lemma sort_by_permutation (A : Type) (leb : A -> A -> bool) l :
  Permutation l (Pandas.sort_by leb l).
Proof.
  induction l as [|x l IH]; cbn; [apply Permutation_refl|].
  eapply Permutation_trans; [apply perm_skip; exact IH|].
  apply insert_by_permutation.
Qed.

Lemma enumerate_from_spec (A : Type) (l : list A) (n : nat) :
  StronglySorted (fun a b => (fst a < fst b)%nat)
                 (combine (seq n (List.length l)) l)
  /\ Forall (fun ir => (n <= fst ir)%nat
                       /\ nth_error l (fst ir - n) = Some (snd ir))
            (combine (seq n (List.length l)) l)
  /\ forall j r, nth_error l j = Some r ->
                 In ((n + j)%nat, r) (combine (seq n (List.length l)) l).
Proof.
  revert n. induction l as [|x l IH]; intro n; cbn.
  - repeat split; try constructor. intros [|j] r H; discriminate H.
  - destruct (IH (S n)) as [Hs [Hf Hin]]. repeat split.
    + constructor; [exact Hs|].
      eapply Forall_impl; [|exact Hf]. cbn. intros ir [Hle _]. lia.
    + constructor.
      * cbn. split; [lia|]. rewrite Nat.sub_diag. reflexivity.
      * eapply Forall_impl; [|exact Hf]. cbn. intros ir [Hle Hnth].
        split; [lia|].
        replace (fst ir - n)%nat with (S (fst ir - S n)) by lia.
        exact Hnth.
    + intros [|j] r H.
      * cbn in H. injection H as <-. left. f_equal. lia.
      * right. replace (n + S j)%nat with (S n + j)%nat by lia.
        apply Hin. exact H.
Qed.

Lemma enumerate_sorted (A : Type) (l : list A) :
  StronglySorted (fun a b => (fst a < fst b)%nat) (Pandas.enumerate l).
Proof. apply (enumerate_from_spec A l 0). Qed.

Lemma enumerate_nth (A : Type) (l : list A) :
  Forall (fun ir => nth_error l (fst ir) = Some (snd ir))
         (Pandas.enumerate l).
Proof.
  destruct (enumerate_from_spec A l 0) as [_ [H _]].
  eapply Forall_impl; [|exact H]. cbn. intros ir [_ Hnth].
  rewrite Nat.sub_0_r in Hnth. exact Hnth.
Qed.

Lemma enumerate_In (A : Type) (l : list A) j r :
  nth_error l j = Some r -> In (j, r) (Pandas.enumerate l).
Proof.
  destruct (enumerate_from_spec A l 0) as [_ [_ H]]. apply (H j r).
Qed.

Lemma enumerate_length (A : Type) (l : list A) :
  List.length (Pandas.enumerate l) = List.length l.
Proof.
  unfold Pandas.enumerate.
  rewrite length_combine, length_seq. apply Nat.min_id.
Qed.

Lemma In_firstn_keep (A : Type) (x : A) n l : In x (firstn n l) -> In x l.
Proof.
  revert n. induction l as [|y l IH]; intros [|n]; cbn; try tauto.
  intros [H | H]; [left; exact H|right; exact (IH n H)].
Qed.

Lemma StronglySorted_firstn (A : Type) (R : A -> A -> Prop) n l :
  StronglySorted R l -> StronglySorted R (firstn n l).
Proof.
  intro H. revert n. induction H as [|x l Hl IH Hx]; intros [|n]; cbn;
    try constructor.
  - apply IH.
  - rewrite Forall_forall in *. intros y Hy.
    apply Hx. eapply In_firstn_keep; exact Hy.
Qed.

Lemma StronglySorted_weaken (A : Type) (R R' : A -> A -> Prop) l :
  (forall a b, R a b -> R' a b) ->
  StronglySorted R l -> StronglySorted R' l.
Proof.
  intros Himp. induction 1 as [|x l Hl IH Hx]; constructor;
    [exact IH|].
  eapply Forall_impl; [|exact Hx]. intros; apply Himp; assumption.
Qed.

Lemma Forall_firstn_keep (A : Type) (P : A -> Prop) n l :
  Forall P l -> Forall P (firstn n l).
Proof.
  rewrite !Forall_forall. intros H x Hx. apply H.
  eapply In_firstn_keep; exact Hx.
Qed.

(** ** Top strikes *)

Lemma Zge_total (column : Row.t -> Z) (a b : Row.t) :
  (column b <=? column a)%Z = true \/ (column a <=? column b)%Z = true.
Proof. rewrite !Z.leb_le. lia. Qed.

Lemma Zge_trans (column : Row.t -> Z) (a b c : Row.t) :
  (column b <=? column a)%Z = true -> (column c <=? column b)%Z = true ->
  (column c <=? column a)%Z = true.
Proof. rewrite !Z.leb_le. lia. Qed.

(** [nlargest] keeps at most [n] rows, each a row of the frame at the
    position it is tagged with, largest first and earlier rows first among
    equals. *)
Lemma nlargest_ranked (n : nat) (column : Row.t -> Z) (df : DataFrame) :
  List.length (Pandas.nlargest n column df) = Nat.min n (List.length df)
  /\ Forall (fun ir => nth_error df (fst ir) = Some (snd ir))
            (Pandas.nlargest n column df)
  /\ StronglySorted (Spec.ranks_before column) (Pandas.nlargest n column df).
Proof.
  unfold Pandas.nlargest. repeat split.
  - rewrite length_firstn, length_sort_by, enumerate_length. reflexivity.
  - apply Forall_firstn_keep, Forall_sort_by, enumerate_nth.
  - apply StronglySorted_firstn.
    eapply StronglySorted_weaken;
      [|apply sort_by_sorted;
        [apply Zge_total|apply Zge_trans|apply enumerate_sorted]].
    intros a b [Hle Htie]. cbn in Hle, Htie. unfold Spec.ranks_before.
    apply Z.leb_le in Hle.
    destruct (Z.eq_dec (column (snd a)) (column (snd b))) as [E | E].
    + right. split; [exact E|]. apply Htie. apply Z.leb_le. lia.
    + left. lia.
Qed.

Lemma top_by_volume_picks (liquid_options : DataFrame) :
  ChainAnalyzer._top_by_volume liquid_options
  = map (fun ir => Spec.volume_item (snd ir))
        (Pandas.nlargest Config.TOP_STRIKES_LIMIT Row.volume liquid_options).
Proof. destruct liquid_options; reflexivity. Qed.

Lemma top_by_oi_picks (liquid_options : DataFrame) :
  ChainAnalyzer._top_by_oi liquid_options
  = map (fun ir => Spec.oi_item (snd ir))
        (Pandas.nlargest Config.TOP_STRIKES_LIMIT Row.openInterest
                         liquid_options).
Proof. destruct liquid_options; reflexivity. Qed.

Lemma liquid_length_le (options_df : DataFrame) (min_volume : Z) :
  (List.length (ChainAnalyzer.liquid options_df min_volume)
   <= List.length options_df)%nat.
Proof. apply filter_length_le. Qed.

(** C5. For a chain with a row, the analysis has [liquid_contracts] at
    most [total_contracts]; each top list has at most min(5,
    [liquid_contracts]) entries, lists rows of the liquid subset only, and
    is in descending order of its metric, rows of equal metric in their
    original order. *)
Theorem top_lists_bounded_and_ranked `{np : Numpy.sort} :
  forall (r : Row.t) (df : DataFrame) (current_price : Q) (min_volume : Z),
  exists a,
    ChainAnalyzer.analyze_chain (r :: df) current_price min_volume = Some a
    /\ (ChainAnalysis.liquid_contracts a
        <= ChainAnalysis.total_contracts a)%Z
    /\ (Z.of_nat (List.length (ChainAnalysis.top_volume_strikes a))
        <= Z.min 5 (ChainAnalysis.liquid_contracts a))%Z
    /\ (Z.of_nat (List.length (ChainAnalysis.top_oi_strikes a))
        <= Z.min 5 (ChainAnalysis.liquid_contracts a))%Z
    /\ Spec.ranked_selection
         Row.volume Spec.volume_item
         (ChainAnalyzer.liquid (r :: df) min_volume)
         (ChainAnalysis.top_volume_strikes a)
    /\ Spec.ranked_selection
         Row.openInterest Spec.oi_item
         (ChainAnalyzer.liquid (r :: df) min_volume)
         (ChainAnalysis.top_oi_strikes a).
Proof.
  intros r df current_price min_volume.
  eexists. split; [unfold ChainAnalyzer.analyze_chain; reflexivity|].
  cbn [ChainAnalysis.liquid_contracts ChainAnalysis.total_contracts
       ChainAnalysis.top_volume_strikes ChainAnalysis.top_oi_strikes].
  set (liq := ChainAnalyzer.liquid (r :: df) min_volume).
  pose proof (liquid_length_le (r :: df) min_volume) as Hle. fold liq in Hle.
  destruct (nlargest_ranked Config.TOP_STRIKES_LIMIT Row.volume liq)
    as [Hlv [Hnv Hsv]].
  destruct (nlargest_ranked Config.TOP_STRIKES_LIMIT Row.openInterest liq)
    as [Hlo [Hno Hso]].
  rewrite top_by_volume_picks, top_by_oi_picks, !length_map, Hlv, Hlo.
  change Config.TOP_STRIKES_LIMIT with 5%nat.
  repeat split.
  - lia.
  - lia.
  - lia.
  - eexists. split; [reflexivity|]. split; assumption.
  - eexists. split; [reflexivity|]. split; assumption.
Qed.

(** On two liquid rows of equal volume the earlier row is listed first. *)
Example top_volume_tie_keeps_row_order :
  exists a,
    ChainAnalyzer.analyze_chain (np := Samples.keeping_order)
                                Samples.tied_df 105 75 = Some a
    /\ map TopVolumeStrike.strike (ChainAnalysis.top_volume_strikes a)
       = [110; 100]%Q
    /\ map TopOIStrike.strike (ChainAnalysis.top_oi_strikes a)
       = [100; 110]%Q.
Proof. eexists. split; [vm_compute; reflexivity|]. split; reflexivity. Qed.

(** ** ATM detection *)

Lemma Qle_bool_total (a b : Q) : Qle_bool a b = true \/ Qle_bool b a = true.
Proof.
  rewrite !Qle_bool_iff.
  destruct (Qlt_le_dec a b) as [H | H];
    [left; apply Qlt_le_weak; exact H|right; exact H].
Qed.

Lemma Qle_bool_trans (a b c : Q) :
  Qle_bool a b = true -> Qle_bool b c = true -> Qle_bool a c = true.
Proof. rewrite !Qle_bool_iff. apply Qle_trans. Qed.

Lemma nth_error_map_inv (A B : Type) (f : A -> B) l i y :
  nth_error (map f l) i = Some y ->
  exists x, nth_error l i = Some x /\ f x = y.
Proof.
  rewrite nth_error_map. destruct (nth_error l i) as [x|]; cbn;
    [|discriminate].
  intro H. injection H as <-. exists x. split; reflexivity.
Qed.

(** The first position a sort yields holds a least value. *)
Lemma sorts_head_least (np : Numpy.sort) (values : list Q) :
  Spec.sorts np ->
  values <> [] ->
  exists i v rest,
    Numpy.argsort values = i :: rest
    /\ nth_error values i = Some v
    /\ forall j w, nth_error values j = Some w -> (v <= w)%Q.
Proof.
  intros Hs Hne. destruct (Hs values) as [Hperm Hsorted].
  destruct (Numpy.argsort values) as [|i rest] eqn:E.
  - apply Permutation_nil in Hperm.
    destruct values; [contradiction|discriminate Hperm].
  - assert (Hi : In i (seq 0 (List.length values)))
      by (eapply Permutation_in; [exact Hperm|left; reflexivity]).
    apply in_seq in Hi.
    destruct (nth_error values i) as [v|] eqn:Hv;
      [|apply nth_error_None in Hv; lia].
    exists i, v, rest. split; [reflexivity|]. split; [exact Hv|].
    intros j w Hj.
    assert (Hjn : (j < List.length values)%nat)
      by (apply nth_error_Some; congruence).
    assert (Hin : In j (i :: rest)).
    { eapply Permutation_in; [apply Permutation_sym; exact Hperm|].
      apply in_seq. lia. }
    destruct Hin as [<- | Hin].
    + rewrite Hv in Hj. injection Hj as <-. apply Qle_refl.
    + inversion Hsorted as [|? ? _ Hhead]; subst.
      rewrite Forall_forall in Hhead. specialize (Hhead j Hin).
      cbn beta in Hhead.
      rewrite (nth_error_nth _ _ 0 Hv), (nth_error_nth _ _ 0 Hj) in Hhead.
      exact Hhead.
Qed.

(** The row the ATM detection picks: a liquid row nearest to the price. *)
Lemma atm_row_nearest `{np : Numpy.sort} (liquid_options : DataFrame)
      (current_price : Q) :
  Spec.sorts np ->
  liquid_options <> [] ->
  exists r,
    ChainAnalyzer.atm_row liquid_options current_price = [r]
    /\ In r liquid_options
    /\ forall r',
        In r' liquid_options ->
        (Spec.distance current_price r <= Spec.distance current_price r')%Q.
Proof.
  intros Hs Hne. unfold ChainAnalyzer.atm_row, Pandas.argsort.
  set (dist := map (fun r => Py.abs (Row.strike r - current_price))
                   liquid_options).
  assert (Hd : dist <> [])
    by (destruct liquid_options; [contradiction|discriminate]).
  destruct (sorts_head_least np dist Hs Hd) as [i [v [rest [Ha [Hv Hmin]]]]].
  destruct (nth_error_map_inv _ _ _ _ _ _ Hv) as [r [Hr Hrv]].
  exists r. rewrite Ha. cbn. rewrite Hr.
  split; [reflexivity|]. split; [eapply nth_error_In; exact Hr|].
  intros r' Hin. destruct (In_nth_error _ _ Hin) as [j Hj].
  assert (Hj' : nth_error dist j = Some (Spec.distance current_price r'))
    by (unfold dist; rewrite nth_error_map, Hj; reflexivity).
  subst v. exact (Hmin _ _ Hj').
Qed.

(** *** Two sorts that numpy's promise allows *)

Section Ascending.

Variable leb : Q -> Q -> bool.
Hypothesis leb_true : forall a b, leb a b = true -> (a <= b)%Q.
Hypothesis leb_false : forall a b, leb a b = false -> (b <= a)%Q.

Lemma insert_by_ascending (x : nat * Q) (s : list (nat * Q)) :
  StronglySorted (fun a b => (snd a <= snd b)%Q) s ->
  StronglySorted (fun a b => (snd a <= snd b)%Q)
                 (Pandas.insert_by (Pandas.by_value leb) x s).
Proof.
  induction 1 as [|y s Hs IH Hy]; cbn.
  - constructor; constructor.
  - destruct (Pandas.by_value leb x y) eqn:E; unfold Pandas.by_value in E.
    + constructor; [constructor; assumption|].
      constructor; [exact (leb_true _ _ E)|].
      eapply Forall_impl; [|exact Hy]. cbn. intros z Hz.
      eapply Qle_trans; [exact (leb_true _ _ E)|exact Hz].
    + constructor; [exact IH|].
      apply Forall_insert_by; [exact (leb_false _ _ E)|exact Hy].
Qed.

Lemma sort_by_ascending (l : list (nat * Q)) :
  StronglySorted (fun a b => (snd a <= snd b)%Q)
                 (Pandas.sort_by (Pandas.by_value leb) l).
Proof.
  induction l as [|x l IH]; cbn; [constructor|].
  apply insert_by_ascending. exact IH.
Qed.

Lemma positions_ascending (values : list Q) (l : list (nat * Q)) :
  Forall (fun ir => nth_error values (fst ir) = Some (snd ir)) l ->
  StronglySorted (fun a b => (snd a <= snd b)%Q) l ->
  StronglySorted (fun i j => (nth i values 0 <= nth j values 0)%Q)
                 (map fst l).
Proof.
  intros Hnth Hs. induction Hs as [|x l Hl IH Hx]; cbn; [constructor|].
  inversion Hnth as [|? ? Hxn Hln]; subst.
  constructor; [exact (IH Hln)|].
  apply Forall_map. rewrite Forall_forall in *. intros y Hy.
  rewrite (nth_error_nth _ _ 0 Hxn), (nth_error_nth _ _ 0 (Hln y Hy)).
  exact (Hx y Hy).
Qed.

Lemma enumerate_positions (A : Type) (l : list A) (n : nat) :
  map fst (combine (seq n (List.length l)) l) = seq n (List.length l).
Proof.
  revert n. induction l as [|x l IH]; intro n; cbn; [reflexivity|].
  rewrite IH. reflexivity.
Qed.

Lemma insertion_sorts (values : list Q) :
  let positions :=
    map fst (Pandas.sort_by (Pandas.by_value leb)
                            (Pandas.enumerate values)) in
  Permutation positions (seq 0 (List.length values))
  /\ StronglySorted (fun i j => (nth i values 0 <= nth j values 0)%Q)
                    positions.
Proof.
  cbv zeta. split.
  - rewrite <- (enumerate_positions Q values 0).
    apply Permutation_map, Permutation_sym, sort_by_permutation.
  - apply positions_ascending; [|apply sort_by_ascending].
    apply Forall_sort_by. apply enumerate_nth.
Qed.

End Ascending.

Lemma keeping_order_sorts : Spec.sorts Samples.keeping_order.
Proof.
  intro values. apply (insertion_sorts Qle_bool).
  - intros a b H. apply Qle_bool_iff. exact H.
  - intros a b H.
    destruct (Qle_bool_total a b) as [H' | H'];
      [congruence|apply Qle_bool_iff; exact H'].
Qed.

Lemma later_first_sorts : Spec.sorts Samples.later_first.
Proof.
  intro values. apply (insertion_sorts Py.Qltb).
  - intros a b H. apply Qlt_le_weak, Qltb_lt. exact H.
  - intros a b H. apply Qltb_ge. exact H.
Qed.

(** C3, as the claim states it, fails on the tie rule.  The two liquid
    rows of the sample, at strikes 110 and 100, are equally near to a
    price of 105; under a sort that puts the later of two equal values
    first, which numpy's default kind is free to do, the ATM strike is
    100, the strike of the second row. *)
Lemma atm_tie_not_first_occurrence :
  Spec.sorts Samples.later_first
  /\ exists a first second,
      ChainAnalyzer.liquid Samples.tied_df 75 = [first; second]
      /\ (Spec.distance 105 first == Spec.distance 105 second)%Q
      /\ ChainAnalyzer.analyze_chain (np := Samples.later_first)
                                     Samples.tied_df 105 75 = Some a
      /\ ChainAnalysis.atm_strike a = Some (Row.strike second)
      /\ ChainAnalysis.atm_strike a <> Some (Row.strike first).
Proof.
  split; [exact later_first_sorts|].
  do 3 eexists.
  split; [vm_compute; reflexivity|].
  split; [vm_compute; reflexivity|].
  split; [vm_compute; reflexivity|].
  split; [reflexivity|discriminate].
Qed.

(** C3, amended.  Under any sort that numpy's promise allows: when the
    liquid subset has a row, the ATM strike of the analysis is the strike
    of a liquid row at least distance from the current price, and the ATM
    IV and delta are that row's; which of several nearest rows it is, is
    not fixed.  When a chain with rows has no liquid row, the ATM strike,
    IV and delta are all [None]. *)
Theorem atm_is_a_nearest_liquid_row `{np : Numpy.sort} :
  forall (options_df : DataFrame) (current_price : Q) (min_volume : Z),
    (Spec.sorts np ->
     ChainAnalyzer.liquid options_df min_volume <> [] ->
     exists a r,
       ChainAnalyzer.analyze_chain options_df current_price min_volume
       = Some a
       /\ In r (ChainAnalyzer.liquid options_df min_volume)
       /\ ChainAnalysis.atm_strike a = Some (Row.strike r)
       /\ ChainAnalysis.atm_iv a = Some (Row.impliedVolatility r * 100)%Q
       /\ ChainAnalysis.atm_delta a = Spec.delta_value r
       /\ forall r',
           In r' (ChainAnalyzer.liquid options_df min_volume) ->
           (Spec.distance current_price r
            <= Spec.distance current_price r')%Q)
    /\ (options_df <> [] ->
        ChainAnalyzer.liquid options_df min_volume = [] ->
        exists a,
          ChainAnalyzer.analyze_chain options_df current_price min_volume
          = Some a
          /\ ChainAnalysis.atm_strike a = None
          /\ ChainAnalysis.atm_iv a = None
          /\ ChainAnalysis.atm_delta a = None).
Proof.
  intros options_df current_price min_volume. split.
  - intros Hs Hliq.
    destruct (atm_row_nearest _ current_price Hs Hliq)
      as [r [Hrow [Hin Hmin]]].
    destruct options_df as [|r0 df]; [contradiction Hliq; reflexivity|].
    eexists. exists r.
    split; [unfold ChainAnalyzer.analyze_chain; reflexivity|].
    cbn [ChainAnalysis.atm_strike ChainAnalysis.atm_iv
         ChainAnalysis.atm_delta].
    rewrite Hrow.
    destruct (ChainAnalyzer.liquid (r0 :: df) min_volume) eqn:E;
      [contradiction Hliq; reflexivity|].
    split; [exact Hin|]. do 3 (split; [reflexivity|]). exact Hmin.
  - intros Hne Hliq.
    destruct options_df as [|r0 df]; [contradiction Hne; reflexivity|].
    eexists.
    split; [unfold ChainAnalyzer.analyze_chain; reflexivity|].
    cbn [ChainAnalysis.atm_strike ChainAnalysis.atm_iv
         ChainAnalysis.atm_delta].
    rewrite Hliq. repeat split.
Qed.

Lemma atm_is_a_nearest_liquid_row_witness :
  (exists a,
      ChainAnalyzer.analyze_chain (np := Samples.keeping_order)
                                  Samples.sample_options_df 106 75 = Some a
      /\ ChainAnalysis.atm_strike a = Some 105)
  /\ (exists a,
         ChainAnalyzer.analyze_chain (np := Samples.keeping_order)
                                     Samples.sample_options_df 106 600
         = Some a
         /\ ChainAnalysis.atm_strike a = None
         /\ ChainAnalysis.atm_iv a = None
         /\ ChainAnalysis.atm_delta a = None).
Proof.
  destruct (atm_is_a_nearest_liquid_row
              (np := Samples.keeping_order)
              Samples.sample_options_df 106 75) as [Hsome _].
  destruct (atm_is_a_nearest_liquid_row
              (np := Samples.keeping_order)
              Samples.sample_options_df 106 600) as [_ Hnone].
  split.
  - destruct (Hsome keeping_order_sorts ltac:(discriminate))
      as [a [r [Ha [Hr [Hs _]]]]].
    exists a. split; [exact Ha|].
    vm_compute in Ha. injection Ha as <-. reflexivity.
  - apply Hnone; [discriminate|reflexivity].
Defined.

(** Under a sort that keeps equal values in their input order, the ATM
    row of the same two rows is the first one. *)
Example atm_tie_takes_first_row :
  exists a,
    ChainAnalyzer.analyze_chain (np := Samples.keeping_order)
                                Samples.tied_df 105 75 = Some a
    /\ ChainAnalysis.atm_strike a = Some 110.
Proof. eexists. split; [vm_compute; reflexivity|reflexivity]. Qed.

(** * Further properties of the code *)

(** ** Expiration selection on any tuple *)

Lemma first_meeting_dte_member today min_dte expirations e :
  ChainAnalyzer.first_meeting_dte today min_dte expirations = Some e ->
  In e expirations.
Proof.
  induction expirations as [|x rest IH]; cbn; [discriminate|].
  destruct (Py.strptime_ymd x) as [d|].
  - destruct (min_dte <=? Py.days_between d today)%Z.
    + intro H. injection H as <-. left. reflexivity.
    + intro H. right. exact (IH H).
  - intro H. right. exact (IH H).
Qed.

Lemma auto_select_member today expirations min_dte :
  expirations <> [] ->
  exists e,
    ChainAnalyzer.auto_select today expirations min_dte = Py.Return e
    /\ In e expirations.
Proof.
  intro Hne. unfold ChainAnalyzer.auto_select.
  destruct (ChainAnalyzer.first_meeting_dte today min_dte expirations)
    as [e|] eqn:E.
  - exists e. split; [reflexivity|].
    exact (first_meeting_dte_member _ _ _ _ E).
  - destruct (rev_head_last _ expirations EmptyString Hne) as [rest Hr].
    rewrite Hr. exists (last expirations EmptyString).
    split; [reflexivity|].
    apply in_rev. rewrite Hr. left. reflexivity.
Qed.

(** X1. [get_expirations] raises its data error exactly on an empty
    tuple, and on any tuple it lets through [select_expiration] returns
    one of its entries, whatever the request, the floor, the date and the
    entries' format; [select_expiration] itself raises [IndexError] on an
    empty tuple. *)
Theorem selected_expiration_is_available :
  forall (today : Py.date) (options : list string) (symbol : string)
         (requested : option string) (min_dte : Z),
    match ChainAnalyzer.get_expirations options symbol with
    | Py.Return expirations =>
        expirations = options
        /\ exists e,
            ChainAnalyzer.select_expiration today expirations requested
                                            min_dte = Py.Return e
            /\ In e options
    | Py.Raise err =>
        options = []
        /\ err = Py.OptionsDataError
                   symbol "No options data available for this symbol"
        /\ ChainAnalyzer.select_expiration today options requested min_dte
           = Py.Raise Py.IndexError
    end.
Proof.
  intros today options symbol requested min_dte.
  destruct options as [|x rest].
  - cbn. repeat split.
    destruct requested as [r|]; [|reflexivity].
    unfold ChainAnalyzer.select_expiration. cbn.
    rewrite andb_false_r. reflexivity.
  - cbn [ChainAnalyzer.get_expirations]. split; [reflexivity|].
    assert (Hne : x :: rest <> []) by discriminate.
    destruct (auto_select_member today (x :: rest) min_dte Hne)
      as [e [He Hin]].
    unfold ChainAnalyzer.select_expiration.
    destruct requested as [r|]; [|exists e; split; assumption].
    destruct (Py.truthy (Some r) && Py.in_tuple r (x :: rest)) eqn:E.
    + exists r. split; [reflexivity|].
      apply andb_true_iff in E. apply in_tuple_In, E.
    + exists e. split; assumption.
Qed.

Lemma first_meeting_dte_earliest today min_dte expirations x :
  In x expirations -> Spec.meets_floor today min_dte x ->
  exists pre e post,
    expirations = pre ++ e :: post
    /\ ChainAnalyzer.first_meeting_dte today min_dte expirations = Some e
    /\ Spec.meets_floor today min_dte e
    /\ Forall (fun y => ~ Spec.meets_floor today min_dte y) pre.
Proof.
  induction expirations as [|y rest IH]; [contradiction|].
  intros Hin Hx.
  assert (Hstep :
            Spec.meets_floor today min_dte y
            \/ (~ Spec.meets_floor today min_dte y
                /\ ChainAnalyzer.first_meeting_dte today min_dte (y :: rest)
                   = ChainAnalyzer.first_meeting_dte today min_dte rest)).
  { cbn. unfold Spec.meets_floor, Spec.days_to_expiration.
    destruct (Py.strptime_ymd y) as [d|]; cbn.
    - destruct (min_dte <=? Py.days_between d today)%Z eqn:E.
      + left. eexists. split; [reflexivity|]. apply Z.leb_le. exact E.
      + right. split; [|reflexivity].
        intros [k [Hk Hle]]. injection Hk as <-.
        apply Z.leb_gt in E. lia.
    - right. split; [|reflexivity]. intros [k [Hk _]]. discriminate Hk. }
  destruct Hstep as [Hy | [Hny Hskip]].
  - exists [], y, rest. split; [reflexivity|].
    split; [apply first_meeting_dte_takes; exact Hy|].
    split; [exact Hy|constructor].
  - destruct Hin as [-> | Hin]; [contradiction|].
    destruct (IH Hin Hx) as [pre [e [post [-> [Hsel [He Hpre]]]]]].
    exists (y :: pre), e, post. split; [reflexivity|].
    split; [rewrite Hskip; exact Hsel|].
    split; [exact He|constructor; assumption].
Qed.

(** X2. Without a usable request (none, or one that is not among the
    entries), when some entry has at least [min_dte] days left the result
    is the earliest such entry: it meets the floor and no entry before it
    does; entries that are not dates are passed over. *)
Theorem auto_selection_meets_floor :
  forall (today : Py.date) (expirations : list string)
         (requested : option string) (min_dte : Z) (x : string),
    (requested = None
     \/ exists r, requested = Some r /\ ~ In r expirations) ->
    In x expirations ->
    Spec.meets_floor today min_dte x ->
    exists pre e post,
      expirations = pre ++ e :: post
      /\ ChainAnalyzer.select_expiration today expirations requested min_dte
         = Py.Return e
      /\ Spec.meets_floor today min_dte e
      /\ Forall (fun y => ~ Spec.meets_floor today min_dte y) pre.
Proof.
  intros today expirations requested min_dte x Hreq Hin Hx.
  destruct (first_meeting_dte_earliest _ _ _ _ Hin Hx)
    as [pre [e [post [Heq [Hsel [He Hpre]]]]]].
  exists pre, e, post. split; [exact Heq|].
  split; [|split; assumption].
  assert (Hauto :
            ChainAnalyzer.select_expiration today expirations requested
                                            min_dte
            = ChainAnalyzer.auto_select today expirations min_dte).
  { destruct Hreq as [-> | [r [-> Hnot]]]; [reflexivity|].
    unfold ChainAnalyzer.select_expiration.
    destruct (Py.in_tuple r expirations) eqn:E.
    - apply in_tuple_In in E. contradiction.
    - rewrite andb_false_r. reflexivity. }
  rewrite Hauto. unfold ChainAnalyzer.auto_select. rewrite Hsel.
  reflexivity.
Qed.

Lemma auto_selection_meets_floor_witness :
  exists pre e post,
    Samples.ragged_expirations = pre ++ e :: post
    /\ ChainAnalyzer.select_expiration Samples.today
                                       Samples.ragged_expirations
                                       (Some "2025-01-17"%string) 7
       = Py.Return e
    /\ Spec.meets_floor Samples.today 7 e
    /\ Forall (fun y => ~ Spec.meets_floor Samples.today 7 y) pre.
Proof.
  apply (auto_selection_meets_floor
           Samples.today Samples.ragged_expirations
           (Some "2025-01-17"%string) 7 "2025-03-21"%string).
  - right. exists "2025-01-17"%string. split; [reflexivity|].
    intro H. cbn in H.
    repeat (destruct H as [H | H]; [discriminate H|]). exact H.
  - cbn. tauto.
  - exists 73%Z. split; [reflexivity|lia].
Defined.

(** ** Aggregates of a chain *)

Lemma filter_length_mono (A : Type) (f g : A -> bool) (l : list A) :
  (forall x, f x = true -> g x = true) ->
  (List.length (filter f l) <= List.length (filter g l))%nat.
Proof.
  intro Himp. induction l as [|x l IH]; cbn; [lia|].
  destruct (f x) eqn:Ef.
  - rewrite (Himp x Ef). cbn. lia.
  - destruct (g x); cbn; lia.
Qed.

(** X3. Raising the volume threshold never adds liquid contracts: for
    thresholds m1 <= m2 on the same chain, every row liquid at m2 is
    liquid at m1 and [liquid_contracts] at m2 is at most that at m1. *)
Theorem liquid_contracts_antitone `{np : Numpy.sort} :
  forall (r : Row.t) (df : DataFrame) (current_price : Q) (m1 m2 : Z),
    (m1 <= m2)%Z ->
    exists a1 a2,
      ChainAnalyzer.analyze_chain (r :: df) current_price m1 = Some a1
      /\ ChainAnalyzer.analyze_chain (r :: df) current_price m2 = Some a2
      /\ (ChainAnalysis.liquid_contracts a2
          <= ChainAnalysis.liquid_contracts a1)%Z
      /\ forall row,
          In row (ChainAnalyzer.liquid (r :: df) m2) ->
          In row (ChainAnalyzer.liquid (r :: df) m1).
Proof.
  intros r df current_price m1 m2 Hle.
  do 2 eexists.
  split; [unfold ChainAnalyzer.analyze_chain; reflexivity|].
  split; [unfold ChainAnalyzer.analyze_chain; reflexivity|].
  cbn [ChainAnalysis.liquid_contracts].
  assert (Himp : forall x : Row.t,
             (m2 <=? Row.volume x)%Z = true ->
             (m1 <=? Row.volume x)%Z = true)
    by (intro x; rewrite !Z.leb_le; lia).
  split.
  - apply Nat2Z.inj_le. unfold ChainAnalyzer.liquid.
    apply filter_length_mono. exact Himp.
  - intros row. unfold ChainAnalyzer.liquid. rewrite !filter_In.
    intros [Hin Hv]. split; [exact Hin|apply Himp; exact Hv].
Qed.

Lemma liquid_contracts_antitone_witness :
  exists a1 a2,
    ChainAnalyzer.analyze_chain (np := Samples.keeping_order)
                                Samples.sample_options_df 106 75 = Some a1
    /\ ChainAnalyzer.analyze_chain (np := Samples.keeping_order)
                                   Samples.sample_options_df 106 200
       = Some a2
    /\ (ChainAnalysis.liquid_contracts a2
        <= ChainAnalysis.liquid_contracts a1)%Z.
Proof.
  destruct (liquid_contracts_antitone (np := Samples.keeping_order)
              (Samples.row 95 50 1000 (45 # 100) (780 # 100) (820 # 100))
              (tl Samples.sample_options_df) 106 75 200 ltac:(lia))
    as [a1 [a2 [H1 [H2 [Hle _]]]]].
  exists a1, a2. split; [exact H1|]. split; [exact H2|exact Hle].
Defined.

Lemma fold_max_bounds (l : list Q) (acc : Q) :
  let m := fold_left (fun m y => if Qle_bool m y then y else m) l acc in
  (acc <= m)%Q /\ forall y, In y l -> (y <= m)%Q.
Proof.
  revert acc. induction l as [|x l IH]; intro acc; cbn.
  - split; [apply Qle_refl|intros y []].
  - destruct (IH (if Qle_bool acc x then x else acc)) as [Hacc Hall].
    assert (Hstep : (acc <= (if Qle_bool acc x then x else acc))%Q
                    /\ (x <= (if Qle_bool acc x then x else acc))%Q).
    { destruct (Qle_bool acc x) eqn:E.
      - apply Qle_bool_iff in E. split; [exact E|apply Qle_refl].
      - split; [apply Qle_refl|].
        destruct (Qle_bool_total acc x) as [H | H]; [congruence|].
        apply Qle_bool_iff. exact H. }
    destruct Hstep as [Ha Hx]. split.
    + eapply Qle_trans; [exact Ha|exact Hacc].
    + intros y [<- | Hy]; [eapply Qle_trans; [exact Hx|exact Hacc]|].
      apply Hall. exact Hy.
Qed.

Lemma fold_min_bounds (l : list Q) (acc : Q) :
  let m := fold_left (fun m y => if Qle_bool y m then y else m) l acc in
  (m <= acc)%Q /\ forall y, In y l -> (m <= y)%Q.
Proof.
  revert acc. induction l as [|x l IH]; intro acc; cbn.
  - split; [apply Qle_refl|intros y []].
  - destruct (IH (if Qle_bool x acc then x else acc)) as [Hacc Hall].
    assert (Hstep : ((if Qle_bool x acc then x else acc) <= acc)%Q
                    /\ ((if Qle_bool x acc then x else acc) <= x)%Q).
    { destruct (Qle_bool x acc) eqn:E.
      - apply Qle_bool_iff in E. split; [exact E|apply Qle_refl].
      - split; [apply Qle_refl|].
        destruct (Qle_bool_total x acc) as [H | H]; [congruence|].
        apply Qle_bool_iff. exact H. }
    destruct Hstep as [Ha Hx]. split.
    + eapply Qle_trans; [exact Hacc|exact Ha].
    + intros y [<- | Hy]; [eapply Qle_trans; [exact Hacc|exact Hx]|].
      apply Hall. exact Hy.
Qed.

Lemma series_max_upper (l : list Q) (y : Q) :
  In y l -> (y <= Pandas.max l)%Q.
Proof.
  destruct l as [|x rest]; [intros []|]. cbn [Pandas.max].
  destruct (fold_max_bounds rest x) as [Hx Hall].
  intros [<- | Hy]; [exact Hx|exact (Hall y Hy)].
Qed.

Lemma series_min_lower (l : list Q) (y : Q) :
  In y l -> (Pandas.min l <= y)%Q.
Proof.
  destruct l as [|x rest]; [intros []|]. cbn [Pandas.min].
  destruct (fold_min_bounds rest x) as [Hx Hall].
  intros [<- | Hy]; [exact Hx|exact (Hall y Hy)].
Qed.

Lemma Qsum_acc_bounds (l : list Q) (lo hi acc : Q) :
  (forall y, In y l -> lo <= y /\ y <= hi)%Q ->
  (acc + lo * inject_Z (Z.of_nat (List.length l))
   <= fold_left Qplus l acc)%Q
  /\ (fold_left Qplus l acc
      <= acc + hi * inject_Z (Z.of_nat (List.length l)))%Q.
Proof.
  revert acc. induction l as [|x l IH]; intros acc Hb.
  - cbn [fold_left List.length].
    change (inject_Z (Z.of_nat 0)) with 0%Q. split; lra.
  - cbn [fold_left List.length].
    rewrite Nat2Z.inj_succ, <- Z.add_1_r, inject_Z_plus.
    change (inject_Z 1) with 1%Q.
    destruct (Hb x (or_introl eq_refl)) as [Hlo Hhi].
    destruct (IH (acc + x)%Q (fun y Hy => Hb y (or_intror Hy)))
      as [H1 H2].
    set (n := inject_Z (Z.of_nat (List.length l))) in *.
    split; lra.
Qed.

(** The mean of a non-empty series lies between any bounds of its
    values. *)
Lemma series_mean_bounds (l : list Q) (lo hi : Q) :
  l <> [] ->
  (forall y, In y l -> lo <= y /\ y <= hi)%Q ->
  (lo <= Pandas.mean l /\ Pandas.mean l <= hi)%Q.
Proof.
  intros Hne Hb. unfold Pandas.mean, Pandas.Qsum.
  destruct (Qsum_acc_bounds l lo hi 0 Hb) as [H1 H2].
  assert (Hn : (0 < inject_Z (Z.of_nat (List.length l)))%Q).
  { change 0%Q with (inject_Z 0). rewrite <- Zlt_Qlt.
    destruct l; [contradiction|cbn; lia]. }
  set (n := inject_Z (Z.of_nat (List.length l))) in *.
  split.
  - apply Qle_shift_div_l; [exact Hn|lra].
  - apply Qle_shift_div_r; [exact Hn|lra].
Qed.

(** ** The top lists hold the largest rows *)

Lemma StronglySorted_app_cross (A : Type) (R : A -> A -> Prop) l1 l2 :
  StronglySorted R (l1 ++ l2) ->
  forall a b, In a l1 -> In b l2 -> R a b.
Proof.
  induction l1 as [|x l1 IH]; cbn; [intros _ a b []|].
  intros Hs a b Ha Hb. inversion Hs as [|? ? Hrest Hx]; subst.
  destruct Ha as [<- | Ha].
  - rewrite Forall_forall in Hx. apply Hx, in_or_app. right. exact Hb.
  - exact (IH Hrest a b Ha Hb).
Qed.

(** A row that [nlargest] leaves out is not above any row it keeps. *)
Lemma nlargest_dominates (n : nat) (column : Row.t -> Z) (df : DataFrame)
      (j : nat) (row : Row.t) :
  nth_error df j = Some row ->
  In (j, row) (Pandas.nlargest n column df)
  \/ Forall (fun ir => (column row <= column (snd ir))%Z)
            (Pandas.nlargest n column df).
Proof.
  intro Hj. unfold Pandas.nlargest.
  set (leb := fun a b : Row.t => (column b <=? column a)%Z).
  set (s := Pandas.sort_by (Pandas.by_value leb) (Pandas.enumerate df)).
  assert (Hin : In (j, row) s)
    by (apply In_sort_by, enumerate_In; exact Hj).
  assert (Hs : StronglySorted (Spec.placed_before leb) s).
  { apply sort_by_sorted;
      [intros a b; apply Zge_total
      |intros a b c; apply Zge_trans
      |apply enumerate_sorted]. }
  rewrite <- (firstn_skipn n s) in Hin, Hs.
  apply in_app_or in Hin. destruct Hin as [Hin | Hin]; [left; exact Hin|].
  right. apply Forall_forall. intros ir Hir.
  destruct (StronglySorted_app_cross _ _ _ _ Hs ir (j, row) Hir Hin)
    as [Hle _].
  unfold leb in Hle. cbn in Hle. apply Z.leb_le. exact Hle.
Qed.

(** X5. The top lists hold the largest liquid rows: a liquid row that a
    top list leaves out has a metric no larger than that of any row
    listed, and the first entry of each list carries the largest metric of
    the liquid subset. *)
Theorem top_lists_hold_the_largest `{np : Numpy.sort} :
  forall (r : Row.t) (df : DataFrame) (current_price : Q) (min_volume : Z),
  exists a,
    ChainAnalyzer.analyze_chain (r :: df) current_price min_volume = Some a
    /\ (forall row,
           In row (ChainAnalyzer.liquid (r :: df) min_volume) ->
           In (Spec.volume_item row) (ChainAnalysis.top_volume_strikes a)
           \/ Forall (fun t => (Row.volume row <= TopVolumeStrike.volume t)%Z)
                     (ChainAnalysis.top_volume_strikes a))
    /\ (forall row,
           In row (ChainAnalyzer.liquid (r :: df) min_volume) ->
           In (Spec.oi_item row) (ChainAnalysis.top_oi_strikes a)
           \/ Forall
                (fun t => (Row.openInterest row
                           <= TopOIStrike.open_interest t)%Z)
                (ChainAnalysis.top_oi_strikes a))
    /\ (forall top rest row,
           ChainAnalysis.top_volume_strikes a = top :: rest ->
           In row (ChainAnalyzer.liquid (r :: df) min_volume) ->
           (Row.volume row <= TopVolumeStrike.volume top)%Z)
    /\ (forall top rest row,
           ChainAnalysis.top_oi_strikes a = top :: rest ->
           In row (ChainAnalyzer.liquid (r :: df) min_volume) ->
           (Row.openInterest row <= TopOIStrike.open_interest top)%Z).
Proof.
  intros r df current_price min_volume.
  eexists. split; [unfold ChainAnalyzer.analyze_chain; reflexivity|].
  cbn [ChainAnalysis.top_volume_strikes ChainAnalysis.top_oi_strikes].
  set (liq := ChainAnalyzer.liquid (r :: df) min_volume).
  rewrite top_by_volume_picks, top_by_oi_picks.
  assert (Hv : forall row,
             In row liq ->
             In (Spec.volume_item row)
                (map (fun ir => Spec.volume_item (snd ir))
                     (Pandas.nlargest Config.TOP_STRIKES_LIMIT Row.volume liq))
             \/ Forall (fun t => (Row.volume row
                                  <= TopVolumeStrike.volume t)%Z)
                       (map (fun ir => Spec.volume_item (snd ir))
                            (Pandas.nlargest Config.TOP_STRIKES_LIMIT
                                             Row.volume liq))).
  { intros row Hrow. apply In_nth_error in Hrow. destruct Hrow as [j Hj].
    destruct (nlargest_dominates Config.TOP_STRIKES_LIMIT Row.volume
                                 liq j row Hj) as [H | H].
    - left. apply in_map_iff. exists (j, row). split; [reflexivity|exact H].
    - right. apply Forall_map. exact H. }
  assert (Ho : forall row,
             In row liq ->
             In (Spec.oi_item row)
                (map (fun ir => Spec.oi_item (snd ir))
                     (Pandas.nlargest Config.TOP_STRIKES_LIMIT
                                      Row.openInterest liq))
             \/ Forall (fun t => (Row.openInterest row
                                  <= TopOIStrike.open_interest t)%Z)
                       (map (fun ir => Spec.oi_item (snd ir))
                            (Pandas.nlargest Config.TOP_STRIKES_LIMIT
                                             Row.openInterest liq))).
  { intros row Hrow. apply In_nth_error in Hrow. destruct Hrow as [j Hj].
    destruct (nlargest_dominates Config.TOP_STRIKES_LIMIT Row.openInterest
                                 liq j row Hj) as [H | H].
    - left. apply in_map_iff. exists (j, row). split; [reflexivity|exact H].
    - right. apply Forall_map. exact H. }
  split; [exact Hv|]. split; [exact Ho|].
  destruct (nlargest_ranked Config.TOP_STRIKES_LIMIT Row.volume liq)
    as [_ [_ Hsv]].
  destruct (nlargest_ranked Config.TOP_STRIKES_LIMIT Row.openInterest liq)
    as [_ [_ Hso]].
  split.
  - intros top rest row Htop Hrow.
    destruct (Hv row Hrow) as [Hin | Hall].
    + rewrite Htop in Hin.
      destruct (Pandas.nlargest Config.TOP_STRIKES_LIMIT Row.volume liq)
        as [|p picks]; [discriminate Htop|].
      cbn in Htop. injection Htop as <- <-.
      destruct Hin as [Heq | Hin].
      * apply (f_equal TopVolumeStrike.volume) in Heq. cbn in *. lia.
      * apply in_map_iff in Hin. destruct Hin as [q [Heq Hq]].
        apply (f_equal TopVolumeStrike.volume) in Heq.
        inversion Hsv as [|? ? _ Hp]; subst.
        rewrite Forall_forall in Hp.
        destruct (Hp q Hq) as [H | [H _]]; cbn in *; lia.
    + rewrite Htop in Hall. inversion Hall; assumption.
  - intros top rest row Htop Hrow.
    destruct (Ho row Hrow) as [Hin | Hall].
    + rewrite Htop in Hin.
      destruct (Pandas.nlargest Config.TOP_STRIKES_LIMIT Row.openInterest
                                liq)
        as [|p picks]; [discriminate Htop|].
      cbn in Htop. injection Htop as <- <-.
      destruct Hin as [Heq | Hin].
      * apply (f_equal TopOIStrike.open_interest) in Heq. cbn in *. lia.
      * apply in_map_iff in Hin. destruct Hin as [q [Heq Hq]].
        apply (f_equal TopOIStrike.open_interest) in Heq.
        inversion Hso as [|? ? _ Hp]; subst.
        rewrite Forall_forall in Hp.
        destruct (Hp q Hq) as [H | [H _]]; cbn in *; lia.
    + rewrite Htop in Hall. inversion Hall; assumption.
Qed.

Lemma total_from (l : list Z) (acc : Z) :
  fold_left Z.add l acc = (acc + fold_left Z.add l 0)%Z.
Proof.
  revert acc.
  induction l as [|x l IH]; intro acc; cbn; [lia|].
  rewrite (IH (acc + x)%Z), (IH x). lia.
Qed.

Lemma column_total_cons (column : Row.t -> Z) (r : Row.t) (df : DataFrame) :
  Spec.column_total column (r :: df)
  = (column r + Spec.column_total column df)%Z.
Proof. unfold Spec.column_total. cbn. apply total_from. Qed.

Lemma column_total_member_le (column : Row.t -> Z) (df : DataFrame)
      (x : Row.t) :
  Forall (fun y => (0 <= column y)%Z) df -> In x df ->
  (0 <= Spec.column_total column df)%Z
  /\ (column x <= Spec.column_total column df)%Z.
Proof.
  induction 1 as [|y l Hy Hl IH]; [intros []|].
  rewrite column_total_cons. intros [<- | Hin].
  - assert (0 <= Spec.column_total column l)%Z.
    { clear IH. induction Hl as [|z l Hz Hl IH']; [reflexivity|].
      rewrite column_total_cons. lia. }
    lia.
  - destruct (IH Hin). lia.
Qed.

(** A sum that fits in 64 bits is not changed by the wrap-around. *)
Lemma int64_fits (z : Z) :
  (- 2 ^ 63 <= z < 2 ^ 63)%Z -> Numpy.int64 z = z.
Proof.
  intro H. unfold Numpy.int64.
  change (2 ^ 63)%Z with 9223372036854775808%Z in *.
  change (2 ^ 64)%Z with 18446744073709551616%Z.
  rewrite Z.mod_small; lia.
Qed.

(** Past 64 bits the sum wraps around: two cells of 2^62 add up to
    -2^63. *)
Example int64_sum_wraps :
  Pandas.sum [2 ^ 62; 2 ^ 62]%Z = (- 2 ^ 63)%Z.
Proof. reflexivity. Qed.

(** The fields of an analysis, read off the chain it was made from. *)
Lemma analyze_chain_fields `{np : Numpy.sort} (options_df : DataFrame)
          (current_price : Q)
      (min_volume : Z) (a : ChainAnalysis.t) :
  ChainAnalyzer.analyze_chain options_df current_price min_volume = Some a ->
  options_df <> []
  /\ ChainAnalysis.total_contracts a = Z.of_nat (List.length options_df)
  /\ ChainAnalysis.liquid_contracts a
     = Z.of_nat (List.length (ChainAnalyzer.liquid options_df min_volume))
  /\ ChainAnalysis.total_volume a
     = Pandas.sum (map Row.volume options_df)
  /\ ChainAnalysis.total_open_interest a
     = Pandas.sum (map Row.openInterest options_df)
  /\ ChainAnalysis.top_volume_strikes a
     = ChainAnalyzer._top_by_volume
         (ChainAnalyzer.liquid options_df min_volume)
  /\ ChainAnalysis.top_oi_strikes a
     = ChainAnalyzer._top_by_oi (ChainAnalyzer.liquid options_df min_volume).
Proof.
  destruct options_df as [|r df]; [discriminate|].
  intro Ha. unfold ChainAnalyzer.analyze_chain in Ha. injection Ha as <-.
  split; [discriminate|]. repeat split.
Qed.

(** X6. For a chain whose volumes and open interests are not negative
    and add up to less than 2^63, so that the int64 sums do not wrap
    around, the first entry of each top list is at most the side's total:
    [top_oi_strikes[0].open_interest <= total_open_interest] and
    [top_volume_strikes[0].volume <= total_volume]. *)
Theorem top_entry_within_total `{np : Numpy.sort} :
  forall (options_df : DataFrame) (current_price : Q) (min_volume : Z)
         (a : ChainAnalysis.t),
    Forall (fun row => (0 <= Row.volume row)%Z
                       /\ (0 <= Row.openInterest row)%Z) options_df ->
    (Spec.column_total Row.volume options_df < 2 ^ 63)%Z ->
    (Spec.column_total Row.openInterest options_df < 2 ^ 63)%Z ->
    ChainAnalyzer.analyze_chain options_df current_price min_volume
    = Some a ->
    (forall top rest,
        ChainAnalysis.top_oi_strikes a = top :: rest ->
        (0 <= TopOIStrike.open_interest top
         <= ChainAnalysis.total_open_interest a)%Z)
    /\ (forall top rest,
           ChainAnalysis.top_volume_strikes a = top :: rest ->
           (0 <= TopVolumeStrike.volume top
            <= ChainAnalysis.total_volume a)%Z).
Proof.
  intros options_df current_price min_volume a Hnn Hvfit Hofit Ha.
  destruct (analyze_chain_fields _ _ _ _ Ha)
    as [_ [_ [_ [Hvol [Hoi [Htv Hto]]]]]].
  rewrite Hvol, Hoi, Htv, Hto, top_by_volume_picks, top_by_oi_picks.
  set (liq := ChainAnalyzer.liquid options_df min_volume).
  assert (Hmember : forall (n : nat) (column : Row.t -> Z) p,
             In p (Pandas.nlargest n column liq) -> In (snd p) options_df).
  { intros n column p Hp.
    destruct (nlargest_ranked n column liq) as [_ [Hnth _]].
    rewrite Forall_forall in Hnth.
    pose proof (nth_error_In _ _ (Hnth p Hp)) as Hin.
    unfold liq, ChainAnalyzer.liquid in Hin.
    apply filter_In in Hin. exact (proj1 Hin). }
  assert (Hsum : forall column,
             Forall (fun y => (0 <= column y)%Z) options_df ->
             (Spec.column_total column options_df < 2 ^ 63)%Z ->
             forall x, In x options_df ->
                       (column x <= Pandas.sum (map column options_df))%Z).
  { intros column Hc Hfit x Hx.
    destruct (column_total_member_le column options_df x Hc Hx)
      as [H0 Hle].
    unfold Pandas.sum. fold (Spec.column_total column options_df).
    rewrite int64_fits; [exact Hle|].
    change (2 ^ 63)%Z with 9223372036854775808%Z in *. lia. }
  rewrite Forall_forall in Hnn.
  split; intros top rest Htop.
  - destruct (Pandas.nlargest Config.TOP_STRIKES_LIMIT Row.openInterest liq)
      as [|p picks] eqn:E; [discriminate Htop|].
    cbn in Htop. injection Htop as <- _. cbn.
    assert (Hin : In (snd p) options_df)
      by (apply (Hmember Config.TOP_STRIKES_LIMIT Row.openInterest);
          rewrite E; left; reflexivity).
    split; [apply Hnn; exact Hin|].
    apply (Hsum Row.openInterest); [|exact Hofit|exact Hin].
    apply Forall_forall. intros y Hy. apply Hnn. exact Hy.
  - destruct (Pandas.nlargest Config.TOP_STRIKES_LIMIT Row.volume liq)
      as [|p picks] eqn:E; [discriminate Htop|].
    cbn in Htop. injection Htop as <- _. cbn.
    assert (Hin : In (snd p) options_df)
      by (apply (Hmember Config.TOP_STRIKES_LIMIT Row.volume);
          rewrite E; left; reflexivity).
    split; [apply Hnn; exact Hin|].
    apply (Hsum Row.volume); [|exact Hvfit|exact Hin].
    apply Forall_forall. intros y Hy. apply Hnn. exact Hy.
Qed.

Lemma top_entry_within_total_witness :
  exists a top rest,
    ChainAnalyzer.analyze_chain (np := Samples.keeping_order)
                                Samples.sample_options_df 106 75 = Some a
    /\ ChainAnalysis.top_oi_strikes a = top :: rest
    /\ (0 <= TopOIStrike.open_interest top
        <= ChainAnalysis.total_open_interest a)%Z.
Proof.
  destruct (ChainAnalyzer.analyze_chain (np := Samples.keeping_order)
                                        Samples.sample_options_df 106 75)
    as [a|] eqn:Ha; [|vm_compute in Ha; discriminate Ha].
  assert (Htop : exists top rest,
             ChainAnalysis.top_oi_strikes a = top :: rest).
  { vm_compute in Ha. injection Ha as <-. do 2 eexists. reflexivity. }
  destruct Htop as [top [rest Htop]].
  exists a, top, rest. split; [reflexivity|]. split; [exact Htop|].
  apply (proj1 (top_entry_within_total
                  (np := Samples.keeping_order)
                  Samples.sample_options_df 106 75 a
                  ltac:(repeat constructor; cbn; lia)
                  ltac:(reflexivity) ltac:(reflexivity) Ha)
               top rest Htop).
Defined.

(** ** RiskEngine.assess: the checks are independent *)

Lemma appends_only_skip : Spec.appends_only (fun st => st).
Proof. intros [w o]. cbn. rewrite !app_nil_r. reflexivity. Qed.

Lemma appends_only_warn (msg : string) :
  Spec.appends_only (RiskEngine.warn msg).
Proof. intros [w o]. cbn. rewrite app_nil_r. reflexivity. Qed.

Lemma appends_only_opportunity (msg : string) :
  Spec.appends_only (RiskEngine.opportunity msg).
Proof. intros [w o]. cbn. rewrite app_nil_r. reflexivity. Qed.

Lemma appends_only_then (f g : RiskEngine.lists -> RiskEngine.lists) :
  Spec.appends_only f -> Spec.appends_only g ->
  Spec.appends_only (fun st => g (f st)).
Proof.
  intros Hf Hg st. unfold Spec.alone.
  rewrite (Hg (f st)), (Hf st), (Hg (f ([], []))). cbn [fst snd].
  rewrite !app_assoc. reflexivity.
Qed.

Lemma assess_iv_appends calls puts :
  Spec.appends_only (RiskEngine._assess_iv calls puts).
Proof.
  unfold RiskEngine._assess_iv.
  destruct (RiskEngine.primary calls puts) as [p|];
    [|apply appends_only_skip].
  destruct (Py.Qltb Config.IV_HIGH_THRESHOLD _); [apply appends_only_warn|].
  destruct (Py.Qltb _ Config.IV_LOW_THRESHOLD);
    [apply appends_only_opportunity|apply appends_only_skip].
Qed.

Lemma assess_pcr_appends pcr :
  Spec.appends_only (RiskEngine._assess_pcr pcr).
Proof.
  unfold RiskEngine._assess_pcr. destruct pcr as [p|];
    [|apply appends_only_skip].
  destruct (PutCallRatio.volume p) as [v|]; [|apply appends_only_skip].
  destruct (Py.Qltb Config.PCR_BEARISH_THRESHOLD v);
    [apply appends_only_warn|].
  destruct (Py.Qltb v Config.PCR_BULLISH_THRESHOLD);
    [apply appends_only_opportunity|apply appends_only_skip].
Qed.

Lemma liquidity_side_appends label chain :
  Spec.appends_only (RiskEngine.liquidity_side label chain).
Proof.
  unfold RiskEngine.liquidity_side. destruct chain as [c|];
    [|apply appends_only_skip].
  destruct (_ <? _)%Z; [apply appends_only_warn|apply appends_only_skip].
Qed.

Lemma assess_dte_appends dte :
  Spec.appends_only (RiskEngine._assess_dte dte).
Proof.
  unfold RiskEngine._assess_dte.
  destruct (_ <? _)%Z; [apply appends_only_warn|].
  destruct (_ <? _)%Z;
    [apply appends_only_opportunity|apply appends_only_skip].
Qed.

Lemma assess_iv_skew_appends calls puts :
  Spec.appends_only (RiskEngine._assess_iv_skew calls puts).
Proof.
  unfold RiskEngine._assess_iv_skew.
  destruct calls as [c|]; [|apply appends_only_skip].
  destruct puts as [p|]; [|apply appends_only_skip].
  destruct (ChainAnalysis.atm_iv c) as [civ|]; [|apply appends_only_skip].
  destruct (ChainAnalysis.atm_iv p) as [piv|]; [|apply appends_only_skip].
  destruct (Float.ltb (Float.of_Q Config.IV_SKEW_SIGNIFICANT) _);
    [|apply appends_only_skip].
  destruct (Float.ltb Float.zero _);
    [apply appends_only_warn|apply appends_only_opportunity].
Qed.

Lemma oi_concentration_side_appends label chain :
  Spec.appends_only (RiskEngine.oi_concentration_side label chain).
Proof.
  unfold RiskEngine.oi_concentration_side.
  destruct chain as [c|]; [|apply appends_only_skip].
  destruct (_ =? _)%Z; [apply appends_only_skip|].
  destruct (ChainAnalysis.top_oi_strikes c) as [|top rest];
    [apply appends_only_skip|].
  destruct (Float.ltb _ _);
    [apply appends_only_warn|apply appends_only_skip].
Qed.

Lemma unusual_side_appends label chain :
  Spec.appends_only (RiskEngine.unusual_side label chain).
Proof.
  unfold RiskEngine.unusual_side.
  destruct chain as [c|]; [|apply appends_only_skip].
  destruct (_ =? _)%Z; [apply appends_only_skip|].
  destruct (Float.ltb _ _);
    [apply appends_only_opportunity|apply appends_only_skip].
Qed.

Lemma assess_liquidity_appends calls puts :
  Spec.appends_only (RiskEngine._assess_liquidity calls puts).
Proof.
  apply (appends_only_then (RiskEngine.liquidity_side "calls" calls)
                           (RiskEngine.liquidity_side "puts" puts));
    apply liquidity_side_appends.
Qed.

Lemma assess_oi_concentration_appends calls puts :
  Spec.appends_only (RiskEngine._assess_oi_concentration calls puts).
Proof.
  apply (appends_only_then
           (RiskEngine.oi_concentration_side "calls" calls)
           (RiskEngine.oi_concentration_side "puts" puts));
    apply oi_concentration_side_appends.
Qed.

Lemma assess_unusual_activity_appends calls puts :
  Spec.appends_only (RiskEngine._assess_unusual_activity calls puts).
Proof.
  apply (appends_only_then (RiskEngine.unusual_side "calls" calls)
                           (RiskEngine.unusual_side "puts" puts));
    apply unusual_side_appends.
Qed.

Lemma assess_parts :
  forall (calls puts : option ChainAnalysis.t)
         (pcr : option PutCallRatio.t) (dte : Z),
    let iv := Spec.alone (RiskEngine._assess_iv calls puts) in
    let ratio := Spec.alone (RiskEngine._assess_pcr pcr) in
    let liquidity := Spec.alone (RiskEngine._assess_liquidity calls puts) in
    let expiry := Spec.alone (RiskEngine._assess_dte dte) in
    let skew := Spec.alone (RiskEngine._assess_iv_skew calls puts) in
    let pin := Spec.alone (RiskEngine._assess_oi_concentration calls puts) in
    let unusual :=
      Spec.alone (RiskEngine._assess_unusual_activity calls puts) in
    fst (RiskEngine.assess calls puts pcr dte)
    = fst iv ++ fst ratio ++ fst liquidity ++ fst expiry ++ fst skew
          ++ fst pin ++ fst unusual
    /\ snd (RiskEngine.assess calls puts pcr dte)
       = snd iv ++ snd ratio ++ snd liquidity ++ snd expiry ++ snd skew
             ++ snd pin ++ snd unusual.
Proof.
  intros calls puts pcr dte. cbv zeta.
  rewrite assess_runs_all_checks.
  rewrite (assess_unusual_activity_appends calls puts _),
    (assess_oi_concentration_appends calls puts _),
    (assess_iv_skew_appends calls puts _),
    (assess_dte_appends dte _),
    (assess_liquidity_appends calls puts _),
    (assess_pcr_appends pcr _).
  cbn [fst snd]. rewrite <- !app_assoc. split; reflexivity.
Qed.

(** X7. The seven checks of [assess] do not influence one another: the
    warnings are what each check appends on its own, in the order IV,
    PCR, liquidity, DTE, IV skew, OI concentration, unusual activity, and
    so are the opportunities; no check removes or rewrites a message of an
    earlier one. *)
Theorem assess_concatenates_checks :
  forall (calls puts : option ChainAnalysis.t)
         (pcr : option PutCallRatio.t) (dte : Z),
    let iv := Spec.alone (RiskEngine._assess_iv calls puts) in
    let ratio := Spec.alone (RiskEngine._assess_pcr pcr) in
    let liquidity := Spec.alone (RiskEngine._assess_liquidity calls puts) in
    let expiry := Spec.alone (RiskEngine._assess_dte dte) in
    let skew := Spec.alone (RiskEngine._assess_iv_skew calls puts) in
    let pin := Spec.alone (RiskEngine._assess_oi_concentration calls puts) in
    let unusual :=
      Spec.alone (RiskEngine._assess_unusual_activity calls puts) in
    fst (RiskEngine.assess calls puts pcr dte)
    = fst iv ++ fst ratio ++ fst liquidity ++ fst expiry ++ fst skew
          ++ fst pin ++ fst unusual
    /\ snd (RiskEngine.assess calls puts pcr dte)
       = snd iv ++ snd ratio ++ snd liquidity ++ snd expiry ++ snd skew
             ++ snd pin ++ snd unusual.
Proof. exact assess_parts. Qed.

Ltac split_checks :=
  repeat match goal with
         | |- context [match ?x with Some _ => _ | None => _ end] =>
             destruct x
         | |- context [match ?x with [] => _ | _ :: _ => _ end] =>
             destruct x
         | |- context [if ?b then _ else _] => destruct b
         end;
  cbn [fst snd List.length app RiskEngine.warn RiskEngine.opportunity];
  try lia.

Lemma assess_iv_at_most_one calls puts :
  (List.length (fst (Spec.alone (RiskEngine._assess_iv calls puts)))
   + List.length (snd (Spec.alone (RiskEngine._assess_iv calls puts)))
   <= 1)%nat.
Proof. unfold Spec.alone, RiskEngine._assess_iv. split_checks. Qed.

Lemma assess_pcr_at_most_one pcr :
  (List.length (fst (Spec.alone (RiskEngine._assess_pcr pcr)))
   + List.length (snd (Spec.alone (RiskEngine._assess_pcr pcr)))
   <= 1)%nat.
Proof. unfold Spec.alone, RiskEngine._assess_pcr. split_checks. Qed.

Lemma assess_dte_at_most_one dte :
  (List.length (fst (Spec.alone (RiskEngine._assess_dte dte)))
   + List.length (snd (Spec.alone (RiskEngine._assess_dte dte)))
   <= 1)%nat.
Proof. unfold Spec.alone, RiskEngine._assess_dte. split_checks. Qed.

Lemma assess_iv_skew_at_most_one calls puts :
  (List.length (fst (Spec.alone (RiskEngine._assess_iv_skew calls puts)))
   + List.length (snd (Spec.alone (RiskEngine._assess_iv_skew calls puts)))
   <= 1)%nat.
Proof. unfold Spec.alone, RiskEngine._assess_iv_skew. split_checks. Qed.

Lemma assess_liquidity_warns_only calls puts :
  (List.length (fst (Spec.alone (RiskEngine._assess_liquidity calls puts)))
   <= 2)%nat
  /\ snd (Spec.alone (RiskEngine._assess_liquidity calls puts)) = [].
Proof.
  unfold Spec.alone, RiskEngine._assess_liquidity, RiskEngine.liquidity_side.
  split; split_checks; reflexivity.
Qed.

Lemma assess_oi_concentration_warns_only calls puts :
  (List.length
     (fst (Spec.alone (RiskEngine._assess_oi_concentration calls puts)))
   <= 2)%nat
  /\ snd (Spec.alone (RiskEngine._assess_oi_concentration calls puts)) = [].
Proof.
  unfold Spec.alone, RiskEngine._assess_oi_concentration,
    RiskEngine.oi_concentration_side.
  split; split_checks; reflexivity.
Qed.

Lemma assess_unusual_activity_offers_only calls puts :
  fst (Spec.alone (RiskEngine._assess_unusual_activity calls puts)) = []
  /\ (List.length
        (snd (Spec.alone (RiskEngine._assess_unusual_activity calls puts)))
      <= 2)%nat.
Proof.
  unfold Spec.alone, RiskEngine._assess_unusual_activity,
    RiskEngine.unusual_side.
  split; split_checks; reflexivity.
Qed.

(** X8. [assess] returns at most 8 warnings, at most 6 opportunities and
    at most 10 messages in all: the IV, PCR, DTE and IV-skew checks append
    at most one message each, to one list; liquidity and OI concentration
    append at most one warning per side and no opportunity; unusual
    activity appends at most one opportunity per side and no warning. *)
Theorem assess_message_bounds :
  forall (calls puts : option ChainAnalysis.t)
         (pcr : option PutCallRatio.t) (dte : Z),
    let result := RiskEngine.assess calls puts pcr dte in
    (List.length (fst result) <= 8)%nat
    /\ (List.length (snd result) <= 6)%nat
    /\ (List.length (fst result) + List.length (snd result) <= 10)%nat.
Proof.
  intros calls puts pcr dte result. subst result.
  destruct (assess_parts calls puts pcr dte) as [Hw Ho].
  cbv zeta in Hw, Ho. rewrite Hw, Ho, !length_app.
  pose proof (assess_iv_at_most_one calls puts).
  pose proof (assess_pcr_at_most_one pcr).
  pose proof (assess_dte_at_most_one dte).
  pose proof (assess_iv_skew_at_most_one calls puts).
  destruct (assess_liquidity_warns_only calls puts) as [? Hl].
  destruct (assess_oi_concentration_warns_only calls puts) as [? Hc].
  destruct (assess_unusual_activity_offers_only calls puts) as [Hu ?].
  rewrite Hl, Hc, Hu. cbn [List.length]. lia.
Qed.

(** ** Server: sentiment and risk level *)

(** X9. The sentiment of the summary and the PCR check of the risk engine
    draw the same lines: the sentiment is "bearish" exactly when the check
    appends its warning, "bullish" exactly when it appends its
    opportunity, and "neutral" exactly when it appends nothing. *)
Theorem sentiment_agrees_with_pcr_check :
  forall (pcr : option PutCallRatio.t) (st : RiskEngine.lists),
    (Server._derive_sentiment pcr = "bearish"%string
     /\ exists msg, RiskEngine._assess_pcr pcr st = RiskEngine.warn msg st)
    \/ (Server._derive_sentiment pcr = "bullish"%string
        /\ exists msg,
            RiskEngine._assess_pcr pcr st = RiskEngine.opportunity msg st)
    \/ (Server._derive_sentiment pcr = "neutral"%string
        /\ RiskEngine._assess_pcr pcr st = st).
Proof.
  intros pcr st. unfold Server._derive_sentiment, RiskEngine._assess_pcr.
  destruct pcr as [p|]; [|right; right; split; reflexivity].
  destruct (PutCallRatio.volume p) as [v|];
    [|right; right; split; reflexivity].
  change Config.PCR_BEARISH_THRESHOLD with (15 # 10).
  change Config.PCR_BULLISH_THRESHOLD with (7 # 10).
  destruct (Py.Qltb (15 # 10) v).
  - left. split; [reflexivity|eexists; reflexivity].
  - destruct (Py.Qltb v (7 # 10)).
    + right. left. split; [reflexivity|eexists; reflexivity].
    + right. right. split; reflexivity.
Qed.

(** X10. The risk level of the summary and the IV check of the risk
    engine draw the same lines on the primary side's average IV: "high"
    exactly when the check appends its warning, "low" exactly when it
    appends its opportunity, "medium" exactly when it appends nothing. *)
Theorem risk_level_agrees_with_iv_check :
  forall (calls puts : option ChainAnalysis.t) (st : RiskEngine.lists),
    (Server._derive_risk_level calls puts = "high"%string
     /\ exists msg,
         RiskEngine._assess_iv calls puts st = RiskEngine.warn msg st)
    \/ (Server._derive_risk_level calls puts = "low"%string
        /\ exists msg,
            RiskEngine._assess_iv calls puts st
            = RiskEngine.opportunity msg st)
    \/ (Server._derive_risk_level calls puts = "medium"%string
        /\ RiskEngine._assess_iv calls puts st = st).
Proof.
  intros calls puts st.
  unfold Server._derive_risk_level, RiskEngine._assess_iv.
  destruct (RiskEngine.primary calls puts) as [p|];
    [|right; right; split; reflexivity].
  change Config.IV_HIGH_THRESHOLD with 60%Q.
  change Config.IV_LOW_THRESHOLD with 20%Q.
  destruct (Py.Qltb 60 _).
  - left. split; [reflexivity|eexists; reflexivity].
  - destruct (Py.Qltb _ 20).
    + right. left. split; [reflexivity|eexists; reflexivity].
    + right. right. split; reflexivity.
Qed.

Lemma ratio_above (n : Z) (d : positive) (p c : Z) :
  (0 < c)%Z ->
  ((n # d) < inject_Z p / inject_Z c)%Q <-> (n * c < Zpos d * p)%Z.
Proof.
  intro Hc. destruct c as [|c|c]; try lia.
  unfold Qlt, Qdiv, Qmult, Qinv, inject_Z. cbn [Qnum Qden].
  rewrite ?Pos.mul_1_l. lia.
Qed.

Lemma ratio_below (n : Z) (d : positive) (p c : Z) :
  (0 < c)%Z ->
  (inject_Z p / inject_Z c < (n # d))%Q <-> (Zpos d * p < n * c)%Z.
Proof.
  intro Hc. destruct c as [|c|c]; try lia.
  unfold Qlt, Qdiv, Qmult, Qinv, inject_Z. cbn [Qnum Qden].
  rewrite ?Pos.mul_1_l. lia.
Qed.

Lemma analyze_chain_totals `{np : Numpy.sort} (options_df : DataFrame)
          (current_price : Q)
      (min_volume : Z) :
  match ChainAnalyzer.analyze_chain options_df current_price min_volume with
  | Some a =>
      options_df <> []
      /\ ChainAnalysis.total_volume a
         = Pandas.sum (map Row.volume options_df)
      /\ ChainAnalysis.liquid_contracts a
         = Z.of_nat
             (List.length (ChainAnalyzer.liquid options_df min_volume))
  | None => options_df = []
  end.
Proof.
  destruct (ChainAnalyzer.analyze_chain options_df current_price min_volume)
    as [a|] eqn:Ha.
  - destruct (analyze_chain_fields _ _ _ _ Ha)
      as [Hne [_ [Hl [Hv _]]]].
    split; [exact Hne|]. split; assumption.
  - destruct options_df; [reflexivity|discriminate Ha].
Qed.

Ltac neutral_side :=
  split; [split; [intro; congruence|intros [? [? _]]; congruence]|];
  split; [split; [intro; congruence|intros [? [? _]]; congruence]|];
  right; right; reflexivity.

(** X11. The sentiment of [options_summary] read off the raw frames: it
    is "bearish" exactly when both frames have rows, the calls' volumes
    sum to a positive total and the puts' total is more than 1.5 times
    it; "bullish" exactly when both frames have rows, the calls' total is
    positive and the puts' total is less than 0.7 times it; "neutral"
    otherwise, in particular whenever a frame is empty or no call
    traded. *)
Theorem summary_sentiment_from_volumes `{np : Numpy.sort} :
  forall (symbol timestamp : string) (current_price : Q)
         (selected_exp : string) (dte : Z) (calls_df puts_df : DataFrame),
    let summary :=
      Server.options_summary symbol timestamp current_price selected_exp
                             dte calls_df puts_df in
    let call_volume := Pandas.sum (map Row.volume calls_df) in
    let put_volume := Pandas.sum (map Row.volume puts_df) in
    (OptionsSummaryResponse.sentiment summary = "bearish"%string
     <-> calls_df <> [] /\ puts_df <> [] /\ (0 < call_volume)%Z
         /\ (3 * call_volume < 2 * put_volume)%Z)
    /\ (OptionsSummaryResponse.sentiment summary = "bullish"%string
        <-> calls_df <> [] /\ puts_df <> [] /\ (0 < call_volume)%Z
            /\ (10 * put_volume < 7 * call_volume)%Z)
    /\ (OptionsSummaryResponse.sentiment summary = "bearish"%string
        \/ OptionsSummaryResponse.sentiment summary = "bullish"%string
        \/ OptionsSummaryResponse.sentiment summary = "neutral"%string).
Proof.
  intros symbol timestamp current_price selected_exp dte calls_df puts_df.
  cbv zeta. unfold Server.options_summary.
  cbn [OptionsSummaryResponse.sentiment].
  pose proof (analyze_chain_totals calls_df current_price
                                   Config.DEFAULT_MIN_VOLUME) as Hc.
  pose proof (analyze_chain_totals puts_df current_price
                                   Config.DEFAULT_MIN_VOLUME) as Hp.
  destruct (ChainAnalyzer.analyze_chain calls_df _ _) as [c|];
    [destruct Hc as [Hcne [Hcv _]]|subst calls_df; cbn; neutral_side].
  destruct (ChainAnalyzer.analyze_chain puts_df _ _) as [p|];
    [destruct Hp as [Hpne [Hpv _]]|subst puts_df; cbn; neutral_side].
  unfold Server._compute_pcr, Server._derive_sentiment. rewrite Hcv, Hpv.
  set (cv := Pandas.sum (map Row.volume calls_df)).
  set (pv := Pandas.sum (map Row.volume puts_df)).
  destruct (0 <? cv)%Z eqn:Epos; cbn [PutCallRatio.volume].
  - apply Z.ltb_lt in Epos.
    pose proof (ratio_above 15 10 pv cv Epos) as Habove.
    pose proof (ratio_below 7 10 pv cv Epos) as Hbelow.
    destruct (Py.Qltb (15 # 10) (inject_Z pv / inject_Z cv)) eqn:E1.
    + apply Qltb_lt in E1. apply Habove in E1.
      split; [split; [intros _; repeat split; try assumption; lia
                     |reflexivity]|].
      split; [split; [intro H; discriminate H|intros [_ [_ [_ H]]]; lia]|].
      left. reflexivity.
    + assert (Hn1 : ~ (15 * cv < 10 * pv)%Z).
      { intro H. apply Habove in H. apply Qltb_lt in H. congruence. }
      destruct (Py.Qltb (inject_Z pv / inject_Z cv) (7 # 10)) eqn:E2.
      * apply Qltb_lt in E2. apply Hbelow in E2.
        split; [split; [intro H; discriminate H
                       |intros [_ [_ [_ H]]]; lia]|].
        split; [split; [intros _; repeat split; try assumption; lia
                       |reflexivity]|].
        right. left. reflexivity.
      * assert (Hn2 : ~ (10 * pv < 7 * cv)%Z).
        { intro H. apply Hbelow in H. apply Qltb_lt in H. congruence. }
        split; [split; [intro H; discriminate H
                       |intros [_ [_ [_ H]]]; lia]|].
        split; [split; [intro H; discriminate H
                       |intros [_ [_ [_ H]]]; lia]|].
        right. right. reflexivity.
  - apply Z.ltb_ge in Epos.
    split; [split; [intro H; discriminate H|intros [_ [_ [H _]]]; lia]|].
    split; [split; [intro H; discriminate H|intros [_ [_ [H _]]]; lia]|].
    right. right. reflexivity.
Qed.

(** ** main.py: choosing the contracts *)

Lemma idxmin_from_spec (rest : list Q) :
  forall (i bi : nat) (bv : Q),
    (bi < i)%nat ->
    exists v,
      let k := Pandas.idxmin_from i (bi, bv) rest in
      ((k = bi /\ v = bv)
       \/ ((i <= k)%nat /\ nth_error rest (k - i) = Some v /\ (v < bv)%Q))
      /\ (v <= bv)%Q
      /\ forall j w,
          nth_error rest j = Some w ->
          (v <= w)%Q /\ ((w == v)%Q -> (k <= i + j)%nat).
Proof.
  induction rest as [|x rest IH]; intros i bi bv Hlt.
  - exists bv. cbn. split; [left; split; reflexivity|].
    split; [apply Qle_refl|]. intros [|j] w H; discriminate H.
  - cbn [Pandas.idxmin_from snd].
    destruct (Py.Qltb x bv) eqn:E.
    + apply Qltb_lt in E.
      destruct (IH (S i) i x (Nat.lt_succ_diag_r i)) as [v [Hk [Hv Hall]]].
      cbv zeta in *. exists v.
      set (k := Pandas.idxmin_from (S i) (i, x) rest) in *.
      assert (Hki : (i <= k)%nat) by (destruct Hk as [[-> _] | [H _]]; lia).
      split; [|split].
      * right. split; [exact Hki|]. split; [|lra].
        destruct Hk as [[-> ->] | [Hle [Hnth _]]].
        -- rewrite Nat.sub_diag. reflexivity.
        -- replace (k - i)%nat with (S (k - S i)) by lia. exact Hnth.
      * lra.
      * intros [|j] w Hw.
        -- cbn in Hw. injection Hw as <-. split; [exact Hv|].
           intro Heq. destruct Hk as [[-> _] | [_ [_ Hvx]]]; [lia|].
           rewrite Heq in Hvx. exfalso. exact (Qlt_irrefl _ Hvx).
        -- destruct (Hall j w Hw) as [H1 H2].
           split; [exact H1|]. intro Heq. specialize (H2 Heq). lia.
    + apply Qltb_ge in E.
      destruct (IH (S i) bi bv (Nat.lt_lt_succ_r _ _ Hlt))
        as [v [Hk [Hv Hall]]].
      cbv zeta in *. exists v.
      set (k := Pandas.idxmin_from (S i) (bi, bv) rest) in *.
      split; [|split].
      * destruct Hk as [[Hkb ->] | [Hle [Hnth Hvb]]].
        -- left. split; [exact Hkb|reflexivity].
        -- right. split; [lia|]. split; [|exact Hvb].
           replace (k - i)%nat with (S (k - S i)) by lia. exact Hnth.
      * exact Hv.
      * intros [|j] w Hw.
        -- cbn in Hw. injection Hw as <-. split; [lra|].
           intro Heq. destruct Hk as [[-> _] | [_ [_ Hvb]]]; [lia|].
           exfalso. rewrite Heq in E. exact (Qlt_not_le _ _ Hvb E).
        -- destruct (Hall j w Hw) as [H1 H2].
           split; [exact H1|]. intro Heq. specialize (H2 Heq). lia.
Qed.

(** [idxmin] gives the first position of a least value. *)
Lemma idxmin_first_least (values : list Q) :
  values <> [] ->
  exists k v,
    Pandas.idxmin values = Some k
    /\ nth_error values k = Some v
    /\ forall j w,
        nth_error values j = Some w ->
        (v <= w)%Q /\ ((w == v)%Q -> (k <= j)%nat).
Proof.
  destruct values as [|v0 rest]; [contradiction|]. intros _.
  destruct (idxmin_from_spec rest 1 0 v0 Nat.lt_0_1) as [v [Hk [Hv Hall]]].
  cbv zeta in *. cbn [Pandas.idxmin].
  remember (Pandas.idxmin_from 1 (0%nat, v0) rest) as k eqn:Ek.
  exists k, v. split; [reflexivity|]. split.
  - destruct Hk as [[-> ->] | [Hle [Hnth _]]]; [reflexivity|].
    destruct k as [|k']; [lia|].
    replace (S k' - 1)%nat with k' in Hnth by lia. exact Hnth.
  - intros [|j] w Hw.
    + cbn in Hw. injection Hw as <-. split; [exact Hv|].
      intro Heq. destruct Hk as [[-> _] | [_ [_ Hlt]]]; [lia|].
      rewrite Heq in Hlt. exfalso. exact (Qlt_irrefl _ Hlt).
    + cbn in Hw. destruct (Hall j w Hw) as [H1 H2].
      split; [exact H1|]. intro Heq. specialize (H2 Heq). lia.
Qed.

Lemma find_contract_spec (chain_df : DataFrame) (strike : Q)
      (symbol leg : string) :
  chain_df <> [] ->
  exists i row,
    Main._find_contract chain_df strike symbol leg = Py.Return row
    /\ nth_error chain_df i = Some row
    /\ forall j r',
        nth_error chain_df j = Some r' ->
        (Spec.distance strike row <= Spec.distance strike r')%Q
        /\ ((Spec.distance strike r' == Spec.distance strike row)%Q ->
            (i <= j)%nat).
Proof.
  intro Hne. unfold Main._find_contract.
  set (dist := map (fun r => Py.abs (Row.strike r - strike)) chain_df).
  assert (Hd : dist <> [])
    by (destruct chain_df; [contradiction|discriminate]).
  destruct (idxmin_first_least dist Hd) as [k [v [Hk [Hv Hall]]]].
  rewrite Hk.
  destruct (nth_error_map_inv _ _ _ _ _ _ Hv) as [row [Hrow Hrv]].
  rewrite Hrow. exists k, row. split; [reflexivity|].
  split; [exact Hrow|]. intros j r' Hj.
  assert (Hj' : nth_error dist j = Some (Spec.distance strike r'))
    by (unfold dist; rewrite nth_error_map, Hj; reflexivity).
  destruct (Hall _ _ Hj') as [H1 H2]. subst v.
  split; [exact H1|exact H2].
Qed.

(** X12. [_find_contract] on an empty chain raises the data error that
    names the leg; on a chain with rows it returns the row whose strike
    is nearest to the target, the first such row in chain order, and
    never fails. *)
Theorem find_contract_nearest_or_data_error :
  forall (chain_df : DataFrame) (strike : Q) (symbol leg : string),
    (chain_df = [] ->
     Main._find_contract chain_df strike symbol leg
     = Py.Raise (Py.OptionsDataError
                   symbol ("No options data for " ++ leg ++ " leg")))
    /\ (chain_df <> [] ->
        exists i row,
          Main._find_contract chain_df strike symbol leg = Py.Return row
          /\ nth_error chain_df i = Some row
          /\ forall j r',
              nth_error chain_df j = Some r' ->
              (Spec.distance strike row <= Spec.distance strike r')%Q
              /\ ((Spec.distance strike r' == Spec.distance strike row)%Q ->
                  (i <= j)%nat)).
Proof.
  intros chain_df strike symbol leg. split.
  - intros ->. reflexivity.
  - apply find_contract_spec.
Qed.

Lemma find_contract_nearest_or_data_error_witness :
  Main._find_contract [] 100 "SPY" "buy"
  = Py.Raise (Py.OptionsDataError "SPY" "No options data for buy leg")
  /\ exists i row,
      Main._find_contract Samples.puts_df 99 "SPY" "sell" = Py.Return row
      /\ nth_error Samples.puts_df i = Some row.
Proof.
  split.
  - apply (proj1 (find_contract_nearest_or_data_error [] 100 "SPY" "buy")).
    reflexivity.
  - destruct (proj2 (find_contract_nearest_or_data_error
                       Samples.puts_df 99 "SPY" "sell")
                    ltac:(discriminate))
      as [i [row [H1 [H2 _]]]].
    exists i, row. split; assumption.
Defined.

(** ** main.py: failures and figures of the spread trade *)

Lemma spread_type_classes (st : string) :
  (In st Spec.call_spreads ->
   Py.in_tuple st ["bull_call"; "bear_call_credit"]%string = true)
  /\ (In st Spec.put_spreads ->
      Py.in_tuple st ["bull_call"; "bear_call_credit"]%string = false
      /\ Py.in_tuple st ["bear_put"; "bull_put_credit"]%string = true)
  /\ (In st Spec.two_sided_spreads ->
      Py.in_tuple st ["bull_call"; "bear_call_credit"]%string = false
      /\ Py.in_tuple st ["bear_put"; "bull_put_credit"]%string = false
      /\ Py.in_tuple st ["iron_condor"; "straddle"; "strangle"]%string
         = true)
  /\ (~ In st (Spec.call_spreads ++ Spec.put_spreads
               ++ Spec.two_sided_spreads) ->
      Py.in_tuple st ["bull_call"; "bear_call_credit"]%string = false
      /\ Py.in_tuple st ["bear_put"; "bull_put_credit"]%string = false
      /\ Py.in_tuple st ["iron_condor"; "straddle"; "strangle"]%string
         = false).
Proof.
  split; [|split; [|split]].
  - intro H. apply in_tuple_In. exact H.
  - intro H. cbn in H.
    destruct H as [<- | [<- | []]]; split; reflexivity.
  - intro H. cbn in H.
    destruct H as [<- | [<- | [<- | []]]]; repeat split; reflexivity.
  - intro Hn.
    repeat split;
      (destruct (Py.in_tuple st _) eqn:E; [|reflexivity];
       exfalso; apply Hn; apply in_tuple_In in E;
       unfold Spec.call_spreads, Spec.put_spreads, Spec.two_sided_spreads;
       cbn in E |- *; tauto).
Qed.

Lemma find_contract_empty (strike : Q) (symbol leg : string) :
  Main._find_contract [] strike symbol leg
  = Py.Raise (Py.OptionsDataError
                symbol ("No options data for " ++ leg ++ " leg")).
Proof. reflexivity. Qed.

Lemma find_contract_returns (chain_df : DataFrame) (strike : Q)
      (symbol leg : string) :
  chain_df <> [] ->
  exists row, Main._find_contract chain_df strike symbol leg = Py.Return row.
Proof.
  intro Hne.
  destruct (find_contract_spec chain_df strike symbol leg Hne)
    as [i [row [H _]]].
  exists row. exact H.
Qed.

(** X13. How [_analyze_spread_trade] fails, by the lower-cased spread
    type: a type outside the seven known ones raises ValueError whatever
    the frames hold; a call spread reads only the calls frame, succeeding
    when it has rows and raising the data error of the buy leg when it has
    none; a put spread does the same on the puts frame; the two-sided
    types take the buy leg from the calls and the sell leg from the puts
    and need both. *)
Theorem spread_trade_failures :
  forall (request : SpreadTradeRequest.t) (current_price : Q)
         (exp : string) (dte : Z) (calls_df puts_df : DataFrame),
    let st := Py.lower (SpreadTradeRequest.spread_type request) in
    let symbol := SpreadTradeRequest.symbol request in
    let result :=
      Main._analyze_spread_trade request current_price exp dte
                                 calls_df puts_df in
    let no_buy_leg :=
      Py.Raise (Py.OptionsDataError symbol "No options data for buy leg") in
    let no_sell_leg :=
      Py.Raise (Py.OptionsDataError symbol "No options data for sell leg") in
    (~ In st (Spec.call_spreads ++ Spec.put_spreads
              ++ Spec.two_sided_spreads) ->
     exists msg, result = Py.Raise (Py.ValueError msg))
    /\ (In st Spec.call_spreads ->
        (calls_df = [] -> result = no_buy_leg)
        /\ (calls_df <> [] -> exists r, result = Py.Return r))
    /\ (In st Spec.put_spreads ->
        (puts_df = [] -> result = no_buy_leg)
        /\ (puts_df <> [] -> exists r, result = Py.Return r))
    /\ (In st Spec.two_sided_spreads ->
        (calls_df = [] -> result = no_buy_leg)
        /\ (calls_df <> [] -> puts_df = [] -> result = no_sell_leg)
        /\ (calls_df <> [] -> puts_df <> [] ->
            exists r, result = Py.Return r)).
Proof.
  intros request current_price exp dte calls_df puts_df. cbv zeta.
  destruct (spread_type_classes
              (Py.lower (SpreadTradeRequest.spread_type request)))
    as [Hcall [Hput [Hboth Hnone]]].
  assert (Hlegs :
            forall buy_chain sell_chain,
              Spec.leg_chains
                (Py.lower (SpreadTradeRequest.spread_type request))
                calls_df puts_df = Some (buy_chain, sell_chain) ->
              buy_chain <> [] -> sell_chain <> [] ->
              exists r,
                Main._analyze_spread_trade request current_price exp dte
                                           calls_df puts_df = Py.Return r).
  { intros buy_chain sell_chain Hchains Hb Hs.
    destruct (find_contract_returns
                buy_chain (SpreadTradeRequest.buy_strike request)
                (SpreadTradeRequest.symbol request) "buy" Hb)
      as [b Hbuy].
    destruct (find_contract_returns
                sell_chain (SpreadTradeRequest.sell_strike request)
                (SpreadTradeRequest.symbol request) "sell" Hs)
      as [l Hsell].
    destruct (spread_trade_result
                request current_price exp dte calls_df puts_df
                buy_chain sell_chain b l Hchains Hbuy Hsell)
      as [r [Hr _]].
    exists r. exact Hr. }
  unfold Spec.leg_chains, Spec.call_spreads, Spec.put_spreads,
    Spec.two_sided_spreads in Hlegs.
  split; [|split; [|split]].
  - intro Hn. destruct (Hnone Hn) as [H1 [H2 H3]].
    unfold Main._analyze_spread_trade. rewrite H1, H2, H3.
    eexists. reflexivity.
  - intro H. pose proof (Hcall H) as H1. split.
    + intros ->. unfold Main._analyze_spread_trade. rewrite H1.
      cbn [Py.bind]. rewrite find_contract_empty. reflexivity.
    + intro Hne. rewrite H1 in Hlegs.
      exact (Hlegs calls_df calls_df eq_refl Hne Hne).
  - intro H. destruct (Hput H) as [H1 H2]. split.
    + intros ->. unfold Main._analyze_spread_trade. rewrite H1, H2.
      cbn [Py.bind]. rewrite find_contract_empty. reflexivity.
    + intro Hne. rewrite H1, H2 in Hlegs.
      exact (Hlegs puts_df puts_df eq_refl Hne Hne).
  - intro H. destruct (Hboth H) as [H1 [H2 H3]]. split; [|split].
    + intros ->. unfold Main._analyze_spread_trade. rewrite H1, H2, H3.
      cbn [Py.bind]. rewrite find_contract_empty. reflexivity.
    + intros Hne ->. unfold Main._analyze_spread_trade.
      rewrite H1, H2, H3. cbn [Py.bind].
      destruct (find_contract_returns
                  calls_df (SpreadTradeRequest.buy_strike request)
                  (SpreadTradeRequest.symbol request) "buy" Hne)
        as [b ->].
      cbn [Py.bind]. rewrite find_contract_empty. reflexivity.
    + intros Hc Hp. rewrite H1, H2, H3 in Hlegs.
      exact (Hlegs calls_df puts_df eq_refl Hc Hp).
Qed.

Lemma spread_trade_failures_witness :
  (exists msg,
      Main._analyze_spread_trade
        (SpreadTradeRequest.mk "SPY" "Butterfly" 96 100 None 1 "open"
                               None 1)
        101 "2025-02-07" 31 [] []
      = Py.Raise (Py.ValueError msg))
  /\ (exists r,
         Main._analyze_spread_trade Samples.open_request 101 "2025-02-07" 31
                                    [] Samples.puts_df
         = Py.Return r)
  /\ Main._analyze_spread_trade Samples.open_request 101 "2025-02-07" 31
                                Samples.puts_df []
     = Py.Raise (Py.OptionsDataError "SPY" "No options data for buy leg").
Proof.
  assert (Hput : In (Py.lower "bull_put_credit") Spec.put_spreads)
    by (right; left; reflexivity).
  split; [|split].
  - apply (proj1 (spread_trade_failures
                    (SpreadTradeRequest.mk "SPY" "Butterfly" 96 100 None 1
                                           "open" None 1)
                    101 "2025-02-07" 31 [] [])).
    vm_compute. intro H.
    repeat (destruct H as [H | H]; [discriminate H|]). exact H.
  - destruct (spread_trade_failures
                Samples.open_request 101 "2025-02-07" 31
                [] Samples.puts_df) as [_ [_ [H _]]].
    apply (proj2 (H Hput)). discriminate.
  - destruct (spread_trade_failures
                Samples.open_request 101 "2025-02-07" 31
                Samples.puts_df []) as [_ [_ [H _]]].
    apply (proj1 (H Hput)). reflexivity.
Defined.

(** A rounding of the exact result carries the sign it was given: a zero,
    a finite number or an infinity of that sign, or NaN. *)
Lemma binary_round_aux_sign (sx : bool) (mx ex : Z) (lx : location) :
  let x := binary_round_aux Float.prec Float.emax sx mx ex lx in
  x = S754_nan \/ x = S754_zero sx \/ x = S754_infinity sx
  \/ exists m e, x = S754_finite sx m e.
Proof.
  cbv zeta. unfold binary_round_aux.
  destruct (shr_fexp Float.prec Float.emax mx ex lx) as [mrs' e'].
  destruct (shr_fexp Float.prec Float.emax _ e' loc_Exact) as [mrs'' e''].
  destruct (shr_m mrs'') as [|m|m].
  - right. left. reflexivity.
  - destruct (Z.leb e'' (Float.emax - Float.prec)).
    + right. right. right. exists m, e''. reflexivity.
    + right. right. left. reflexivity.
  - left. reflexivity.
Qed.

(** [x < 0] is false of a rounding that was given the positive sign. *)
Lemma positive_sign_not_negative (x : Float.t) :
  x = S754_nan \/ x = S754_zero false \/ x = S754_infinity false
  \/ (exists m e, x = S754_finite false m e) ->
  Float.ltb x Float.zero = false.
Proof.
  intros [-> | [-> | [-> | [m [e ->]]]]]; reflexivity.
Qed.

Lemma abs_not_negative (x : Float.t) :
  Float.ltb (Float.abs x) Float.zero = false.
Proof. destruct x; reflexivity. Qed.

(** Rounding to decimals never makes a negative number of one that is
    not. *)
Lemma round_not_negative (x : Float.t) (nd : nat) :
  Float.ltb x Float.zero = false ->
  Float.ltb (Float.round x nd) Float.zero = false.
Proof.
  destruct x as [s|s| |s m e]; cbn [Float.round]; try (intro H; exact H).
  destruct s; [intro H; discriminate H|intros _].
  destruct (Py.round_half_even _) as [|n|n]; try reflexivity.
  apply positive_sign_not_negative.
  unfold SFdiv.
  destruct (SFdiv_core_binary _ _ _ _ _ _) as [[mz ez] lz].
  exact (binary_round_aux_sign (xorb false false) mz ez lz).
Qed.

(** X15. A spread trade that succeeds never reports a negative spread
    width, maximum loss or risk/reward ratio: each is a number that is
    not below zero, or NaN (when a quote of a leg is NaN).  The loss is
    reported as an absolute value even when the net credit exceeds the
    width, and the ratio is 0 when the maximum loss is 0. *)
Theorem spread_result_figures_not_negative :
  forall (request : SpreadTradeRequest.t) (current_price : Q)
         (exp : string) (dte : Z) (calls_df puts_df : DataFrame)
         (r : SpreadResult.t),
    Main._analyze_spread_trade request current_price exp dte
                               calls_df puts_df = Py.Return r ->
    Float.ltb (SpreadResult.spread_width r) Float.zero = false
    /\ Float.ltb (SpreadResult.max_loss r) Float.zero = false
    /\ Float.ltb (SpreadResult.risk_reward_ratio r) Float.zero = false.
Proof.
  intros request current_price exp dte calls_df puts_df r Hr.
  destruct (spread_trade_legs _ _ _ _ _ _ _ Hr)
    as [buy_chain [sell_chain [buy_leg [sell_leg [Hc [Hb Hs]]]]]].
  destruct (spread_trade_result
              request current_price exp dte calls_df puts_df
              buy_chain sell_chain buy_leg sell_leg Hc Hb Hs)
    as [r' [Hr' [_ [Hw [_ [Hl [_ [Hrr _]]]]]]]].
  rewrite Hr in Hr'. injection Hr' as <-.
  rewrite Hw, Hl, Hrr.
  split; [|split]; apply round_not_negative.
  - unfold Main.spread_metrics.
    destruct (Main.is_credit_type _); apply abs_not_negative.
  - apply abs_not_negative.
  - destruct (Float.nonzero _); [apply abs_not_negative|reflexivity].
Qed.

Lemma spread_result_figures_not_negative_witness :
  exists r,
    Main._analyze_spread_trade Samples.open_request 101 "2025-02-07" 31
                               [] Samples.puts_df = Py.Return r
    /\ Float.ltb (SpreadResult.spread_width r) Float.zero = false
    /\ Float.ltb (SpreadResult.max_loss r) Float.zero = false
    /\ Float.ltb (SpreadResult.risk_reward_ratio r) Float.zero = false.
Proof.
  destruct (Main._analyze_spread_trade Samples.open_request 101
                                       "2025-02-07" 31 [] Samples.puts_df)
    as [r|e] eqn:Hr; [|vm_compute in Hr; discriminate Hr].
  exists r. split; [reflexivity|].
  exact (spread_result_figures_not_negative _ _ _ _ _ _ _ Hr).
Defined.

(** X16. A spread trade that succeeds carries a close analysis exactly
    when the action is the string "close" and an entry price was given;
    any other action, "CLOSE" included, or a missing entry price, leaves
    it out without failing. *)
Theorem close_analysis_only_on_close_with_entry :
  forall (request : SpreadTradeRequest.t) (current_price : Q)
         (exp : string) (dte : Z) (calls_df puts_df : DataFrame)
         (r : SpreadResult.t),
    Main._analyze_spread_trade request current_price exp dte
                               calls_df puts_df = Py.Return r ->
    (SpreadResult.close_analysis r <> None
     <-> SpreadTradeRequest.action request = "close"%string
         /\ SpreadTradeRequest.entry_price request <> None)
    /\ forall ca,
        SpreadResult.close_analysis r = Some ca ->
        SpreadTradeRequest.entry_price request
        = Some (CloseAnalysis.entry_price ca).
Proof.
  intros request current_price exp dte calls_df puts_df r Hr.
  destruct (spread_trade_legs _ _ _ _ _ _ _ Hr)
    as [buy_chain [sell_chain [buy_leg [sell_leg [Hc [Hb Hs]]]]]].
  destruct (spread_trade_result
              request current_price exp dte calls_df puts_df
              buy_chain sell_chain buy_leg sell_leg Hc Hb Hs)
    as [r' [Hr' [_ [_ [_ [_ [_ [_ Hclose]]]]]]]].
  rewrite Hr in Hr'. injection Hr' as <-.
  destruct (close_analysis_returns
              request
              (Main.is_credit_type
                 (Py.lower (SpreadTradeRequest.spread_type request)))
              buy_leg sell_leg) as [closing [Hclosing [Hsome Hvalue]]].
  rewrite Hclosing in Hclose. injection Hclose as ->.
  split; [exact Hsome|].
  intros ca Hca. destruct (Hvalue ca Hca) as [entry [Hentry Heq]].
  rewrite Hentry, Heq. reflexivity.
Qed.

Lemma close_analysis_only_on_close_with_entry_witness :
  exists r,
    Main._analyze_spread_trade (Samples.close_request 3) 101 "2025-02-07"
                               31 [] Samples.puts_df = Py.Return r
    /\ SpreadResult.close_analysis r <> None.
Proof.
  destruct (Main._analyze_spread_trade (Samples.close_request 3) 101
                                       "2025-02-07" 31 [] Samples.puts_df)
    as [r|e] eqn:Hr; [|vm_compute in Hr; discriminate Hr].
  exists r. split; [reflexivity|].
  apply (proj1 (close_analysis_only_on_close_with_entry _ _ _ _ _ _ _ Hr)).
  split; [reflexivity|discriminate].
Defined.

(** ** Server._sort_comparisons *)

Lemma enumerate_from_values (A : Type) (l : list A) (n : nat) :
  map snd (combine (seq n (List.length l)) l) = l.
Proof.
  revert n. induction l as [|x l IH]; intro n; cbn; [reflexivity|].
  rewrite IH. reflexivity.
Qed.

(** [sort_reverse] rearranges the list, into descending order of the
    keys, elements of equal key in their input order. *)
Lemma sort_reverse_spec (A : Type) (key_leb : A -> A -> bool) (l : list A) :
  (forall a b, key_leb a b = true \/ key_leb b a = true) ->
  (forall a b c, key_leb a b = true -> key_leb b c = true ->
                 key_leb a c = true) ->
  Permutation l (Server.sort_reverse key_leb l)
  /\ Spec.ranked_by key_leb l (Server.sort_reverse key_leb l).
Proof.
  intros Htotal Htrans. unfold Server.sort_reverse. split.
  - rewrite <- (enumerate_from_values A l 0) at 1.
    apply Permutation_map. apply sort_by_permutation.
  - eexists. split; [reflexivity|].
    split; [rewrite length_sort_by; apply enumerate_length|].
    split; [apply Forall_sort_by, enumerate_nth|].
    apply sort_by_sorted; [| |apply enumerate_sorted].
    + intros a b. destruct (Htotal a b); tauto.
    + intros a b c Hab Hbc. exact (Htrans _ _ _ Hbc Hab).
Qed.

Lemma key_leb_orders :
  let total (leb : SymbolOptionsComparison.t -> SymbolOptionsComparison.t
                   -> bool) :=
    forall a b, leb a b = true \/ leb b a = true in
  let trans (leb : SymbolOptionsComparison.t -> SymbolOptionsComparison.t
                   -> bool) :=
    forall a b c, leb a b = true -> leb b c = true -> leb a c = true in
  (total Server.iv_key_leb /\ trans Server.iv_key_leb)
  /\ (total Server.pcr_key_leb /\ trans Server.pcr_key_leb)
  /\ (total Server.volume_key_leb /\ trans Server.volume_key_leb)
  /\ (total Server.liquidity_key_leb /\ trans Server.liquidity_key_leb).
Proof.
  cbv zeta.
  unfold Server.iv_key_leb, Server.pcr_key_leb, Server.volume_key_leb,
    Server.liquidity_key_leb.
  repeat split; intros;
    try apply Qle_bool_total;
    try (eapply Qle_bool_trans; eassumption);
    rewrite ?Z.leb_le in *; lia.
Qed.

Ltac known_metric :=
  cbn [fst snd];
  split; [assumption|];
  do 4 (split; [first [intros _; assumption|intro; discriminate]|]);
  let H := fresh in intro H; contradiction H; cbn; tauto.

(** X17. [_sort_comparisons] only rearranges the comparisons, and leaves
    them in descending order of the metric's key, comparisons of equal
    key in the order they came in: ATM IV for "iv", the put/call ratio
    for "pcr" (a missing value counting as 0 in both), total volume for
    "volume", liquid contracts for "liquidity"; any other metric sorts as
    "iv" does and says so in the description. *)
Theorem sort_comparisons_ranks :
  forall (comparisons : list SymbolOptionsComparison.t) (metric : string),
    let result := Server._sort_comparisons comparisons metric in
    Permutation comparisons (fst result)
    /\ (metric = "iv"%string ->
        Spec.ranked_by Server.iv_key_leb comparisons (fst result))
    /\ (metric = "pcr"%string ->
        Spec.ranked_by Server.pcr_key_leb comparisons (fst result))
    /\ (metric = "volume"%string ->
        Spec.ranked_by Server.volume_key_leb comparisons (fst result))
    /\ (metric = "liquidity"%string ->
        Spec.ranked_by Server.liquidity_key_leb comparisons (fst result))
    /\ (~ In metric ["iv"; "pcr"; "volume"; "liquidity"]%string ->
        Spec.ranked_by Server.iv_key_leb comparisons (fst result)
        /\ snd result
           = "Highest ATM implied volatility first (default)"%string).
Proof.
  intros comparisons metric. cbv zeta.
  destruct key_leb_orders
    as [[Ti Ri] [[Tp Rp] [[Tv Rv] [Tl Rl]]]].
  destruct (sort_reverse_spec _ Server.iv_key_leb comparisons Ti Ri)
    as [Pi Si].
  destruct (sort_reverse_spec _ Server.pcr_key_leb comparisons Tp Rp)
    as [Pp Sp].
  destruct (sort_reverse_spec _ Server.volume_key_leb comparisons Tv Rv)
    as [Pv Sv].
  destruct (sort_reverse_spec _ Server.liquidity_key_leb comparisons Tl Rl)
    as [Pl Sl].
  unfold Server._sort_comparisons.
  destruct (String.eqb metric "iv") eqn:Ei;
    [apply String.eqb_eq in Ei; subst metric; known_metric|].
  destruct (String.eqb metric "pcr") eqn:Ep;
    [apply String.eqb_eq in Ep; subst metric; known_metric|].
  destruct (String.eqb metric "volume") eqn:Ev;
    [apply String.eqb_eq in Ev; subst metric; known_metric|].
  destruct (String.eqb metric "liquidity") eqn:El;
    [apply String.eqb_eq in El; subst metric; known_metric|].
  apply String.eqb_neq in Ei, Ep, Ev, El. cbn [fst snd].
  split; [assumption|].
  do 4 (split; [intro; contradiction|]).
  intros _. split; [assumption|reflexivity].
Qed.

Lemma sort_comparisons_ranks_witness :
  map SymbolOptionsComparison.symbol
      (fst (Server._sort_comparisons Samples.comparisons "volume"))
  = ["BBB"; "AAA"; "CCC"]%string
  /\ Spec.ranked_by Server.volume_key_leb Samples.comparisons
                    (fst (Server._sort_comparisons Samples.comparisons
                                                   "volume"))
  /\ map SymbolOptionsComparison.symbol
         (fst (Server._sort_comparisons Samples.comparisons "momentum"))
     = ["CCC"; "AAA"; "BBB"]%string
  /\ snd (Server._sort_comparisons Samples.comparisons "momentum")
     = "Highest ATM implied volatility first (default)"%string.
Proof.
  destruct (sort_comparisons_ranks Samples.comparisons "volume")
    as [_ [_ [_ [Hv _]]]].
  destruct (sort_comparisons_ranks Samples.comparisons "momentum")
    as [_ [_ [_ [_ [_ Hd]]]]].
  split; [vm_compute; reflexivity|].
  split; [apply Hv; reflexivity|].
  split; [vm_compute; reflexivity|].
  apply Hd. cbn. intro H.
  repeat (destruct H as [H | H]; [discriminate H|]). exact H.
Defined.

(** ** Server._fetch_volatility_regime *)

Lemma fold_max_member (l : list Q) (acc : Q) :
  let m := fold_left (fun m y => if Qle_bool m y then y else m) l acc in
  m = acc \/ In m l.
Proof.
  revert acc. induction l as [|x l IH]; intro acc; cbn; [left; reflexivity|].
  destruct (IH (if Qle_bool acc x then x else acc)) as [H | H].
  - cbv zeta in H. rewrite H. destruct (Qle_bool acc x); tauto.
  - right. right. exact H.
Qed.

Lemma fold_min_member (l : list Q) (acc : Q) :
  let m := fold_left (fun m y => if Qle_bool y m then y else m) l acc in
  m = acc \/ In m l.
Proof.
  revert acc. induction l as [|x l IH]; intro acc; cbn; [left; reflexivity|].
  destruct (IH (if Qle_bool x acc then x else acc)) as [H | H].
  - cbv zeta in H. rewrite H. destruct (Qle_bool x acc); tauto.
  - right. right. exact H.
Qed.

Lemma series_max_member (l : list Q) : l <> [] -> In (Pandas.max l) l.
Proof.
  destruct l as [|x rest]; [contradiction|]. intros _. cbn [Pandas.max].
  destruct (fold_max_member rest x) as [H | H].
  - cbv zeta in H. rewrite H. left. reflexivity.
  - right. exact H.
Qed.

Lemma series_min_member (l : list Q) : l <> [] -> In (Pandas.min l) l.
Proof.
  destruct l as [|x rest]; [contradiction|]. intros _. cbn [Pandas.min].
  destruct (fold_min_member rest x) as [H | H].
  - cbv zeta in H. rewrite H. left. reflexivity.
  - right. exact H.
Qed.

(** The mean of a non-empty series lies between its least and its largest
    value, so it keeps every strict bound of its values. *)
Lemma series_mean_strict_bounds (l : list Q) (c : Q) :
  l <> [] ->
  (Forall (fun y => y < c)%Q l -> (Pandas.mean l < c)%Q)
  /\ (Forall (fun y => c < y)%Q l -> (c < Pandas.mean l)%Q).
Proof.
  intro Hne.
  destruct (series_mean_bounds l (Pandas.min l) (Pandas.max l) Hne)
    as [Hlo Hhi].
  { intros y Hy. split; [apply series_min_lower|apply series_max_upper];
      exact Hy. }
  split; intro Hall; rewrite Forall_forall in Hall.
  - pose proof (Hall _ (series_max_member l Hne)). lra.
  - pose proof (Hall _ (series_min_member l Hne)). lra.
Qed.

Lemma true_range_length (prev_close : option Q) (hist : list Server.Bar) :
  List.length (Server.true_range prev_close hist) = List.length hist.
Proof.
  revert prev_close. induction hist as [|b hist IH]; intro p; cbn;
    [reflexivity|].
  rewrite IH. reflexivity.
Qed.

Lemma percent_below (atr close t : Q) :
  (0 < close)%Q ->
  (atr / close * 100 < t)%Q <-> (atr * 100 < t * close)%Q.
Proof.
  intro Hc.
  assert (E : (atr / close * 100 == atr * 100 / close)%Q)
    by (field; lra).
  rewrite E. split; intro H.
  - apply (Qmult_lt_r _ _ close Hc) in H.
    assert (E2 : (atr * 100 / close * close == atr * 100)%Q)
      by (field; lra).
    rewrite E2 in H. exact H.
  - apply Qlt_shift_div_r; assumption.
Qed.

Lemma percent_above (atr close t : Q) :
  (0 < close)%Q ->
  (t < atr / close * 100)%Q <-> (t * close < atr * 100)%Q.
Proof.
  intro Hc.
  assert (E : (atr / close * 100 == atr * 100 / close)%Q)
    by (field; lra).
  rewrite E. split; intro H.
  - apply (Qmult_lt_r _ _ close Hc) in H.
    assert (E2 : (atr * 100 / close * close == atr * 100)%Q)
      by (field; lra).
    rewrite E2 in H. exact H.
  - apply Qlt_shift_div_l; assumption.
Qed.

(** X18. The volatility regime is MEDIUM whenever the history has fewer
    than 14 bars.  With at least 14 bars and a positive last close, it is
    LOW when each of the last 14 true ranges is below 1.5% of that close,
    HIGH when each is above 3.0% of it, and MEDIUM when each lies between
    the two, bounds included. *)
Theorem volatility_regime_by_true_ranges :
  forall (hist : list Server.Bar),
    let window :=
      skipn (List.length hist - 14) (Server.true_range None hist) in
    let close := Server.Close (last hist (Server.mkBar 0 0 0)) in
    ((List.length hist < 14)%nat ->
     Server._fetch_volatility_regime hist = MEDIUM)
    /\ ((14 <= List.length hist)%nat -> (0 < close)%Q ->
        (Forall (fun tr => tr * 100 < (15 # 10) * close)%Q window ->
         Server._fetch_volatility_regime hist = LOW)
        /\ (Forall (fun tr => 3 * close < tr * 100)%Q window ->
            Server._fetch_volatility_regime hist = HIGH)
        /\ (Forall (fun tr => (15 # 10) * close <= tr * 100
                              /\ tr * 100 <= 3 * close)%Q window ->
            Server._fetch_volatility_regime hist = MEDIUM)).
Proof.
  intro hist. cbv zeta. unfold Server._fetch_volatility_regime. split.
  - intro Hlt. apply Nat.ltb_lt in Hlt. rewrite Hlt. reflexivity.
  - intros Hge Hclose. apply Nat.ltb_ge in Hge as Hb. rewrite Hb.
    unfold Server.rolling14_last. rewrite true_range_length.
    set (window := skipn (List.length hist - 14)
                         (Server.true_range None hist)).
    set (close := Server.Close (last hist (Server.mkBar 0 0 0))) in *.
    assert (Hne : window <> []).
    { intro E. apply (f_equal (@List.length Q)) in E.
      unfold window in E. rewrite length_skipn, true_range_length in E.
      cbn in E. lia. }
    assert (Hz : Qeq_bool close 0 = false).
    { destruct (Qeq_bool close 0) eqn:E; [|reflexivity].
      apply Qeq_bool_iff in E. lra. }
    unfold Server.np_div. rewrite Hz.
    cbn [Server.np_mul Server.np_lt Server.np_gt].
    change Config.VOLATILITY_LOW_THRESHOLD with (15 # 10).
    change Config.VOLATILITY_HIGH_THRESHOLD with 3%Q.
    set (atr := Pandas.mean window).
    pose proof (percent_below atr close (15 # 10) Hclose) as Hlow.
    pose proof (percent_above atr close 3 Hclose) as Hhigh.
    split; [|split].
    + intro Hall.
      assert (Hm : (atr < (15 # 10) * close / 100)%Q).
      { apply (proj1 (series_mean_strict_bounds window _ Hne)).
        eapply Forall_impl; [|exact Hall]. cbn. intros tr Htr.
        apply Qlt_shift_div_l; [reflexivity|exact Htr]. }
      assert (Hlt : (atr * 100 < (15 # 10) * close)%Q).
      { apply (Qmult_lt_r _ _ 100) in Hm; [|reflexivity].
        assert (E : ((15 # 10) * close / 100 * 100 == (15 # 10) * close)%Q)
          by field.
        rewrite E in Hm. exact Hm. }
      apply Hlow, Qltb_lt in Hlt. rewrite Hlt. reflexivity.
    + intro Hall.
      assert (Hm : (3 * close / 100 < atr)%Q).
      { apply (proj2 (series_mean_strict_bounds window _ Hne)).
        eapply Forall_impl; [|exact Hall]. cbn. intros tr Htr.
        apply Qlt_shift_div_r; [reflexivity|exact Htr]. }
      assert (Hgt : (3 * close < atr * 100)%Q).
      { apply (Qmult_lt_r _ _ 100) in Hm; [|reflexivity].
        assert (E : (3 * close / 100 * 100 == 3 * close)%Q) by field.
        rewrite E in Hm. exact Hm. }
      apply Hhigh in Hgt.
      assert (Hnl : Py.Qltb (atr / close * 100) (15 # 10) = false)
        by (apply Qltb_ge; lra).
      rewrite Hnl. apply Qltb_lt in Hgt. rewrite Hgt. reflexivity.
    + intro Hall.
      destruct (series_mean_bounds window ((15 # 10) * close / 100)
                                   (3 * close / 100) Hne) as [H1 H2].
      { rewrite Forall_forall in Hall. intros y Hy.
        destruct (Hall y Hy) as [Ha Hb']. split.
        - apply Qle_shift_div_r; [reflexivity|exact Ha].
        - apply Qle_shift_div_l; [reflexivity|exact Hb']. }
      fold atr in H1, H2.
      assert (Hnl : Py.Qltb (atr / close * 100) (15 # 10) = false).
      { destruct (Py.Qltb (atr / close * 100) (15 # 10)) eqn:E;
          [|reflexivity].
        apply Qltb_lt, Hlow in E. exfalso.
        apply (Qmult_le_r _ _ 100) in H1; [|reflexivity].
        assert (E1 : ((15 # 10) * close / 100 * 100 == (15 # 10) * close)%Q)
          by field.
        rewrite E1 in H1. lra. }
      assert (Hnh : Py.Qltb 3 (atr / close * 100) = false).
      { destruct (Py.Qltb 3 (atr / close * 100)) eqn:E; [|reflexivity].
        apply Qltb_lt, Hhigh in E. exfalso.
        apply (Qmult_le_r _ _ 100) in H2; [|reflexivity].
        assert (E2 : (3 * close / 100 * 100 == 3 * close)%Q) by field.
        rewrite E2 in H2. lra. }
      rewrite Hnl, Hnh. reflexivity.
Qed.

Lemma volatility_regime_by_true_ranges_witness :
  Server._fetch_volatility_regime (firstn 13 Samples.quiet_hist) = MEDIUM
  /\ Server._fetch_volatility_regime Samples.quiet_hist = LOW.
Proof.
  split.
  - apply (proj1 (volatility_regime_by_true_ranges
                    (firstn 13 Samples.quiet_hist))).
    cbn. lia.
  - apply (proj2 (volatility_regime_by_true_ranges Samples.quiet_hist));
      [cbn; lia|reflexivity|].
    vm_compute. repeat constructor.
Defined.

(** ** VehicleSelector.select for any thresholds *)

(** X19. For a selector built with any thresholds: the recommendation is
    an option vehicle exactly when the timeframe is SWING, the expected
    move is not below the selector's minimum and the volatility is not
    LOW; an option vehicle carries the selector's DTE range, a delta
    range and the expected move; STOCK carries no DTE range, delta range,
    spread type or width text; a spread type is named exactly for
    OPTION_SPREAD; and a reasoning text is always given. *)
Theorem option_vehicle_conditions :
  forall (self : VehicleSelector.t) (timeframe : Timeframe)
         (regime : VolatilityRegime) (bias : string) (move : Q),
    let rec := VehicleSelector.select self timeframe regime bias move in
    (VehicleRecommendation.vehicle rec <> STOCK
     <-> timeframe = SWING
         /\ ~ (move < VehicleSelector._min_move self)%Q
         /\ regime <> LOW)
    /\ (VehicleRecommendation.vehicle rec <> STOCK ->
        VehicleRecommendation.dte_range rec
        = Some (VehicleSelector._swing_min_dte self,
                VehicleSelector._swing_max_dte self)
        /\ VehicleRecommendation.delta_range rec <> None
        /\ VehicleRecommendation.expected_move_percent rec = Some move)
    /\ (VehicleRecommendation.vehicle rec = STOCK ->
        VehicleRecommendation.dte_range rec = None
        /\ VehicleRecommendation.delta_range rec = None
        /\ VehicleRecommendation.spread_type rec = None
        /\ VehicleRecommendation.spread_width_info rec = None)
    /\ (VehicleRecommendation.spread_type rec <> None
        <-> VehicleRecommendation.vehicle rec = OPTION_SPREAD)
    /\ VehicleRecommendation.reasoning rec <> None.
Proof.
  intros self timeframe regime bias move rec. subst rec.
  unfold VehicleSelector.select.
  destruct (Py.Qltb move (VehicleSelector._min_move self)) eqn:Hmove;
    [apply Qltb_lt in Hmove
    |apply Qltb_ge in Hmove;
     assert (Hnlt : ~ (move < VehicleSelector._min_move self)%Q)
       by (intro H; exact (Qlt_not_le _ _ H Hmove))];
    destruct (String.eqb bias "bullish");
    destruct timeframe, regime; cbn;
    (split; [split; [intro H; try (contradiction H; reflexivity);
                     repeat split; try assumption; discriminate
                    |intros [H1 [H2 H3]]; try discriminate;
                     try contradiction; try (contradiction H3; reflexivity)]
            |]);
    (split; [intro H; try (contradiction H; reflexivity);
             repeat split; discriminate|]);
    (split; [intro H; try discriminate H; repeat split|]);
    (split; [split; intro H; try reflexivity; try discriminate;
             try (contradiction H; reflexivity)|]);
    discriminate.
Qed.

Lemma option_vehicle_conditions_witness :
  let custom := VehicleSelector.mk 5 14 21 in
  VehicleRecommendation.vehicle
    (VehicleSelector.select custom SWING HIGH "bearish" 4)
  = STOCK
  /\ VehicleRecommendation.dte_range
       (VehicleSelector.select custom SWING HIGH "bearish" 6)
     = Some (14, 21)%Z.
Proof.
  intro custom. subst custom. split.
  - destruct (VehicleRecommendation.vehicle
                (VehicleSelector.select (VehicleSelector.mk 5 14 21)
                                        SWING HIGH "bearish" 4)) eqn:E;
      try reflexivity; exfalso;
      (assert (Hopt : VehicleRecommendation.vehicle
                        (VehicleSelector.select (VehicleSelector.mk 5 14 21)
                                                SWING HIGH "bearish" 4)
                      <> STOCK) by (rewrite E; discriminate));
      apply (proj1 (option_vehicle_conditions
                      (VehicleSelector.mk 5 14 21) SWING HIGH "bearish" 4))
        in Hopt;
      destruct Hopt as [_ [Hmove _]]; apply Hmove; reflexivity.
  - apply (proj1 (proj2 (option_vehicle_conditions
                           (VehicleSelector.mk 5 14 21)
                           SWING HIGH "bearish" 6))).
    apply (proj2 (proj1 (option_vehicle_conditions
                           (VehicleSelector.mk 5 14 21)
                           SWING HIGH "bearish" 6))).
    split; [reflexivity|]. split; [intro H; discriminate H|discriminate].
Defined.

(** ** Server: the comparison entry and the risk response *)

(** X20. The comparison entry of a symbol adds up both sides from the raw
    frames, an empty frame counting as nothing: its total volume is the
    sum of all call and put volumes, its liquid contracts the number of
    rows of either frame with volume of at least 75; its ATM IV is the
    calls' one, never the puts', so it is absent when the calls frame is
    empty; its put/call ratio is the volume ratio of the two sides. *)
Theorem comparison_entry_totals `{np : Numpy.sort} :
  forall (symbol : string) (current_price : Q) (calls_df puts_df : DataFrame),
    let entry :=
      Server._fetch_symbol_options_data symbol current_price
                                        calls_df puts_df in
    let calls :=
      ChainAnalyzer.analyze_chain calls_df current_price 75 in
    let puts :=
      ChainAnalyzer.analyze_chain puts_df current_price 75 in
    SymbolOptionsComparison.total_volume entry
    = (Pandas.sum (map Row.volume calls_df)
       + Pandas.sum (map Row.volume puts_df))%Z
    /\ SymbolOptionsComparison.liquid_contracts entry
       = (Z.of_nat (List.length (ChainAnalyzer.liquid calls_df 75))
          + Z.of_nat (List.length (ChainAnalyzer.liquid puts_df 75)))%Z
    /\ SymbolOptionsComparison.atm_iv entry
       = match calls with
         | Some c => ChainAnalysis.atm_iv c
         | None => None
         end
    /\ SymbolOptionsComparison.put_call_ratio entry
       = Spec.volume_ratio calls puts.
Proof.
  intros symbol current_price calls_df puts_df. cbv zeta.
  unfold Server._fetch_symbol_options_data, Spec.volume_ratio.
  change Config.DEFAULT_MIN_VOLUME with 75%Z.
  pose proof (analyze_chain_totals calls_df current_price 75) as Hc.
  pose proof (analyze_chain_totals puts_df current_price 75) as Hp.
  destruct (ChainAnalyzer.analyze_chain calls_df current_price 75) as [c|];
    destruct (ChainAnalyzer.analyze_chain puts_df current_price 75) as [p|];
    cbn [SymbolOptionsComparison.total_volume
         SymbolOptionsComparison.liquid_contracts
         SymbolOptionsComparison.atm_iv
         SymbolOptionsComparison.put_call_ratio];
    repeat match goal with
           | H : _ /\ _ |- _ => destruct H as [? [? ?]]
           | H : ?df = [] |- _ => subst df
           end;
    repeat split; cbn [map ChainAnalyzer.liquid filter List.length];
    change (Pandas.sum []) with 0%Z; lia.
Qed.

(** X21. The risk response tolerates a missing side: the calls analysis
    is absent exactly when puts only were asked for or the calls frame is
    empty, and likewise for puts; whenever a side is absent the put/call
    ratio is absent; the warnings and opportunities are those of [assess]
    on the sides reported; and at most the first 10 expirations are
    listed, in their order. *)
Theorem risk_response_partial_absence `{np : Numpy.sort} :
  forall (symbol timestamp : string) (opt_type : OptionType)
         (min_volume : Z) (current_price : Q) (expirations : list string)
         (selected_exp : string) (dte : Z) (calls_df puts_df : DataFrame),
    let response :=
      Server.options_risk_analysis symbol timestamp opt_type min_volume
                                   current_price expirations selected_exp
                                   dte calls_df puts_df in
    (OptionsRiskResponse.calls response = None
     <-> opt_type = PUTS \/ calls_df = [])
    /\ (OptionsRiskResponse.puts response = None
        <-> opt_type = CALLS \/ puts_df = [])
    /\ (OptionsRiskResponse.calls response = None
        \/ OptionsRiskResponse.puts response = None ->
        OptionsRiskResponse.put_call_ratio response = None)
    /\ (OptionsRiskResponse.risk_warnings response,
        OptionsRiskResponse.opportunities response)
       = RiskEngine.assess (OptionsRiskResponse.calls response)
                           (OptionsRiskResponse.puts response)
                           (OptionsRiskResponse.put_call_ratio response)
                           dte
    /\ (List.length (OptionsRiskResponse.available_expirations response)
        <= 10)%nat
    /\ exists later,
        expirations
        = OptionsRiskResponse.available_expirations response ++ later.
Proof.
  intros symbol timestamp opt_type min_volume current_price expirations
         selected_exp dte calls_df puts_df.
  cbv zeta. unfold Server.options_risk_analysis.
  cbn [OptionsRiskResponse.calls OptionsRiskResponse.puts
       OptionsRiskResponse.put_call_ratio OptionsRiskResponse.risk_warnings
       OptionsRiskResponse.opportunities
       OptionsRiskResponse.available_expirations].
  assert (Hnone : forall df,
             ChainAnalyzer.analyze_chain df current_price min_volume = None
             <-> df = []).
  { intro df. split; [|intros ->; reflexivity].
    destruct df; [reflexivity|discriminate]. }
  split; [|split; [|split; [|split; [|split]]]].
  - destruct opt_type; rewrite ?Hnone; split; try tauto;
      try (intros [H | H]; [discriminate H|exact H]);
      intros _; reflexivity.
  - destruct opt_type; rewrite ?Hnone; split; try tauto;
      try (intros [H | H]; [discriminate H|exact H]);
      intros _; reflexivity.
  - intros [H | H]; unfold Server._compute_pcr; rewrite H;
      [reflexivity|].
    destruct (match opt_type with
              | PUTS => None
              | _ => ChainAnalyzer.analyze_chain calls_df current_price
                                                 min_volume
              end); reflexivity.
  - symmetry. apply surjective_pairing.
  - rewrite length_firstn. change Config.MAX_EXPIRATIONS_RETURNED with 10%nat.
    lia.
  - exists (skipn Config.MAX_EXPIRATIONS_RETURNED expirations).
    symmetry. apply firstn_skipn.
Qed.

(** ** ChainAnalyzer.fetch_ticker_data *)

(** X22. [fetch_ticker_data] never returns a price that is zero or
    negative.  When the info can be read, the price returned is the
    info's current price whenever that is present and not zero, and the
    info's regular market price only when the current price is missing
    or zero; when the info cannot be read it is the last close of the
    history.  It raises the data error "No price data available" only
    when the info cannot be read and the history is empty, and "Invalid
    current price" otherwise, under the upper-cased, stripped symbol. *)
Theorem fetched_price_is_positive :
  forall (symbol : string) (info : option TickerInfo.t)
         (hist_close : list Q),
    match ChainAnalyzer.fetch_ticker_data symbol info hist_close with
    | Py.Return p =>
        (0 < p)%Q
        /\ match info with
           | Some i =>
               (forall c,
                   TickerInfo.currentPrice i = Some c ->
                   ~ (c == 0)%Q -> p = c)
               /\ (TickerInfo.currentPrice i = None
                   \/ (exists c,
                          TickerInfo.currentPrice i = Some c
                          /\ (c == 0)%Q) ->
                   TickerInfo.regularMarketPrice i = Some p)
           | None => exists earlier, hist_close = earlier ++ [p]
           end
    | Py.Raise e =>
        e = Py.OptionsDataError (Py.strip (Py.upper symbol))
                                "Invalid current price"
        \/ (e = Py.OptionsDataError (Py.strip (Py.upper symbol))
                                    "No price data available"
            /\ info = None /\ hist_close = [])
    end.
Proof.
  intros symbol info hist_close. unfold ChainAnalyzer.fetch_ticker_data.
  assert (Hpos : forall q, Qle_bool q 0 = false -> (0 < q)%Q).
  { intros q E. apply Qltb_lt. unfold Py.Qltb. rewrite E. reflexivity. }
  destruct info as [i|].
  - destruct (TickerInfo.currentPrice i) as [c|] eqn:Ecur.
    + destruct (Qeq_bool c 0) eqn:Ez.
      * apply Qeq_bool_iff in Ez.
        destruct (TickerInfo.regularMarketPrice i) as [q|] eqn:Er;
          [|left; reflexivity].
        destruct (Qle_bool q 0) eqn:E; [left; reflexivity|].
        split; [exact (Hpos q E)|]. split.
        -- intros c' Hc' Hne. injection Hc' as <-. contradiction.
        -- intros _. reflexivity.
      * destruct (Qle_bool c 0) eqn:E; [left; reflexivity|].
        split; [exact (Hpos c E)|]. split.
        -- intros c' Hc' _. injection Hc' as <-. reflexivity.
        -- intros [H | [c' [Hc' H0]]]; [discriminate H|].
           injection Hc' as <-. apply Qeq_bool_iff in H0. congruence.
    + destruct (TickerInfo.regularMarketPrice i) as [q|] eqn:Er;
        [|left; reflexivity].
      destruct (Qle_bool q 0) eqn:E; [left; reflexivity|].
      split; [exact (Hpos q E)|]. split.
      * intros c' Hc' _. discriminate Hc'.
      * intros _. reflexivity.
  - destruct (rev hist_close) as [|close older] eqn:Er.
    + right. split; [reflexivity|]. split; [reflexivity|].
      apply (f_equal (@rev Q)) in Er. rewrite rev_involutive in Er.
      exact Er.
    + destruct (Qle_bool close 0) eqn:E; [left; reflexivity|].
      split; [exact (Hpos close E)|].
      exists (rev older).
      apply (f_equal (@rev Q)) in Er. rewrite rev_involutive in Er.
      exact Er.
Qed.

(** ** Server.options_vehicle_selection *)

(** X23. With fewer than 14 bars of history the regime falls back to
    MEDIUM, so the vehicle selection never recommends a spread: a swing
    trade whose expected move is at least 3.0 gets a call for the bias
    "bullish" and a put for any other bias, and everything else gets
    stock. *)
Theorem thin_history_never_recommends_spread :
  forall (tf : Timeframe) (bias : string) (move : Q)
         (hist : list Server.Bar),
    (List.length hist < 14)%nat ->
    let result := Server.options_vehicle_selection tf bias move hist in
    snd result = MEDIUM
    /\ VehicleRecommendation.vehicle (fst result) <> OPTION_SPREAD
    /\ (tf = SWING -> ~ (move < 3)%Q ->
        VehicleRecommendation.vehicle (fst result)
        = if String.eqb bias "bullish" then OPTION_CALL else OPTION_PUT)
    /\ (tf <> SWING \/ (move < 3)%Q ->
        VehicleRecommendation.vehicle (fst result) = STOCK).
Proof.
  intros tf bias move hist Hlen. cbv zeta.
  unfold Server.options_vehicle_selection, Server._fetch_volatility_regime.
  apply Nat.ltb_lt in Hlen. rewrite Hlen. cbn [fst snd].
  unfold VehicleSelector.select.
  change (VehicleSelector._min_move VehicleSelector.default) with 3%Q.
  split; [reflexivity|].
  destruct (Py.Qltb move 3) eqn:Hmove;
    [apply Qltb_lt in Hmove
    |apply Qltb_ge in Hmove;
     assert (Hnlt : ~ (move < 3)%Q)
       by (intro H; exact (Qlt_not_le _ _ H Hmove))];
    destruct (String.eqb bias "bullish"); destruct tf; cbn;
    (split; [discriminate|]);
    (split; [intros; try reflexivity; try discriminate; contradiction|]);
    intros [H | H]; try reflexivity; try contradiction;
    contradiction H; reflexivity.
Qed.

Lemma thin_history_never_recommends_spread_witness :
  let result :=
    Server.options_vehicle_selection SWING "bearish" 5
                                     (firstn 5 Samples.quiet_hist) in
  snd result = MEDIUM
  /\ VehicleRecommendation.vehicle (fst result) = OPTION_PUT.
Proof.
  destruct (thin_history_never_recommends_spread
              SWING "bearish" 5 (firstn 5 Samples.quiet_hist)
              ltac:(cbn; lia))
    as [Hregime [_ [Hoption _]]].
  cbv zeta. split; [exact Hregime|].
  apply Hoption; [reflexivity|intro H; discriminate H].
Defined.

(** ** Instances of the properties above *)

Lemma top_lists_hold_the_largest_witness :
  exists a top rest,
    ChainAnalyzer.analyze_chain (np := Samples.keeping_order)
                                Samples.sample_options_df 106 75 = Some a
    /\ ChainAnalysis.top_volume_strikes a = top :: rest
    /\ Forall (fun row => (Row.volume row <= TopVolumeStrike.volume top)%Z)
              (ChainAnalyzer.liquid Samples.sample_options_df 75).
Proof.
  destruct (top_lists_hold_the_largest (np := Samples.keeping_order)
              (Samples.row 95 50 1000 (45 # 100) (780 # 100) (820 # 100))
              (tl Samples.sample_options_df) 106 75)
    as [a [Ha [_ [_ [Hfirst _]]]]].
  assert (Htop : exists top rest,
             ChainAnalysis.top_volume_strikes a = top :: rest).
  { change (Samples.row 95 50 1000 (45 # 100) (780 # 100) (820 # 100)
            :: tl Samples.sample_options_df)
      with Samples.sample_options_df in Ha.
    vm_compute in Ha. injection Ha as <-. do 2 eexists. reflexivity. }
  destruct Htop as [top [rest Htop]].
  exists a, top, rest. split; [exact Ha|]. split; [exact Htop|].
  apply Forall_forall. intros row Hrow.
  exact (Hfirst top rest row Htop Hrow).
Defined.

Lemma summary_sentiment_from_volumes_witness :
  OptionsSummaryResponse.sentiment
    (Server.options_summary (np := Samples.keeping_order)
                            "SPY" "2025-01-07T10:00:00" 101 "2025-02-07" 31
                            Samples.sample_options_df Samples.tied_df)
  = "bullish"%string.
Proof.
  apply (proj2 (proj1 (proj2 (summary_sentiment_from_volumes
                                (np := Samples.keeping_order)
                                "SPY" "2025-01-07T10:00:00" 101
                                "2025-02-07" 31
                                Samples.sample_options_df
                                Samples.tied_df)))).
  split; [discriminate|]. split; [discriminate|].
  split; vm_compute; reflexivity.
Defined.

Lemma risk_response_partial_absence_witness :
  let response :=
    Server.options_risk_analysis (np := Samples.keeping_order)
                                 "SPY" "2025-01-07T10:00:00" BOTH 75 101
                                 Samples.expirations "2025-02-07" 31
                                 Samples.puts_df [] in
  OptionsRiskResponse.puts response = None
  /\ OptionsRiskResponse.put_call_ratio response = None.
Proof.
  destruct (risk_response_partial_absence (np := Samples.keeping_order)
              "SPY" "2025-01-07T10:00:00" BOTH 75 101
              Samples.expirations "2025-02-07" 31 Samples.puts_df [])
    as [_ [Hputs [Hpcr _]]].
  cbv zeta in *.
  assert (Hnone :
            OptionsRiskResponse.puts
              (Server.options_risk_analysis (np := Samples.keeping_order)
                 "SPY" "2025-01-07T10:00:00" BOTH 75 101
                 Samples.expirations "2025-02-07" 31 Samples.puts_df [])
            = None)
    by (apply Hputs; right; reflexivity).
  split; [exact Hnone|]. apply Hpcr. right. exact Hnone.
Defined.

(** ** Round trips *)

(** X24. Asking for the date that the automatic selection picked returns
    that date, under any floor: if, with no request, [select_expiration]
    returns a non-empty entry, then requesting that entry returns it
    whatever [min_dte] is. *)
Theorem requesting_the_selected_date_returns_it :
  forall (today : Py.date) (expirations : list string)
         (min_dte other_floor : Z) (e : string),
    ChainAnalyzer.select_expiration today expirations None min_dte
    = Py.Return e ->
    e <> EmptyString ->
    ChainAnalyzer.select_expiration today expirations (Some e) other_floor
    = Py.Return e.
Proof.
  intros today expirations min_dte other_floor e Hsel Hne.
  assert (Hin : In e expirations).
  { destruct expirations as [|x rest]; [discriminate Hsel|].
    destruct (auto_select_member today (x :: rest) min_dte
                                 ltac:(discriminate))
      as [e' [He' Hin]].
    cbn [ChainAnalyzer.select_expiration] in Hsel.
    rewrite He' in Hsel. injection Hsel as <-. exact Hin. }
  unfold ChainAnalyzer.select_expiration.
  apply in_tuple_In in Hin. rewrite Hin.
  destruct e; [contradiction Hne; reflexivity|reflexivity].
Qed.

Lemma requesting_the_selected_date_returns_it_witness :
  ChainAnalyzer.select_expiration Samples.today Samples.expirations
                                  (Some "2025-02-07"%string) 365
  = Py.Return "2025-02-07"%string.
Proof.
  apply (requesting_the_selected_date_returns_it
           Samples.today Samples.expirations 7 365 "2025-02-07");
    [reflexivity|discriminate].
Defined.
